(** * Traycer Mock: the planning workflow, its generation adapter and the
      workspace analyzer

    A shallow embedding of the TypeScript sources

    - [codebaseAnalyzer.ts]  (class [CodebaseAnalyzer]),
    - [geminiService.ts]     (class [GeminiService]),
    - [plannerProvider.ts]   (class [PlannerProvider]),
    - [sidebarProvider.ts]   (class [SidebarProvider], its message handlers),
    - [extension.ts]         (the commands it registers on the provider),
    - [types.ts]

    followed by the properties of the design document that can be stated
    over it. (In the sources at hand [PlannerProvider] and the activation
    code follow [GeminiService] in the file [geminiService.ts].)

    Conventions of the embedding.

    - A JavaScript string is a sequence of code units; the embedding keeps the
      code units below 256 (Rocq's [string]), which is enough for every
      literal the sources compare against.
    - An [async] command of the tree is run to completion before the next
      one starts, so a command is a function from the state of the
      extension before the call to the state after it. Two things happen
      in the middle of a method and are steps of their own. The analysis
      the sidebar starts when its view is resolved is not awaited: its
      start ([initializeCodebaseContext]) and its end ([analysisSettled])
      are two steps, and messages are handled in between. The window can
      be closed while a start or a submission awaits the adapter: what the
      next activation finds is the storage as the method left it before
      the call ([closedDuring]).
    - A [throw] carries an [Error] object or any other value
      ([JS.Exception]).
    - Everything a method receives from outside (what the user types or
      clicks, what the backend answers, what the file system holds) is an
      argument of the method, universally quantified in the theorems.
    - Everything a method does to the outside (writes to the workspace
      storage, notifications, calls to collaborators) is appended to a
      trace, so that statements about "every write" or "every call" are
      statements about that trace. *)

From Stdlib Require Import Ascii DecimalString.
From stdpp Require Import gmap strings list.

Open Scope string_scope.
Open Scope list_scope.

Set Warnings "-register-all".

(* ===================================================================== *)
(** * JavaScript values used by the sources *)
(* ===================================================================== *)

Module JS.

(** ** Strings *)

(** White space as [String.prototype.trim] sees it, among the code units
    below 256: TAB, LF, VT, FF, CR, SPACE and NBSP. *)
Definition isWhiteSpace (c : ascii) : bool :=
  let n := nat_of_ascii c in
  (((9 <=? n) && (n <=? 13)) || (n =? 32) || (n =? 160))%nat.

Fixpoint trimStart (s : string) : string :=
  match s with
  | EmptyString => EmptyString
  | String c s' => if isWhiteSpace c then trimStart s' else s
  end.

Fixpoint trimEnd (s : string) : string :=
  match s with
  | EmptyString => EmptyString
  | String c s' =>
      match trimEnd s' with
      | EmptyString => if isWhiteSpace c then EmptyString else String c EmptyString
      | t => String c t
      end
  end.

(** [s.trim()] *)
Definition trim (s : string) : string := trimEnd (trimStart s).

(** Lower-casing of one code unit: [A-Z] and the Latin-1 capitals
    (U+00C0 to U+00DE without the multiplication sign U+00D7) move up by
    32, every other code unit below 256 is its own lower case. *)
Definition toLowerChar (c : ascii) : ascii :=
  let n := nat_of_ascii c in
  if (((65 <=? n) && (n <=? 90)) || ((192 <=? n) && (n <=? 222) && negb (n =? 215)))%nat
  then ascii_of_nat (n + 32)
  else c.

(** [s.toLowerCase()] *)
Fixpoint toLowerCase (s : string) : string :=
  match s with
  | EmptyString => EmptyString
  | String c s' => String (toLowerChar c) (toLowerCase s')
  end.

(** [s.includes(sub)]: [sub] occurs in [s] as a contiguous substring. *)
Fixpoint includes (s sub : string) : bool :=
  String.prefix sub s
  || match s with
     | EmptyString => false
     | String _ s' => includes s' sub
     end.

(** [s.startsWith(p)] *)
Definition startsWith (s p : string) : bool := String.prefix p s.

(** [s.endsWith(p)] *)
Definition endsWith (s p : string) : bool :=
  String.prefix (String.rev p) (String.rev s).

(** [s.split(sep)] for a separator of one code unit (the sources only
    split on the line feed). *)
Fixpoint split (sep : ascii) (s : string) : list string :=
  match s with
  | EmptyString => [EmptyString]
  | String c s' =>
      if Ascii.eqb c sep then EmptyString :: split sep s'
      else match split sep s' with
           | cur :: rest => String c cur :: rest
           | [] => [String c EmptyString]
           end
  end.

(** [s.repeat(n)] *)
Fixpoint repeat (s : string) (n : nat) : string :=
  match n with
  | O => EmptyString
  | S n' => s +:+ repeat s n'
  end.

(** [String(n)] for a non-negative integer, as template literals print
    [length]s and counters. *)
Definition ofNat (n : nat) : string := NilEmpty.string_of_uint (Nat.to_uint n).

Definition LF : ascii := ascii_of_nat 10.

(** The string of one double quote. *)
Definition QUOTE : string := String (ascii_of_nat 34) EmptyString.

(** ** Arrays *)

(** [arr.includes(x)] on an array of strings. *)
Definition arrayIncludes (arr : list string) (x : string) : bool :=
  bool_decide (x ∈ arr).

(** [arr.join(sep)] *)
Fixpoint join (sep : string) (arr : list string) : string :=
  match arr with
  | [] => EmptyString
  | [x] => x
  | x :: arr' => x +:+ sep +:+ join sep arr'
  end.

(** [arr.slice(0, n)] *)
Definition slice0 {A} (n : nat) (arr : list A) : list A := take n arr.

(** [[...new Set(arr)]]: the distinct elements in order of first
    occurrence. *)
Fixpoint dedupe (seen arr : list string) : list string :=
  match arr with
  | [] => []
  | x :: arr' =>
      if arrayIncludes seen x then dedupe seen arr'
      else x :: dedupe (seen ++ [x]) arr'
  end.

(** ** Parsed JSON *)

(** The values [JSON.parse] produces. An object is its table of own
    properties (one entry per key); a number is kept as an integer, the
    sources only ever look at whether a value is a string. *)
Inductive value : Type :=
| Null
| Bool (b : bool)
| Number (n : Z)
| Str (s : string)
| Array (elems : list value)
| Object (props : list (string * value)).

(** [ToBoolean(v)], the test [item && ...] performs. *)
Definition truthy (v : value) : bool :=
  match v with
  | Null => false
  | Bool b => b
  | Number n => negb (n =? 0)%Z
  | Str s => negb (String.eqb s "")
  | Array _ | Object _ => true
  end.

Fixpoint lookupProp (props : list (string * value)) (key : string) : option value :=
  match props with
  | [] => None
  | (k, v) :: props' => if String.eqb k key then Some v else lookupProp props' key
  end.

(** [v.key] for a truthy [v] and a key that no prototype defines
    ([file], [action], [description]): the own property of an object,
    [undefined] ([None]) on everything else. *)
Definition get (v : value) (key : string) : option value :=
  match v with
  | Object props => lookupProp props key
  | _ => None
  end.

(** [typeof x === "string"] on the result of a property read; the string
    itself when it is one. *)
Definition asString (x : option value) : option string :=
  match x with
  | Some (Str s) => Some s
  | _ => None
  end.

(** What a [throw] carries: an [Error] object with its [name] and
    [message], or any other value ([throw "text"], [throw {...}]), which is
    kept as the string [String(value)] gives for it. (A value whose
    conversion to a string throws, a [Symbol] for instance, is not
    represented.) *)
Inductive Exception : Type :=
| ErrorObject (name message : string)
| Thrown (text : string).

(** [new Error(msg)] *)
Definition Error (msg : string) : Exception := ErrorObject "Error" msg.

(** [error instanceof Error] *)
Definition instanceofError (e : Exception) : bool :=
  match e with
  | ErrorObject _ _ => true
  | Thrown _ => false
  end.

(** [String(error)], as [`${error}`] prints it. For an [Error] object
    this is [Error.prototype.toString]: the message alone when the name is
    empty, the name alone when the message is empty, and otherwise the
    name, a colon, a space and the message. *)
Definition toString (e : Exception) : string :=
  match e with
  | ErrorObject name message =>
      if String.eqb name "" then message
      else if String.eqb message "" then name
      else name +:+ ": " +:+ message
  | Thrown text => text
  end.

End JS.

(* ===================================================================== *)
(** * types.ts *)
(* ===================================================================== *)

(** [enum ActionType]: a string enum, its members are the strings below. *)
Module ActionType.
Definition NEW : string := "new".
Definition MODIFY : string := "modify".
Definition REMOVE : string := "remove".
End ActionType.

(** [interface PlanItem]. The [action] is declared as the union
    ["new" | "modify" | "remove"], which is erased at run time: the field
    holds a string, and membership in the union is a property to be proved
    about the values the code builds. *)
Record PlanItem : Type := {
  file : string;
  action : string;
  description : string;
}.

(** The [phase] of [interface WorkflowState]. *)
Inductive Phase : Type := idle | clarification | planning | ready.

(** [interface WorkflowState] *)
Record WorkflowState : Type := {
  phase : Phase;
  userRequest : string;
  clarificationQuestions : list string;
  clarificationAnswers : list string;
  plan : list PlanItem;
}.

#[global] Instance PlanItem_eq_dec : EqDecision PlanItem.
Proof. solve_decision. Defined.
#[global] Instance Phase_eq_dec : EqDecision Phase.
Proof. solve_decision. Defined.
#[global] Instance WorkflowState_eq_dec : EqDecision WorkflowState.
Proof. solve_decision. Defined.

(** What a method that can [throw] hands back. *)
Inductive Result (A : Type) : Type :=
| Ok (a : A)
| Throw (e : JS.Exception).
Arguments Ok {A} a.
Arguments Throw {A} e.

(** The functions of the platform the sources call and that are not
    modelled further: Node's [path] module, and the decoding of
    [package.json].

    - [path_extname] and [path_join] are [path.extname] and [path.join].
    - [JSON_parse text] is [JSON.parse(text)], [None] when it throws.
    - [packageKeys content] stands for lines 109 to 114 of
      [codebaseAnalyzer.ts]: the [Object.keys] of the spread of the
      [dependencies] and [devDependencies] of [JSON.parse(content)], [None]
      when one of these steps throws. *)
Class Runtime : Type := {
  path_extname : string -> string;
  path_join : string -> string -> string;
  JSON_parse : string -> option JS.value;
  packageKeys : string -> option (list string);
}.

(* ===================================================================== *)
(** * codebaseAnalyzer.ts *)
(* ===================================================================== *)

Module CodebaseAnalyzer.

(** [interface FileInfo] *)
Record FileInfo : Type := {
  path : string;
  content : string;
  language : string;
  size : N;
}.

(** [interface CodebaseContext] *)
Record CodebaseContext : Type := {
  projectType : string;
  frameworks : list string;
  languages : list string;
  keyFiles : list FileInfo;
  structure : string;
  dependencies : list string;
}.

(** ** The workspace as the [vscode.workspace] API shows it *)

(** One [Uri] returned by [findFiles], with what the calls on it answer:
    [asRelativePath(file)], [fs.stat(file)] (its [size], [None] when the
    call rejects) and [fs.readFile(file)] decoded as UTF-8 ([None] when
    the call rejects). *)
Record Uri : Type := {
  fsPath : string;
  asRelativePath : string;
  stat : option N;
  readFile : option string;
}.

(** [vscode.FileType.Directory] *)
Definition Directory : N := 2.

Record Workspace : Type := {
  (** [workspace.workspaceFolders]: [undefined], or the [uri.fsPath] of
      each folder *)
  workspaceFolders : option (list string);
  (** [workspace.findFiles(include, exclude, maxResults)], [None] when it
      rejects *)
  findFiles : string -> string -> nat -> option (list Uri);
  (** [workspace.fs.readDirectory(Uri.file(dirPath))]: the names with
      their [FileType], [None] when it rejects *)
  readDirectory : string -> option (list (string * N));
}.

Definition maxFileSize : N := 50000.
Definition maxTotalFiles : nat := 20.

Section Analyzer.
Context `{R : Runtime}.
Variable ws : Workspace.

Definition languageMap : list (string * string) :=
  [ (".ts", "TypeScript"); (".tsx", "TypeScript React");
    (".js", "JavaScript"); (".jsx", "JavaScript React");
    (".json", "JSON"); (".md", "Markdown"); (".css", "CSS");
    (".scss", "SCSS"); (".html", "HTML"); (".py", "Python");
    (".java", "Java"); (".go", "Go"); (".rs", "Rust") ].

Fixpoint lookupLanguage (table : list (string * string)) (ext : string) : option string :=
  match table with
  | [] => None
  | (k, v) :: table' => if String.eqb k ext then Some v else lookupLanguage table' ext
  end.

Definition getLanguageFromPath (filePath : string) : string :=
  let ext := JS.toLowerCase (path_extname filePath) in
  match lookupLanguage languageMap ext with
  | Some l => l
  | None => "Unknown"
  end.

Definition keyFilePatterns : list string :=
  [ "**/package.json";
    "**/tsconfig.json";
    "**/next.config.*";
    "**/vite.config.*";
    "**/webpack.config.*";
    "**/tailwind.config.*";
    "**/src/**/*.{ts,tsx,js,jsx}";
    "**/app/**/*.{ts,tsx,js,jsx}";
    "**/pages/**/*.{ts,tsx,js,jsx}";
    "**/components/**/*.{ts,tsx,js,jsx}";
    "**/lib/**/*.{ts,tsx,js,jsx}";
    "**/utils/**/*.{ts,tsx,js,jsx}";
    "**/*.md";
    "**/Dockerfile";
    "**/.env*" ].

(** The inner loop of [findKeyFiles], [for (const file of foundFiles)],
    started with the [files] gathered so far. *)
Fixpoint scanFound (files : list FileInfo) (foundFiles : list Uri) : list FileInfo :=
  match foundFiles with
  | [] => files
  | file :: rest =>
      if (maxTotalFiles <=? length files)%nat then files (* break *)
      else
        match stat file with
        | None => scanFound files rest (* catch *)
        | Some sz =>
            if (maxFileSize <? sz)%N then scanFound files rest (* continue *)
            else
              match readFile file with
              | None => scanFound files rest (* catch *)
              | Some textContent =>
                  scanFound
                    (files ++ [ {| path := asRelativePath file;
                                   content := textContent;
                                   language := getLanguageFromPath (fsPath file);
                                   size := sz |} ])
                    rest
              end
        end
  end.

(** The outer loop, [for (const pattern of keyFilePatterns)]. *)
Fixpoint scanPatterns (files : list FileInfo) (patterns : list string) : list FileInfo :=
  match patterns with
  | [] => files
  | pattern :: rest =>
      match findFiles ws pattern "**/node_modules/**" maxTotalFiles with
      | None => scanPatterns files rest (* catch *)
      | Some foundFiles => scanPatterns (scanFound files foundFiles) rest
      end
  end.

Definition findKeyFiles (rootPath : string) : list FileInfo :=
  JS.slice0 maxTotalFiles (scanPatterns [] keyFilePatterns).

Definition extractDependencies (files : list FileInfo) : list string :=
  match List.find (fun f => JS.endsWith (path f) "package.json") files with
  | Some packageJsonFile =>
      match packageKeys (content packageJsonFile) with
      | Some keys => keys
      | None => []
      end
  | None => []
  end.

Definition pushIf (b : bool) (x : string) (arr : list string) : list string :=
  if b then arr ++ [x] else arr.

Definition detectFrameworks (files : list FileInfo) (dependencies : list string) : list string :=
  let frameworks := [] in
  let frameworks := pushIf (JS.arrayIncludes dependencies "next") "Next.js" frameworks in
  let frameworks := pushIf (JS.arrayIncludes dependencies "react") "React" frameworks in
  let frameworks := pushIf (JS.arrayIncludes dependencies "vue") "Vue.js" frameworks in
  let frameworks := pushIf (JS.arrayIncludes dependencies "svelte") "Svelte" frameworks in
  let frameworks := pushIf (JS.arrayIncludes dependencies "express") "Express" frameworks in
  let frameworks := pushIf (JS.arrayIncludes dependencies "fastify") "Fastify" frameworks in
  let frameworks := pushIf (JS.arrayIncludes dependencies "tailwindcss") "Tailwind CSS" frameworks in
  let frameworks := pushIf (JS.arrayIncludes dependencies "typescript") "TypeScript" frameworks in
  let frameworks :=
    pushIf (existsb (fun f => JS.includes (path f) "next.config") files) "Next.js" frameworks in
  let frameworks :=
    pushIf (existsb (fun f => JS.includes (path f) "vite.config") files) "Vite" frameworks in
  let frameworks :=
    pushIf (existsb (fun f => JS.includes (path f) "tailwind.config") files) "Tailwind CSS" frameworks in
  JS.dedupe [] frameworks.

Definition detectLanguages (files : list FileInfo) : list string :=
  JS.dedupe [] (map language files).

Definition determineProjectType (frameworks : list string) (files : list FileInfo) : string :=
  if JS.arrayIncludes frameworks "Next.js" then "Next.js Application"
  else if JS.arrayIncludes frameworks "React" then "React Application"
  else if JS.arrayIncludes frameworks "Vue.js" then "Vue.js Application"
  else if JS.arrayIncludes frameworks "Svelte" then "Svelte Application"
  else if JS.arrayIncludes frameworks "Express" then "Node.js Backend"
  else if existsb (fun f => JS.includes (path f) "package.json") files then "Node.js Project"
  else "Web Project".

(** [buildDirectoryTree]. The recursion goes one level down each time
    and stops at [maxDepth]; [fuel] counts the levels left, so that
    [maxDepth - currentDepth] of it is always enough. *)
Fixpoint buildDirectoryTree (fuel : nat) (dirPath : string) (currentDepth maxDepth : nat) : string :=
  if (maxDepth <=? currentDepth)%nat then ""
  else
    match fuel with
    | O => ""
    | S fuel' =>
        let indent := JS.repeat "  " currentDepth in
        match readDirectory ws dirPath with
        | None => "" (* catch *)
        | Some entries =>
            fold_left
              (fun tree entry =>
                 let name := fst entry in
                 let type := snd entry in
                 if JS.startsWith name "."
                    && negb (JS.arrayIncludes ["src"; "app"; "pages"; "components"] name)
                 then tree
                 else if String.eqb name "node_modules" then tree
                 else
                   let tree := tree +:+ indent +:+ name +:+ String JS.LF "" in
                   if (type =? Directory)%N && (currentDepth <? maxDepth - 1)%nat
                   then tree +:+ buildDirectoryTree fuel' (path_join dirPath name)
                                   (currentDepth + 1) maxDepth
                   else tree)
              entries ""
        end
    end.

Definition generateStructure (rootPath : string) : string :=
  buildDirectoryTree 3 rootPath 0 3.

Definition analyzeWorkspace : Result CodebaseContext :=
  match workspaceFolders ws with
  | None | Some [] => Throw (JS.Error "No workspace folder found")
  | Some (rootPath :: _) =>
      let keyFiles := findKeyFiles rootPath in
      let dependencies := extractDependencies keyFiles in
      let frameworks := detectFrameworks keyFiles dependencies in
      let languages := detectLanguages keyFiles in
      let projectType := determineProjectType frameworks keyFiles in
      let structure := generateStructure rootPath in
      Ok {| projectType := projectType;
            frameworks := frameworks;
            languages := languages;
            keyFiles := keyFiles;
            structure := structure;
            dependencies := dependencies |}
  end.

End Analyzer.

End CodebaseAnalyzer.


Abbreviation CodebaseContext := CodebaseAnalyzer.CodebaseContext.

(* ===================================================================== *)
(** * What a method does to the outside *)
(* ===================================================================== *)

(** The three kinds of [vscode.window.show...Message]. *)
Inductive Notification : Type :=
| Information (message : string)
| Warning (message : string)
| Error (message : string).

(** A call to a collaborator that owns no state of the workflow: the
    notifications it shows, and what it returns or throws. *)
Definition Outcome (A : Type) : Type := (list Notification * Result A)%type.

(** The messages [SidebarProvider] posts to its webview. A Copilot prompt
    is the triple of its [file], [action] and [prompt]. *)
Inductive WebviewMessage : Type :=
| showStatus (message : string)
| showLoading (message : string)
| showClarifications (questions : list string) (originalRequest : string)
| showPlan (plan : list PlanItem)
| showCopilotPrompts (prompts : list (string * string * string))
| showError (message : string)
| resetWorkflow.

(** One entry of the trace. *)
Inductive Event : Type :=
(** [context.workspaceState.update(key, value)] *)
| EvUpdate (key : string) (value : WorkflowState)
(** [_onDidChangeTreeData.fire()] *)
| EvFire
(** a notification shown to the user *)
| EvNotify (n : Notification)
(** [geminiService.generateClarificationQuestions(userRequest, codebaseContext)] *)
| EvClarification (userRequest : string) (codebaseContext : option CodebaseContext)
(** [geminiService.generatePlan(userRequest, clarificationAnswers, codebaseContext)] *)
| EvPlan (userRequest : string) (clarificationAnswers : list string)
         (codebaseContext : option CodebaseContext)
(** [fileManipulator.applyPlanItem(planItem)] *)
| EvApply (planItem : PlanItem)
(** [codebaseAnalyzer.analyzeWorkspace()] *)
| EvAnalyze
(** [webview.postMessage(message)] *)
| EvPost (message : WebviewMessage).

(** The state [S] of the object whose method runs ([this]) and the trace
    so far. *)
Record World (S : Type) : Type := { this : S; trace : list Event }.
Arguments this {S} w.
Arguments trace {S} w.

(** A method body: it reads and writes [this], appends to the trace, and
    returns or throws. *)
Definition M (S A : Type) : Type := World S -> Result A * World S.

#[global] Instance M_ret {S} : MRet (M S) := fun A a w => (Ok a, w).

#[global] Instance M_bind {S} : MBind (M S) := fun A B f m w =>
  match m w with
  | (Ok a, w') => f a w'
  | (Throw e, w') => (Throw e, w')
  end.

(** [throw e] *)
Definition throw {S A} (e : JS.Exception) : M S A := fun w => (Throw e, w).

(** [try { body } catch (error) { handler }] *)
Definition tryCatch {S A} (body : M S A) (handler : JS.Exception -> M S A) : M S A := fun w =>
  match body w with
  | (Ok a, w') => (Ok a, w')
  | (Throw e, w') => handler e w'
  end.

(** Read [this]. *)
Definition getThis {S} : M S S := fun w => (Ok (this w), w).

(** An assignment to a field of [this]. *)
Definition assign {S} (f : S -> S) : M S unit := fun w =>
  (Ok (), {| this := f (this w); trace := trace w |}).

Definition emit {S} (e : Event) : M S unit := fun w =>
  (Ok (), {| this := this w; trace := trace w ++ [e] |}).

Fixpoint emitAll {S} (ns : list Notification) : M S unit :=
  match ns with
  | [] => mret ()
  | n :: ns' => emit (EvNotify n);; emitAll ns'
  end.

(** [await collaborator.method(args)]: the call is recorded as [e], the
    notifications of the collaborator are shown, and its result is returned
    or thrown. *)
Definition await {S A} (e : Event) (o : Outcome A) : M S A :=
  emit e;;
  emitAll (fst o);;
  match snd o with
  | Ok a => mret a
  | Throw err => throw err
  end.

(** [vscode.window] *)
Module window.

Definition showInformationMessage {S} (message : string) : M S unit :=
  emit (EvNotify (Information message)).

Definition showErrorMessage {S} (message : string) : M S unit :=
  emit (EvNotify (Error message)).

(** [showWarningMessage(message)] *)
Definition showWarningMessage {S} (message : string) : M S unit :=
  emit (EvNotify (Warning message)).

(** [showWarningMessage(message, ...items)]: the warning is shown with its
    buttons and the item the user [picked] is returned ([None] when the
    user dismisses it). *)
Definition askWarningMessage {S} (message : string) (picked : option string) : M S (option string) :=
  emit (EvNotify (Warning message));;
  mret picked.

(** [showInputBox({ validateInput, ... })]. The user has [typed] a value, or
    dismissed the box ([None]). The box only closes on a value for which
    [validateInput] returns [null] ([None] below); a value it rejects
    cannot be accepted, so the box then ends dismissed. *)
Definition showInputBox {S} (validateInput : string -> option string)
    (typed : option string) : M S (option string) :=
  match typed with
  | Some value =>
      match validateInput value with
      | None => mret (Some value)
      | Some _ => mret None
      end
  | None => mret None
  end.

End window.

(* ===================================================================== *)
(** * geminiService.ts *)
(* ===================================================================== *)

Module GeminiService.

(** What [generateContent] is asked. The prompt text is assembled from
    exactly these values (the context when there is one, the request, and
    for a plan the answers), so a backend whose answer depends on the
    prompt is a function of them. *)
Inductive Prompt : Type :=
| ClarificationPrompt (codebaseContext : option CodebaseContext) (userRequest : string)
| PlanPrompt (codebaseContext : option CodebaseContext) (userRequest : string)
             (clarificationAnswers : list string).

(** The service once [initializationPromise] has settled. [model] is the
    client of the backend: [generateContent(prompt)] followed by
    [response.text()], which returns the text or throws. *)
Record t : Type := {
  isInitialized : bool;
  model : option (Prompt -> Result string);
}.

Definition ensureInitialized (svc : t) : bool :=
  isInitialized svc && bool_decide (is_Some (model svc)).

(** [this.model.generateContent(prompt)] and [response.text()] *)
Definition generateContent (svc : t) (prompt : Prompt) : Result string :=
  match model svc with
  | Some m => m prompt
  | None => Throw (JS.ErrorObject "TypeError" "Cannot read properties of null")
  end.

Definition getFallbackClarificationQuestions (userRequest : string) : list string :=
  let request := JS.toLowerCase userRequest in
  if JS.includes request "auth" then
    [ "Which authentication service would you like to use (Auth0, Firebase, or build custom)?";
      "Do you need social login options like Google or GitHub?";
      "Should this work with your existing user database?" ]
  else if JS.includes request "api" || JS.includes request "endpoint" then
    [ "Do you prefer a REST API or GraphQL for this feature?";
      "What database should this connect to?";
      "Do you need authentication/authorization on these endpoints?" ]
  else if JS.includes request "database" || JS.includes request "db" then
    [ "Which database system are you using (PostgreSQL, MongoDB, MySQL)?";
      "Do you need migration scripts for existing data?";
      "What ORM or database client do you prefer (Prisma, TypeORM, etc.)?" ]
  else
    [ "What technology stack should this use?";
      "Do you need this to work with existing code or systems?";
      "Are there any specific requirements or constraints?" ].

Definition getFallbackPlan (userRequest : string) : list PlanItem :=
  let request := JS.toLowerCase userRequest in
  if JS.includes request "auth" then
    [ {| file := "src/types/auth.ts";
         action := "new";
         description := "Define authentication types and user interfaces" |};
      {| file := "src/lib/auth.ts";
         action := "new";
         description := "Create Auth0 integration service with login/logout methods" |};
      {| file := "src/components/LoginForm.tsx";
         action := "new";
         description := "Create login form component with Auth0 integration" |};
      {| file := "src/components/ProtectedRoute.tsx";
         action := "new";
         description := "Create route protection component for authenticated pages" |};
      {| file := "src/App.tsx";
         action := "modify";
         description := "Add Auth0 provider and protected routing configuration" |};
      {| file := "src/utils/localAuth.ts";
         action := "remove";
         description := "Remove old local authentication utilities" |} ]
  else
    [ {| file := "src/components/NewFeature.tsx";
         action := "new";
         description := "Create main component for the requested feature" |};
      {| file := "src/types/feature.ts";
         action := "new";
         description := "Define TypeScript types for the new feature" |};
      {| file := "src/App.tsx";
         action := "modify";
         description := "Integrate new feature into main application" |} ].

(** The lines of the answer that are kept as questions:
    [text.split("\n").map(q => q.trim())
         .filter(q => q.length > 0 && q.includes("?")).slice(0, 3)] *)
Definition parseQuestions (text : string) : list string :=
  JS.slice0 3
    (List.filter (fun q => (0 <? String.length q)%nat && JS.includes q "?")
       (map JS.trim (JS.split JS.LF text))).

Definition generateClarificationQuestions (svc : t) (userRequest : string)
    (codebaseContext : option CodebaseContext) : Outcome (list string) :=
  let initialized := ensureInitialized svc in
  if negb initialized then ([], Ok (getFallbackClarificationQuestions userRequest))
  else
    match generateContent svc (ClarificationPrompt codebaseContext userRequest) with
    | Ok text =>
        let questions := parseQuestions text in
        if (0 <? length questions)%nat then ([], Ok questions)
        else ([], Ok (getFallbackClarificationQuestions userRequest))
    | Throw error =>
        ([Warning "Failed to generate questions with AI. Using fallback."],
         Ok (getFallbackClarificationQuestions userRequest))
    end.

(** [s.replace(/fence\n?/g, "")] for a literal, non-empty [fence]: every
    occurrence of [fence], with the line feed that follows it if there is
    one, is removed, scanning from the left. Each step consumes at least
    one code unit of [s], so [String.length s] steps are enough. *)
Fixpoint removeFences (steps : nat) (fence s : string) : string :=
  match steps with
  | O => s
  | S steps' =>
      match s with
      | EmptyString => EmptyString
      | String c s' =>
          if String.prefix fence s then
            let rest := String.substring (String.length fence)
                          (String.length s - String.length fence) s in
            let rest :=
              match rest with
              | String c' rest' => if Ascii.eqb c' JS.LF then rest' else rest
              | EmptyString => rest
              end in
            removeFences steps' fence rest
          else String c (removeFences steps' fence s')
      end
  end.

Definition replaceFence (fence s : string) : string :=
  removeFences (String.length s) fence s.

(** The suffix of [s] that starts at the first [c]. *)
Fixpoint fromFirst (c : ascii) (s : string) : option string :=
  match s with
  | EmptyString => None
  | String a s' => if Ascii.eqb a c then Some s else fromFirst c s'
  end.

(** The prefix of [s] that ends at the last [c]. *)
Fixpoint throughLast (c : ascii) (s : string) : option string :=
  match s with
  | EmptyString => None
  | String a s' =>
      match throughLast c s' with
      | Some t => Some (String a t)
      | None => if Ascii.eqb a c then Some (String a EmptyString) else None
      end
  end.

(** [text.match(/\[[\s\S]*\]/)]: from the first opening bracket to the last
    closing bracket after it. *)
Definition matchArray (text : string) : option string :=
  match fromFirst "[" text with
  | Some (String open rest) =>
      match throughLast "]" rest with
      | Some body => Some (String open body)
      | None => None
      end
  | _ => None
  end.

(** The predicate of [planData.filter(...)]. *)
Definition isValidItem (item : JS.value) : bool :=
  JS.truthy item
  && bool_decide (is_Some (JS.asString (JS.get item "file")))
  && bool_decide (is_Some (JS.asString (JS.get item "action")))
  && bool_decide (is_Some (JS.asString (JS.get item "description")))
  && match JS.asString (JS.get item "action") with
     | Some a => JS.arrayIncludes ["new"; "modify"; "remove"] a
     | None => false
     end.

(** A string property of an element that passed the filter. *)
Definition stringProp (item : JS.value) (key : string) : string :=
  default "" (JS.asString (JS.get item key)).

(** The function of [.map(...)]. *)
Definition toPlanItem (item : JS.value) : PlanItem :=
  {| file := JS.trim (stringProp item "file");
     action := stringProp item "action";
     description := JS.trim (stringProp item "description") |}.

Section WithRuntime.
Context `{R : Runtime}.

(** The [try] block of [generatePlan]. *)
Definition tryGeneratePlan (svc : t) (userRequest : string)
    (clarificationAnswers : list string)
    (codebaseContext : option CodebaseContext) : Result (list PlanItem) :=
  match generateContent svc (PlanPrompt codebaseContext userRequest clarificationAnswers) with
  | Throw error => Throw error
  | Ok responseText =>
      let text := JS.trim responseText in
      let text := JS.trim (replaceFence "```" (replaceFence "```json" text)) in
      match matchArray text with
      | None => Throw (JS.Error "No valid JSON array found in response")
      | Some jsonMatch =>
          match JSON_parse jsonMatch with
          | None => Throw (JS.ErrorObject "SyntaxError" "JSON.parse")
          | Some (JS.Array planData) =>
              let validatedPlan := map toPlanItem (List.filter isValidItem planData) in
              if (length validatedPlan =? 0)%nat
              then Throw (JS.Error "No valid plan items found")
              else Ok validatedPlan
          | Some _ => Throw (JS.Error "Response is not an array")
          end
      end
  end.

Definition generatePlan (svc : t) (userRequest : string)
    (clarificationAnswers : list string)
    (codebaseContext : option CodebaseContext) : Outcome (list PlanItem) :=
  let initialized := ensureInitialized svc in
  if negb initialized then ([], Ok (getFallbackPlan userRequest))
  else
    match tryGeneratePlan svc userRequest clarificationAnswers codebaseContext with
    | Ok validatedPlan => ([], Ok validatedPlan)
    | Throw error =>
        ([Warning "Failed to generate plan with AI. Using fallback."],
         Ok (getFallbackPlan userRequest))
    end.

End WithRuntime.

End GeminiService.

(** What [PlannerProvider] and [SidebarProvider] use of the service they
    are constructed with. *)
Module GenerationAdapter.

Record t : Type := {
  generateClarificationQuestions :
    string -> option CodebaseContext -> Outcome (list string);
  generatePlan :
    string -> list string -> option CodebaseContext -> Outcome (list PlanItem);
}.

(** [GeminiService] is the adapter the extension constructs. *)
Definition gemini `{R : Runtime} (svc : GeminiService.t) : t :=
  {| generateClarificationQuestions := GeminiService.generateClarificationQuestions svc;
     generatePlan := GeminiService.generatePlan svc |}.

End GenerationAdapter.

(** What [PlannerProvider] uses of the [FileManipulator] it is constructed
    with (its source is not part of the sources embedded here):
    [applyPlanItem index planItem] is what the call made for the plan entry
    at [index] does, return ([Ok]) or throw. *)
Module FileManipulator.

Record t : Type := {
  applyPlanItem : nat -> PlanItem -> Result unit;
}.

End FileManipulator.

(* ===================================================================== *)
(** * plannerProvider.ts *)
(* ===================================================================== *)

Module PlannerProvider.

(** The fields of the provider that change: its [workflowState], and the
    [workspaceState] of the extension context it was constructed with. A
    stored value is the value at the time of the [update]. *)
Record t : Type := {
  workflowState : WorkflowState;
  workspaceState : gmap string WorkflowState;
}.

Definition WORKFLOW_STATE_KEY : string := "traycer.workflowState".

(** The initializer of [workflowState], also what [resetWorkflowState]
    assigns. *)
Definition emptyState : WorkflowState :=
  {| phase := idle;
     userRequest := "";
     clarificationQuestions := [];
     clarificationAnswers := [];
     plan := [] |}.

(** ** Assignments to the fields of [this.workflowState] *)

Definition onState (f : WorkflowState -> WorkflowState) (p : t) : t :=
  {| workflowState := f (workflowState p); workspaceState := workspaceState p |}.

Definition set_phase (v : Phase) (s : WorkflowState) : WorkflowState :=
  {| phase := v;
     userRequest := userRequest s;
     clarificationQuestions := clarificationQuestions s;
     clarificationAnswers := clarificationAnswers s;
     plan := plan s |}.

Definition set_userRequest (v : string) (s : WorkflowState) : WorkflowState :=
  {| phase := phase s;
     userRequest := v;
     clarificationQuestions := clarificationQuestions s;
     clarificationAnswers := clarificationAnswers s;
     plan := plan s |}.

Definition set_clarificationQuestions (v : list string) (s : WorkflowState) : WorkflowState :=
  {| phase := phase s;
     userRequest := userRequest s;
     clarificationQuestions := v;
     clarificationAnswers := clarificationAnswers s;
     plan := plan s |}.

Definition set_clarificationAnswers (v : list string) (s : WorkflowState) : WorkflowState :=
  {| phase := phase s;
     userRequest := userRequest s;
     clarificationQuestions := clarificationQuestions s;
     clarificationAnswers := v;
     plan := plan s |}.

Definition set_plan (v : list PlanItem) (s : WorkflowState) : WorkflowState :=
  {| phase := phase s;
     userRequest := userRequest s;
     clarificationQuestions := clarificationQuestions s;
     clarificationAnswers := clarificationAnswers s;
     plan := v |}.

(** [this.workflowState] *)
Definition getState : M t WorkflowState :=
  p ← getThis; mret (workflowState p).

(** ** The private methods *)

Definition refresh : M t unit := emit EvFire.

Definition saveWorkflowState : M t unit :=
  s ← getState;
  assign (fun p => {| workflowState := workflowState p;
                      workspaceState := <[WORKFLOW_STATE_KEY := s]> (workspaceState p) |});;
  emit (EvUpdate WORKFLOW_STATE_KEY s).

Definition loadWorkflowState : M t unit :=
  p ← getThis;
  match workspaceState p !! WORKFLOW_STATE_KEY with
  | Some savedState =>
      assign (onState (fun _ => savedState));;
      refresh
  | None => mret ()
  end.

Definition resetWorkflowState : M t unit :=
  assign (onState (fun _ => emptyState));;
  saveWorkflowState;;
  refresh.

(** [new PlannerProvider(context, geminiService, fileManipulator)], for a
    context whose [workspaceState] is [storage]. *)
Definition constructor (storage : gmap string WorkflowState) : World t :=
  snd (loadWorkflowState
         {| this := {| workflowState := emptyState; workspaceState := storage |};
            trace := [] |}).

(** ** The commands *)

Section Commands.
Variable geminiService : GenerationAdapter.t.
Variable fileManipulator : FileManipulator.t.

(** The [validateInput] of the request box. *)
Definition validateRequest (value : string) : option string :=
  if String.eqb value "" || (String.length (JS.trim value) <? 10)%nat
  then Some "Please enter a more detailed request (at least 10 characters)"
  else None.

(** The [validateInput] of the answer box. *)
Definition validateAnswer (value : string) : option string :=
  if String.eqb value "" || (String.length (JS.trim value) <? 2)%nat
  then Some "Please provide a meaningful answer"
  else None.

(** [!value] on what [showInputBox] resolved to. *)
Definition isMissing (value : option string) : bool :=
  match value with
  | None => true
  | Some v => String.eqb v ""
  end.

Definition generatePlan (typed : option string) : M t unit :=
  s ← getState;
  if negb (bool_decide (phase s = idle)) then mret ()
  else
    tryCatch
      (userRequest ← window.showInputBox validateRequest typed;
       if isMissing userRequest then mret ()
       else
         let userRequest := default "" userRequest in
         assign (onState (set_userRequest (JS.trim userRequest)));;
         assign (onState (set_phase clarification));;
         assign (onState (set_clarificationQuestions []));;
         assign (onState (set_clarificationAnswers []));;
         saveWorkflowState;;
         refresh;;
         window.showInformationMessage
           "🤔 Analyzing your request and generating clarification questions...";;
         questions ← await (EvClarification userRequest None)
                       (GenerationAdapter.generateClarificationQuestions geminiService userRequest None);
         if (length questions =? 0)%nat
         then throw (JS.Error "No clarification questions generated")
         else
           assign (onState (set_clarificationQuestions questions));;
           saveWorkflowState;;
           refresh;;
           window.showInformationMessage
             ("Generated " +:+ JS.ofNat (length questions)
              +:+ " clarification questions. Please answer them to proceed."))
      (fun error =>
         window.showErrorMessage
           ("Error generating clarification questions: " +:+ JS.toString error);;
         assign (onState (set_phase idle));;
         saveWorkflowState;;
         refresh).

Definition answerNextQuestion (typed : option string) : M t unit :=
  s ← getState;
  if negb (bool_decide (phase s = clarification)) then mret ()
  else
    let nextQuestionIndex := length (clarificationAnswers s) in
    if (length (clarificationQuestions s) <=? nextQuestionIndex)%nat then mret ()
    else
      answer ← window.showInputBox validateAnswer typed;
      if isMissing answer then mret ()
      else
        let answer := default "" answer in
        assign (onState (fun s => set_clarificationAnswers
                                    (clarificationAnswers s ++ [JS.trim answer]) s));;
        saveWorkflowState;;
        refresh;;
        s ← getState;
        let remaining := (length (clarificationQuestions s) - length (clarificationAnswers s))%nat in
        if (0 <? remaining)%nat
        then window.showInformationMessage
               ("Answer recorded. " +:+ JS.ofNat remaining +:+ " question(s) remaining.")
        else window.showInformationMessage
               "All questions answered! Ready to generate implementation plan.".

Definition submitClarification : M t unit :=
  s ← getState;
  if negb (bool_decide (phase s = clarification)) then mret ()
  else if negb (length (clarificationAnswers s) =? length (clarificationQuestions s))%nat
  then
    window.showWarningMessage "Please answer all clarification questions first."
  else
    assign (onState (set_phase planning));;
    saveWorkflowState;;
    refresh;;
    tryCatch
      (window.showInformationMessage "Generating detailed implementation plan...";;
       s ← getState;
       plan ← await (EvPlan (userRequest s) (clarificationAnswers s) None)
                (GenerationAdapter.generatePlan geminiService (userRequest s)
                   (clarificationAnswers s) None);
       if (length plan =? 0)%nat
       then throw (JS.Error "No implementation plan generated")
       else
         assign (onState (set_plan plan));;
         assign (onState (set_phase ready));;
         saveWorkflowState;;
         refresh;;
         window.showInformationMessage
           ("Implementation plan generated successfully! " +:+ JS.ofNat (length plan)
            +:+ " file changes ready for execution."))
      (fun error =>
         window.showErrorMessage
           ("Error generating implementation plan: " +:+ JS.toString error);;
         assign (onState (set_phase clarification));;
         saveWorkflowState;;
         refresh).

(** The body of [for (const [index, planItem] of plan.entries())], run on
    the entries that are left, with the [successCount] so far. *)
Fixpoint applyEntries (entries : list (nat * PlanItem)) (successCount : nat) : M t nat :=
  match entries with
  | [] => mret successCount
  | (index, planItem) :: rest =>
      successCount ←
        tryCatch
          (await (EvApply planItem) ([], FileManipulator.applyPlanItem fileManipulator index planItem);;
           s ← getState;
           (if (3 <? length (plan s))%nat
            then window.showInformationMessage
                   ("Progress: " +:+ JS.ofNat (index + 1) +:+ "/" +:+ JS.ofNat (length (plan s))
                    +:+ " - " +:+ action planItem +:+ " " +:+ file planItem)
            else mret ());;
           mret (successCount + 1)%nat)
          (fun error =>
             window.showErrorMessage
               ("Failed to apply change to " +:+ file planItem +:+ ": " +:+ JS.toString error);;
             mret successCount);
      applyEntries rest successCount
  end.

(** [plan.entries()] *)
Definition entries (plan : list PlanItem) : list (nat * PlanItem) :=
  imap (fun index planItem => (index, planItem)) plan.

Definition executeToIDE (picked : option string) : M t unit :=
  s ← getState;
  if negb (bool_decide (phase s = ready)) || (length (plan s) =? 0)%nat
  then window.showWarningMessage "No implementation plan available to execute"
  else
    confirmation ← window.askWarningMessage
      ("Are you sure you want to execute " +:+ JS.ofNat (length (plan s))
       +:+ " file changes to your workspace?") picked;
    if negb (bool_decide (confirmation = Some "Yes, Execute Plan")) then mret ()
    else
      tryCatch
        (window.showInformationMessage "⚡ Executing implementation plan...";;
         successCount ← applyEntries (entries (plan s)) 0;
         s ← getState;
         window.showInformationMessage
           ("Execution completed! Successfully applied " +:+ JS.ofNat successCount +:+ "/"
            +:+ JS.ofNat (length (plan s)) +:+ " file changes.");;
         resetWorkflowState)
        (fun error =>
           window.showErrorMessage
             ("Error executing implementation plan: " +:+ JS.toString error)).

Definition restartWorkflow (picked : option string) : M t unit :=
  confirmation ← window.askWarningMessage
    "Are you sure you want to restart the planning workflow? This will clear all current progress."
    picked;
  if bool_decide (confirmation = Some "Yes, Restart")
  then
    resetWorkflowState;;
    window.showInformationMessage "Workflow restarted. Ready for a new planning session."
  else mret ().

End Commands.

(** ** The tree view *)

(** [class PlannerItem]: the [label] and [itemType] the constructor is
    given, the [command] and the icon (its id and its colour) the
    constructor sets for that [itemType], and the [tooltip] set on the rows
    of plan items. *)
Record PlannerItem : Type := {
  label : string;
  itemType : string;
  command : option string;
  iconPath : option (string * option string);
  tooltip : option string;
}.

(** The [switch (itemType)] of the constructor: the command of a row. *)
Definition commandOf (itemType : string) : option string :=
  if String.eqb itemType "generate-button" then Some "traycer.generatePlan"
  else if String.eqb itemType "restart-button" then Some "traycer.restartWorkflow"
  else if String.eqb itemType "answer-next-button" then Some "traycer.answerNextQuestion"
  else if String.eqb itemType "submit-button" then Some "traycer.submitClarification"
  else if String.eqb itemType "execute-button" then Some "traycer.executeToIDE"
  else None.

(** The [switch (itemType)] of the constructor: the icon of a row. *)
Definition iconOf (itemType : string) : option (string * option string) :=
  if String.eqb itemType "header" then Some ("target", None)
  else if String.eqb itemType "generate-button" then Some ("play", None)
  else if String.eqb itemType "restart-button" then Some ("refresh", None)
  else if String.eqb itemType "answer-next-button" then Some ("edit", None)
  else if String.eqb itemType "submit-button" then Some ("check", None)
  else if String.eqb itemType "execute-button" then Some ("rocket", None)
  else if String.eqb itemType "plan-item-new" then Some ("file-add", Some "charts.green")
  else if String.eqb itemType "plan-item-modify" then Some ("edit", Some "charts.yellow")
  else if String.eqb itemType "plan-item-remove" then Some ("trash", Some "charts.red")
  else if String.eqb itemType "group-header" then Some ("folder", None)
  else if String.eqb itemType "question" then Some ("question", None)
  else if String.eqb itemType "answer" then Some ("comment", None)
  else if String.eqb itemType "section-header" then Some ("list-unordered", None)
  else if String.eqb itemType "status" then Some ("pulse", None)
  else if String.eqb itemType "request-text" then Some ("quote", None)
  else None.

(** [new PlannerItem(label, TreeItemCollapsibleState.None, itemType)] *)
Definition newPlannerItem (text kind : string) : PlannerItem :=
  {| label := text;
     itemType := kind;
     command := commandOf kind;
     iconPath := iconOf kind;
     tooltip := None |}.

(** A row of a plan item: the item is constructed, then its [tooltip] is
    set to the description. *)
Definition planRow (text kind : string) (planItem : PlanItem) : PlannerItem :=
  {| label := text;
     itemType := kind;
     command := commandOf kind;
     iconPath := iconOf kind;
     tooltip := Some (description planItem) |}.

Definition getActionLabel (action : string) : string :=
  if String.eqb action ActionType.NEW then "[NEW]"
  else if String.eqb action ActionType.MODIFY then "[MODIFY]"
  else if String.eqb action ActionType.REMOVE then "[REMOVE]"
  else "[UNKNOWN]".

Definition getDetailedStatusText (s : WorkflowState) : string :=
  match phase s with
  | idle => "Ready - Enter a request to start planning"
  | clarification =>
      let answered := length (clarificationAnswers s) in
      let total := length (clarificationQuestions s) in
      "Clarification Phase - " +:+ JS.ofNat answered +:+ "/" +:+ JS.ofNat total
      +:+ " questions answered"
  | planning => "Generating implementation plan..."
  | ready =>
      "Plan Ready - " +:+ JS.ofNat (length (plan s)) +:+ " file changes prepared"
  end.

(** The rows [clarificationQuestions.forEach] pushes: each question, and
    under it its answer when there is one. *)
Definition questionRows (s : WorkflowState) : list PlannerItem :=
  concat
    (imap
       (fun index question =>
          let isAnswered := (index <? length (clarificationAnswers s))%nat in
          let icon := if isAnswered then "✅" else "❔" in
          newPlannerItem (icon +:+ " Q" +:+ JS.ofNat (index + 1) +:+ ": " +:+ question)
            "question"
          :: (if isAnswered
              then
                let answer :=
                  match clarificationAnswers s !! index with
                  | Some a => a
                  | None => "undefined"
                  end in
                [newPlannerItem ("💬 A" +:+ JS.ofNat (index + 1) +:+ ": " +:+ answer)
                   "answer"]
              else []))
       (clarificationQuestions s)).

(** One group of the plan: its header when the group is not empty, then
    its rows. *)
Definition groupRows (header : nat -> string) (tag kind : string)
    (group : list PlanItem) : list PlannerItem :=
  if (0 <? length group)%nat
  then newPlannerItem (header (length group)) "group-header"
       :: map (fun planItem => planRow (tag +:+ " " +:+ file planItem) kind planItem) group
  else [].

(** [plan.filter((item) => item.action === a)] *)
Definition withAction (a : string) (plan : list PlanItem) : list PlanItem :=
  List.filter (fun item => String.eqb (action item) a) plan.

Definition getRootItems (s : WorkflowState) : list PlannerItem :=
  let items := [newPlannerItem "🎯 Traycer Mock Planner" "header"] in
  let items := items ++ [newPlannerItem "📝 User Request" "section-header"] in
  let items :=
    if negb (String.eqb (userRequest s) "")
    then items ++ [newPlannerItem (JS.QUOTE +:+ userRequest s +:+ JS.QUOTE) "request-text"]
    else items in
  let items :=
    match phase s with
    | idle => items ++ [newPlannerItem "Generate Plan" "generate-button"]
    | clarification => items ++ [newPlannerItem "Restart Planning" "restart-button"]
    | ready => items ++ [newPlannerItem "Start New Plan" "restart-button"]
    | planning => items
    end in
  let items :=
    if bool_decide (phase s = clarification) && (0 <? length (clarificationQuestions s))%nat
    then
      let answeredCount := length (clarificationAnswers s) in
      let totalCount := length (clarificationQuestions s) in
      items
      ++ [newPlannerItem ("❓ Clarification Questions (" +:+ JS.ofNat answeredCount +:+ "/"
                          +:+ JS.ofNat totalCount +:+ ")") "section-header"]
      ++ questionRows s
      ++ [if (answeredCount <? totalCount)%nat
          then newPlannerItem ("📝 Answer Question " +:+ JS.ofNat (answeredCount + 1))
                 "answer-next-button"
          else newPlannerItem "✅ Generate Implementation Plan" "submit-button"]
    else items in
  let items :=
    if bool_decide (phase s = ready) && (0 <? length (plan s))%nat
    then
      items
      ++ [newPlannerItem ("📋 Implementation Plan (" +:+ JS.ofNat (length (plan s))
                          +:+ " changes)") "section-header"]
      ++ groupRows (fun n => "📄 New Files (" +:+ JS.ofNat n +:+ ")") "[NEW]"
           "plan-item-new" (withAction ActionType.NEW (plan s))
      ++ groupRows (fun n => "✏️ Modified Files (" +:+ JS.ofNat n +:+ ")") "[MODIFY]"
           "plan-item-modify" (withAction ActionType.MODIFY (plan s))
      ++ groupRows (fun n => "🗑️ Removed Files (" +:+ JS.ofNat n +:+ ")") "[REMOVE]"
           "plan-item-remove" (withAction ActionType.REMOVE (plan s))
      ++ [newPlannerItem "⚡ Execute to IDE" "execute-button"]
    else items in
  let statusText := getDetailedStatusText s in
  items ++ [newPlannerItem ("📊 " +:+ statusText) "status"].

(** [getChildren(element)]: the rows at the root, nothing under a row. *)
Definition getChildren (s : WorkflowState) (element : option PlannerItem) : list PlannerItem :=
  match element with
  | None => getRootItems s
  | Some _ => []
  end.

End PlannerProvider.

(* ===================================================================== *)
(** * sidebarProvider.ts *)
(* ===================================================================== *)

Module SidebarProvider.

(** The fields of the provider that change. *)
Record t : Type := {
  codebaseContext : option CodebaseContext;
  currentRequest : string;
  clarificationQuestions : list string;
  clarificationAnswers : list string;
  currentPlan : list PlanItem;
}.

(** The field initializers. *)
Definition constructor : World t :=
  {| this := {| codebaseContext := None;
                currentRequest := "";
                clarificationQuestions := [];
                clarificationAnswers := [];
                currentPlan := [] |};
     trace := [] |}.

Definition postMessage (message : WebviewMessage) : M t unit := emit (EvPost message).

Section Handlers.
Context `{R : Runtime}.
Variable geminiService : GenerationAdapter.t.
Variable workspace : CodebaseAnalyzer.Workspace.




(** [error instanceof Error ? error.message : "Unknown error"] *)
Definition errorText (error : JS.Exception) : string :=
  match error with
  | JS.ErrorObject _ message => message
  | JS.Thrown _ => "Unknown error"
  end.

Definition handleGeneratePlan (request : string) : M t unit :=
  tryCatch
    (assign (fun p => {| codebaseContext := codebaseContext p;
                         currentRequest := request;
                         clarificationQuestions := clarificationQuestions p;
                         clarificationAnswers := clarificationAnswers p;
                         currentPlan := currentPlan p |});;
     postMessage (showLoading "Analyzing your request with codebase context...");;
     p ← getThis;
     clarifications ←
       await (EvClarification request (codebaseContext p))
         (GenerationAdapter.generateClarificationQuestions geminiService request
            (codebaseContext p));
     assign (fun p => {| codebaseContext := codebaseContext p;
                         currentRequest := currentRequest p;
                         clarificationQuestions := clarifications;
                         clarificationAnswers := clarificationAnswers p;
                         currentPlan := currentPlan p |});;
     postMessage (showClarifications clarifications request))
    (fun error => postMessage (showError ("Error: " +:+ errorText error))).

Definition handleSubmitAnswer (answer : string) : M t unit :=
  tryCatch
    (assign (fun p => {| codebaseContext := codebaseContext p;
                         currentRequest := currentRequest p;
                         clarificationQuestions := clarificationQuestions p;
                         clarificationAnswers := clarificationAnswers p ++ [answer];
                         currentPlan := currentPlan p |});;
     postMessage (showLoading "Generating contextual implementation plan...");;
     p ← getThis;
     plan ←
       await (EvPlan (currentRequest p) (clarificationAnswers p) (codebaseContext p))
         (GenerationAdapter.generatePlan geminiService (currentRequest p)
            (clarificationAnswers p) (codebaseContext p));
     assign (fun p => {| codebaseContext := codebaseContext p;
                         currentRequest := currentRequest p;
                         clarificationQuestions := clarificationQuestions p;
                         clarificationAnswers := clarificationAnswers p;
                         currentPlan := plan |});;
     postMessage (showPlan plan))
    (fun error => postMessage (showError ("Error: " +:+ errorText error))).

Definition createCopilotPrompt (item : PlanItem) (contextInfo : string) : string :=
  let basePrompt := contextInfo +:+ description item in
  if String.eqb (action item) "new" then
    "Create a new file " +:+ file item +:+ ". " +:+ basePrompt
    +:+ ". Follow the existing code patterns and use the same styling/structure as other files in this project."
  else if String.eqb (action item) "modify" then
    "Modify the existing file " +:+ file item +:+ ". " +:+ basePrompt
    +:+ ". Keep the existing code structure and only add/change what's necessary for this feature."
  else if String.eqb (action item) "remove" then
    "Remove or refactor the file " +:+ file item +:+ ". " +:+ basePrompt
    +:+ ". Make sure to update any imports or references to this file in other parts of the codebase."
  else basePrompt.

Definition generateCopilotPrompts (plan : list PlanItem) (context : option CodebaseContext)
    : list (string * string * string) :=
  let contextInfo :=
    match context with
    | Some context =>
        "This is a " +:+ CodebaseAnalyzer.projectType context +:+ " using "
        +:+ JS.join ", " (CodebaseAnalyzer.frameworks context) +:+ ". "
    | None => ""
    end in
  map (fun item => (file item, action item, createCopilotPrompt item contextInfo)) plan.

Definition handleExecuteToIDE : M t unit :=
  tryCatch
    (postMessage (showLoading "Generating Copilot prompts...");;
     p ← getThis;
     let copilotPrompts := generateCopilotPrompts (currentPlan p) (codebaseContext p) in
     postMessage (showCopilotPrompts copilotPrompts))
    (fun error => postMessage (showError ("Error: " +:+ errorText error))).

Definition handleRestartWorkflow : M t unit :=
  assign (fun p => {| codebaseContext := codebaseContext p;
                      currentRequest := "";
                      clarificationQuestions := [];
                      clarificationAnswers := [];
                      currentPlan := [] |});;
  postMessage resetWorkflow.

(** What the webview sends: the [data] of [onDidReceiveMessage], by its
    [type]. *)
Inductive Message : Type :=
| generatePlanMessage (request : string)
| submitAnswerMessage (answer : string)
| executeToIDEMessage
| restartWorkflowMessage
| otherMessage.

(** The listener [resolveWebviewView] installs: the [switch (data.type)]. *)
Definition onDidReceiveMessage (data : Message) : M t unit :=
  match data with
  | generatePlanMessage request => handleGeneratePlan request
  | submitAnswerMessage answer => handleSubmitAnswer answer
  | executeToIDEMessage => handleExecuteToIDE
  | restartWorkflowMessage => handleRestartWorkflow
  | otherMessage => mret ()
  end.

End Handlers.

End SidebarProvider.

(* ===================================================================== *)
(** * Notions used to state the properties *)
(* ===================================================================== *)

(** The world a method leaves behind, and what it returned. *)
Definition exec {S A} (m : M S A) (w : World S) : World S := snd (m w).
Definition returned {S A} (m : M S A) (w : World S) : Result A := fst (m w).

(** The part of the trace a method appended. *)
Definition during {S A} (m : M S A) (w : World S) : list Event :=
  drop (length (trace w)) (trace (exec m w)).

(** The states written to the workspace storage, in order. *)
Definition writes (tr : list Event) : list WorkflowState :=
  omap (fun e => match e with EvUpdate _ v => Some v | _ => None end) tr.

(** The plan items handed to the file manipulator, in order. *)
Definition applied (tr : list Event) : list PlanItem :=
  omap (fun e => match e with EvApply item => Some item | _ => None end) tr.

(** The calls to the generation adapter, in order. *)
Definition generationCalls (tr : list Event) : list Event :=
  List.filter (fun e => match e with EvClarification _ _ | EvPlan _ _ _ => true | _ => false end) tr.

(** The calls to the workspace analyzer. *)
Definition analyses (tr : list Event) : list Event :=
  List.filter (fun e => match e with EvAnalyze => true | _ => false end) tr.

(** The context a generation call was given. *)
Definition contextOf (e : Event) : option CodebaseContext :=
  match e with
  | EvClarification _ c => c
  | EvPlan _ _ c => c
  | _ => None
  end.

(** A generation step fails when the adapter throws or returns nothing. *)
Definition failed {A} (o : Outcome (list A)) : Prop :=
  match snd o with
  | Throw _ => True
  | Ok l => l = []
  end.

(** The commands of [PlannerProvider] called one after the other on what
    the user typed each time. *)
Fixpoint answerAll (typed : list (option string)) : M PlannerProvider.t unit :=
  match typed with
  | [] => mret ()
  | v :: typed' => PlannerProvider.answerNextQuestion v;; answerAll typed'
  end.

(** The answer an input box of [answerNextQuestion] yields for what the
    user did: nothing when the box is dismissed or the value is refused,
    the trimmed value otherwise. *)
Definition acceptedAnswer (typed : option string) : option string :=
  match typed with
  | Some value =>
      match PlannerProvider.validateAnswer value with
      | None => Some (JS.trim value)
      | Some _ => None
      end
  | None => None
  end.

(** The request an input box of [generatePlan] yields for what the user
    did. *)
Definition acceptedRequest (typed : option string) : option string :=
  match typed with
  | Some value =>
      match PlannerProvider.validateRequest value with
      | None => Some value
      | Some _ => None
      end
  | None => None
  end.

(** The state [generatePlan] saves before it asks for the questions: the
    request [v], trimmed, is recorded, the phase is [clarification], the
    questions and the answers are cleared, the plan is left as it was. *)
Definition startInProgress (v : string) (s : WorkflowState) : WorkflowState :=
  {| phase := clarification;
     userRequest := JS.trim v;
     clarificationQuestions := [];
     clarificationAnswers := [];
     plan := plan s |}.

(** The call made for an entry of the plan throws. *)
Definition fails (fm : FileManipulator.t) (entry : nat * PlanItem) : bool :=
  match FileManipulator.applyPlanItem fm (fst entry) (snd entry) with
  | Ok _ => false
  | Throw _ => true
  end.

(** The entries of a plan whose application fails. *)
Definition failures (fm : FileManipulator.t) (plan : list PlanItem) : list (nat * PlanItem) :=
  List.filter (fails fm) (PlannerProvider.entries plan).

(** A stored key file is a whole file of the workspace within the size
    limit: its [size] is the size [stat] reported, its [content] is all
    that [readFile] returned. *)
Definition storedFrom (found : list CodebaseAnalyzer.Uri) (f : CodebaseAnalyzer.FileInfo) : Prop :=
  (CodebaseAnalyzer.size f ≤ CodebaseAnalyzer.maxFileSize)%N
  ∧ ∃ uri, uri ∈ found
           ∧ CodebaseAnalyzer.stat uri = Some (CodebaseAnalyzer.size f)
           ∧ CodebaseAnalyzer.readFile uri = Some (CodebaseAnalyzer.content f)
           ∧ CodebaseAnalyzer.path f = CodebaseAnalyzer.asRelativePath uri.

(** A key file stored for one of the [patterns]. *)
Definition storedFor (ws : CodebaseAnalyzer.Workspace) (patterns : list string)
    (f : CodebaseAnalyzer.FileInfo) : Prop :=
  ∃ pattern foundFiles,
    pattern ∈ patterns
    ∧ CodebaseAnalyzer.findFiles ws pattern "**/node_modules/**" CodebaseAnalyzer.maxTotalFiles
      = Some foundFiles
    ∧ storedFrom foundFiles f.

(** The workspace storage as it is when the first generation call of a
    trace is made, from the storage [st] before the trace; nothing when
    the trace has no generation call. *)
Fixpoint storageAtCall (tr : list Event) (st : gmap string WorkflowState)
    : option (gmap string WorkflowState) :=
  match tr with
  | [] => None
  | EvUpdate key value :: rest => storageAtCall rest (<[key := value]> st)
  | EvClarification _ _ :: _ => Some st
  | EvPlan _ _ _ :: _ => Some st
  | _ :: rest => storageAtCall rest st
  end.

(** The window is closed while the method [m] awaits the answer to its
    generation call, and the extension is activated again: a new provider
    is constructed on the storage as it is at that call. A method that
    makes no generation call has run to its end when the window is
    closed. *)
Definition closedDuring {A} (m : M PlannerProvider.t A) (w : World PlannerProvider.t)
    : World PlannerProvider.t :=
  PlannerProvider.constructor
    (default (PlannerProvider.workspaceState (this (exec m w)))
       (storageAtCall (during m w) (PlannerProvider.workspaceState (this w)))).

(** The commands [extension.ts] registers on the provider, each with what
    the user does in the box or dialog it opens; [reactivate] is the
    extension being activated again, which constructs a new provider on
    the workspace storage; [closedDuringStart] and [closedDuringSubmit]
    are a start and a submission during whose generation call the window
    is closed, followed by a new activation. (A window closed during any
    other wait of a command, for the input box, the confirmation or the
    file manipulator, finds the storage as it was before the command: the
    next activation is a plain [reactivate].) *)
Inductive Command : Type :=
| generatePlanCommand (typed : option string)
| answerNextQuestionCommand (typed : option string)
| submitClarificationCommand
| executeToIDECommand (picked : option string)
| restartWorkflowCommand (picked : option string)
| reactivate
| closedDuringStart (typed : option string)
| closedDuringSubmit.

(** What a command does to the provider. *)
Definition dispatch (svc : GenerationAdapter.t) (fm : FileManipulator.t) (c : Command)
    (w : World PlannerProvider.t) : World PlannerProvider.t :=
  match c with
  | generatePlanCommand typed => exec (PlannerProvider.generatePlan svc typed) w
  | answerNextQuestionCommand typed => exec (PlannerProvider.answerNextQuestion typed) w
  | submitClarificationCommand => exec (PlannerProvider.submitClarification svc) w
  | executeToIDECommand picked => exec (PlannerProvider.executeToIDE fm picked) w
  | restartWorkflowCommand picked => exec (PlannerProvider.restartWorkflow picked) w
  | reactivate => PlannerProvider.constructor (PlannerProvider.workspaceState (this w))
  | closedDuringStart typed => closedDuring (PlannerProvider.generatePlan svc typed) w
  | closedDuringSubmit => closedDuring (PlannerProvider.submitClarification svc) w
  end.

(** The command runs to its end. *)
Definition completes (c : Command) : bool :=
  match c with
  | closedDuringStart _ | closedDuringSubmit => false
  | _ => true
  end.

(** The provider after a sequence of commands, from the first activation
    on an empty storage. *)
Definition session (svc : GenerationAdapter.t) (fm : FileManipulator.t) (cs : list Command)
    : World PlannerProvider.t :=
  foldl (fun w c => dispatch svc fm c w) (PlannerProvider.constructor ∅) cs.

(** No more answers than questions. *)
Definition bounded (s : WorkflowState) : Prop :=
  (length (clarificationAnswers s) ≤ length (clarificationQuestions s))%nat.

(** The bound holds of the state of the provider and of the stored
    state. *)
Definition consistent (p : PlannerProvider.t) : Prop :=
  bounded (PlannerProvider.workflowState p)
  ∧ ∀ s, PlannerProvider.workspaceState p !! PlannerProvider.WORKFLOW_STATE_KEY = Some s ->
         bounded s.

(** The provider holds [s] and has saved it. *)
Definition savedAs (s : WorkflowState) (p : PlannerProvider.t) : Prop :=
  PlannerProvider.workflowState p = s
  ∧ PlannerProvider.workspaceState p !! PlannerProvider.WORKFLOW_STATE_KEY = Some s.

(** What [findKeyFiles] stores for a file [findFiles] returned, if it
    stores anything: nothing when [stat] fails, when the file is larger
    than [maxFileSize], or when [readFile] fails. *)
Definition toFileInfo `{R : Runtime} (file : CodebaseAnalyzer.Uri)
    : option CodebaseAnalyzer.FileInfo :=
  match CodebaseAnalyzer.stat file with
  | Some sz =>
      if (CodebaseAnalyzer.maxFileSize <? sz)%N then None
      else
        match CodebaseAnalyzer.readFile file with
        | Some textContent =>
            Some {| CodebaseAnalyzer.path := CodebaseAnalyzer.asRelativePath file;
                    CodebaseAnalyzer.content := textContent;
                    CodebaseAnalyzer.language :=
                      CodebaseAnalyzer.getLanguageFromPath (CodebaseAnalyzer.fsPath file);
                    CodebaseAnalyzer.size := sz |}
        | None => None
        end
  | None => None
  end.

(** The files of the workspace that can be stored for a pattern, in the
    order [findFiles] returns them; none when [findFiles] fails. *)
Definition eligible `{R : Runtime} (ws : CodebaseAnalyzer.Workspace) (pattern : string)
    : list CodebaseAnalyzer.FileInfo :=
  match CodebaseAnalyzer.findFiles ws pattern "**/node_modules/**"
          CodebaseAnalyzer.maxTotalFiles with
  | Some foundFiles => omap toFileInfo foundFiles
  | None => []
  end.

(** A directory entry whose name neither starts with a dot nor is
    [node_modules]. *)
Definition listed (entry : string * N) : bool :=
  negb (JS.startsWith (fst entry) ".") && negb (String.eqb (fst entry) "node_modules").

(** The workspace without the directory entries that are not [listed]. *)
Definition prune (ws : CodebaseAnalyzer.Workspace) : CodebaseAnalyzer.Workspace :=
  {| CodebaseAnalyzer.workspaceFolders := CodebaseAnalyzer.workspaceFolders ws;
     CodebaseAnalyzer.findFiles := CodebaseAnalyzer.findFiles ws;
     CodebaseAnalyzer.readDirectory := fun dirPath =>
       match CodebaseAnalyzer.readDirectory ws dirPath with
       | Some entries => Some (List.filter listed entries)
       | None => None
       end |}.

(** The shape of the workflow state between two commands, by phase.
    [strict] is for a provider none of whose commands was cut short by the
    closing of its window: it is never found in the planning phase, and
    it has questions outside the idle phase. *)
Definition shape (strict : bool) (s : WorkflowState) : Prop :=
  match phase s with
  | idle =>
      clarificationQuestions s = [] ∧ clarificationAnswers s = [] ∧ plan s = []
  | clarification =>
      (strict = true -> clarificationQuestions s ≠ [])
      ∧ (length (clarificationAnswers s) ≤ length (clarificationQuestions s))%nat
      ∧ plan s = []
      ∧ (10 ≤ String.length (userRequest s))%nat
  | planning =>
      strict = false
      ∧ length (clarificationAnswers s) = length (clarificationQuestions s)
      ∧ plan s = []
      ∧ (10 ≤ String.length (userRequest s))%nat
  | ready =>
      (strict = true -> clarificationQuestions s ≠ [])
      ∧ length (clarificationAnswers s) = length (clarificationQuestions s)
      ∧ plan s ≠ []
      ∧ (10 ≤ String.length (userRequest s))%nat
  end.

(** The stored state is the state of the provider; or nothing is stored
    and the provider holds the empty state. *)
Definition inSync (p : PlannerProvider.t) : Prop :=
  PlannerProvider.workspaceState p !! PlannerProvider.WORKFLOW_STATE_KEY
  = Some (PlannerProvider.workflowState p)
  ∨ (PlannerProvider.workspaceState p !! PlannerProvider.WORKFLOW_STATE_KEY = None
     ∧ PlannerProvider.workflowState p = PlannerProvider.emptyState).

(** The commands the rows of the tree carry, from top to bottom. *)
Definition offered (s : WorkflowState) : list string :=
  omap PlannerProvider.command (PlannerProvider.getRootItems s).

(** The [file]s of the rows of plan items, with the [itemType] of each. *)
Definition planRows (s : WorkflowState) : list (string * string) :=
  omap (fun row =>
          match PlannerProvider.tooltip row with
          | Some _ => Some (PlannerProvider.itemType row, PlannerProvider.label row)
          | None => None
          end)
    (PlannerProvider.getRootItems s).

(** The messages of the webview handled one after the other. *)
Fixpoint receiveAll (svc : GenerationAdapter.t) (messages : list SidebarProvider.Message)
    : M SidebarProvider.t unit :=
  match messages with
  | [] => mret ()
  | data :: messages' =>
      SidebarProvider.onDidReceiveMessage svc data;; receiveAll svc messages'
  end.

(** The answers the sidebar holds after a list of messages, from the
    answers it held: a restart clears them, an answer is added, and
    nothing else touches them. *)
Fixpoint answersAfter (messages : list SidebarProvider.Message) (answers : list string)
    : list string :=
  match messages with
  | [] => answers
  | SidebarProvider.submitAnswerMessage answer :: messages' =>
      answersAfter messages' (answers ++ [answer])
  | SidebarProvider.restartWorkflowMessage :: messages' => answersAfter messages' []
  | _ :: messages' => answersAfter messages' answers
  end.

(** The request the sidebar holds after a list of messages, from the
    request it held: a request replaces it, a restart empties it. *)
Fixpoint requestAfter (messages : list SidebarProvider.Message) (request : string)
    : string :=
  match messages with
  | [] => request
  | SidebarProvider.generatePlanMessage request' :: messages' =>
      requestAfter messages' request'
  | SidebarProvider.restartWorkflowMessage :: messages' => requestAfter messages' ""
  | _ :: messages' => requestAfter messages' request
  end.

(** Every write to the storage is followed at once by a refresh of the
    tree. *)
Fixpoint refreshedAfterWrites (tr : list Event) : bool :=
  match tr with
  | [] => true
  | EvUpdate _ _ :: rest =>
      match rest with
      | EvFire :: _ => refreshedAfterWrites rest
      | _ => false
      end
  | _ :: rest => refreshedAfterWrites rest
  end.

(** The labels of the rows of the tree that have a given [itemType]. *)
Definition rowsOfType (kind : string) (s : WorkflowState) : list string :=
  omap (fun row => if String.eqb (PlannerProvider.itemType row) kind
                   then Some (PlannerProvider.label row) else None)
    (PlannerProvider.getRootItems s).

(** An answer of the backend in a fenced block: the opening fence, the
    body and the closing fence, each on a line of its own. *)
Definition fenced (fence body : string) : string :=
  fence +:+ String JS.LF (body +:+ String JS.LF "```").

(** No analysis of the workspace, and no generation call that is given a
    context. *)
Definition withoutContext (tr : list Event) : Prop :=
  analyses tr = [] ∧ Forall (fun call => contextOf call = None) (generationCalls tr).




(** The text [generatePlan] hands to [JSON.parse] for an answer of the
    backend: the array matched in the answer once it is trimmed and rid of
    its fences. *)
Definition arrayIn (responseText : string) : option string :=
  GeminiService.matchArray
    (JS.trim (GeminiService.replaceFence "```"
                (GeminiService.replaceFence "```json" (JS.trim responseText)))).

(** A stored file whose path contains [name]. *)
Definition hasConfig (files : list CodebaseAnalyzer.FileInfo) (name : string) : Prop :=
  ∃ f, f ∈ files ∧ JS.includes (CodebaseAnalyzer.path f) name = true.

(** What [executeToIDE] appends to the trace for one entry of the plan:
    the call of the file manipulator, then the progress message of a plan
    of more than three items, or the error message of a failure. *)
Definition applyTrace (fm : FileManipulator.t) (total : nat) (entry : nat * PlanItem)
    : list Event :=
  EvApply (snd entry)
  :: match FileManipulator.applyPlanItem fm (fst entry) (snd entry) with
     | Ok _ =>
         if (3 <? total)%nat
         then [EvNotify (Information
                 ("Progress: " +:+ JS.ofNat (fst entry + 1) +:+ "/" +:+ JS.ofNat total
                  +:+ " - " +:+ action (snd entry) +:+ " " +:+ file (snd entry)))]
         else []
     | Throw e =>
         [EvNotify (Error ("Failed to apply change to " +:+ file (snd entry) +:+ ": "
                           +:+ JS.toString e))]
     end.

(** What a confirmed [executeToIDE] appends to the trace for a plan. *)
Definition executeTrace (fm : FileManipulator.t) (plan : list PlanItem) : list Event :=
  let total := length plan in
  [EvNotify (Warning ("Are you sure you want to execute " +:+ JS.ofNat total
                      +:+ " file changes to your workspace?"));
   EvNotify (Information "⚡ Executing implementation plan...")]
  ++ concat (map (applyTrace fm total) (PlannerProvider.entries plan))
  ++ [EvNotify (Information
        ("Execution completed! Successfully applied "
         +:+ JS.ofNat (total - length (failures fm plan)) +:+ "/" +:+ JS.ofNat total
         +:+ " file changes."));
      EvUpdate PlannerProvider.WORKFLOW_STATE_KEY PlannerProvider.emptyState;
      EvFire].

(** The provider between two commands: its state has its shape and is
    the stored one. *)
Definition settled (strict : bool) (p : PlannerProvider.t) : Prop :=
  shape strict (PlannerProvider.workflowState p) ∧ inSync p.

(** The identifier [activate] registers a command under; a new activation
    is no command. *)
Definition commandId (c : Command) : option string :=
  match c with
  | generatePlanCommand _ => Some "traycer.generatePlan"
  | executeToIDECommand _ => Some "traycer.executeToIDE"
  | submitClarificationCommand => Some "traycer.submitClarification"
  | answerNextQuestionCommand _ => Some "traycer.answerNextQuestion"
  | restartWorkflowCommand _ => Some "traycer.restartWorkflow"
  | reactivate | closedDuringStart _ | closedDuringSubmit => None
  end.

(** The [itemType] and the [label] of the row of a plan item. *)
Definition rowOf (planItem : PlanItem) : string * string :=
  ("plan-item-" +:+ action planItem,
   PlannerProvider.getActionLabel (action planItem) +:+ " " +:+ file planItem).

(** The design document's view of the data. *)
Module Spec.

(** [PlanItem.action] is one of the three enumerated values. *)
Definition validAction (a : string) : Prop := a ∈ ["new"; "modify"; "remove"].

(** The four keyword buckets of the fallback. *)
Inductive Bucket : Type := Authentication | Api | Database | Generic.

(** The buckets tested in their order on the lower-cased request. *)
Definition bucketOf (userRequest : string) : Bucket :=
  let request := JS.toLowerCase userRequest in
  if JS.includes request "auth" then Authentication
  else if JS.includes request "api" || JS.includes request "endpoint" then Api
  else if JS.includes request "database" || JS.includes request "db" then Database
  else Generic.

Definition authQuestions : list string :=
  [ "Which authentication service would you like to use (Auth0, Firebase, or build custom)?";
    "Do you need social login options like Google or GitHub?";
    "Should this work with your existing user database?" ].

Definition questionsOf (b : Bucket) : list string :=
  match b with
  | Authentication => authQuestions
  | Api =>
      [ "Do you prefer a REST API or GraphQL for this feature?";
        "What database should this connect to?";
        "Do you need authentication/authorization on these endpoints?" ]
  | Database =>
      [ "Which database system are you using (PostgreSQL, MongoDB, MySQL)?";
        "Do you need migration scripts for existing data?";
        "What ORM or database client do you prefer (Prisma, TypeORM, etc.)?" ]
  | Generic =>
      [ "What technology stack should this use?";
        "Do you need this to work with existing code or systems?";
        "Are there any specific requirements or constraints?" ]
  end.

Definition item (f a d : string) : PlanItem :=
  {| file := f; action := a; description := d |}.

Definition authPlan : list PlanItem :=
  [ item "src/types/auth.ts" "new" "Define authentication types and user interfaces";
    item "src/lib/auth.ts" "new" "Create Auth0 integration service with login/logout methods";
    item "src/components/LoginForm.tsx" "new" "Create login form component with Auth0 integration";
    item "src/components/ProtectedRoute.tsx" "new"
      "Create route protection component for authenticated pages";
    item "src/App.tsx" "modify" "Add Auth0 provider and protected routing configuration";
    item "src/utils/localAuth.ts" "remove" "Remove old local authentication utilities" ].

Definition genericPlan : list PlanItem :=
  [ item "src/components/NewFeature.tsx" "new" "Create main component for the requested feature";
    item "src/types/feature.ts" "new" "Define TypeScript types for the new feature";
    item "src/App.tsx" "modify" "Integrate new feature into main application" ].

(** The fallback plan has its own entry for the authentication bucket
    only; the three other buckets share one. *)
Definition planOf (b : Bucket) : list PlanItem :=
  match b with
  | Authentication => authPlan
  | Api | Database | Generic => genericPlan
  end.

(** The shape of a list of clarification questions: one to three
    non-empty strings that each contain a question mark. *)
Definition questionSchema (questions : list string) : Prop :=
  (1 ≤ length questions ≤ 3)%nat
  ∧ Forall (fun q => q ≠ "" ∧ JS.includes q "?" = true) questions.

(** The shape of a plan: at least one item, each with one of the three
    actions ([file] and [description] are strings by their type). *)
Definition planSchema (plan : list PlanItem) : Prop :=
  plan ≠ [] ∧ Forall (fun i => validAction (action i)) plan.

(** A plan item whose [file] and [description] are not empty. *)
Definition filledIn (i : PlanItem) : Prop := file i ≠ "" ∧ description i ≠ "".

End Spec.

(* ===================================================================== *)
(** * Concrete inputs *)
(* ===================================================================== *)

Module Examples.

Definition quote : string := String (ascii_of_nat 34) "".
Definition newline : string := String JS.LF "".

(** A backend answer: a fenced JSON array with one element whose [file]
    is blank and whose [description] is empty. *)
Definition blankJson : string :=
  "[{" +:+ quote +:+ "file" +:+ quote +:+ ": " +:+ quote +:+ " " +:+ quote +:+ ", "
  +:+ quote +:+ "action" +:+ quote +:+ ": " +:+ quote +:+ "new" +:+ quote +:+ ", "
  +:+ quote +:+ "description" +:+ quote +:+ ": " +:+ quote +:+ quote +:+ "}]".

Definition blankAnswer : string :=
  "```json" +:+ newline +:+ blankJson +:+ newline +:+ "```".

(** What [JSON.parse] makes of the element of [blankJson]. *)
Definition blankItem : JS.value :=
  JS.Object [ ("file", JS.Str " "); ("action", JS.Str "new"); ("description", JS.Str "") ].

(** A [package.json] that depends on react, and on typescript for
    development. *)
Definition reactPackage : string :=
  "{" +:+ quote +:+ "dependencies" +:+ quote +:+ ": {"
  +:+ quote +:+ "react" +:+ quote +:+ ": " +:+ quote +:+ "^18.2.0" +:+ quote +:+ "}, "
  +:+ quote +:+ "devDependencies" +:+ quote +:+ ": {"
  +:+ quote +:+ "typescript" +:+ quote +:+ ": " +:+ quote +:+ "^5.4.0" +:+ quote +:+ "}}".

(** The slashes a path ends with are not part of its last segment. *)
Fixpoint dropSlashes (chars : list ascii) : list ascii :=
  match chars with
  | [] => []
  | c :: before => if Ascii.eqb c "/" then dropSlashes before else chars
  end.

(** [path.extname] of Node on POSIX paths, read from the end of the path;
    [ext] holds the characters passed. The extension starts at the last
    dot of the last segment; there is none when that dot opens the
    segment, and none when the segment is [..]. *)
Fixpoint extnameFrom (chars : list ascii) (ext : string) : string :=
  match chars with
  | [] => ""
  | c :: before =>
      if Ascii.eqb c "/" then ""
      else if Ascii.eqb c "." then
        match before with
        | [] => ""
        | d :: before' =>
            if Ascii.eqb d "/" then ""
            else if Ascii.eqb d "." && String.eqb ext ""
                    && match before' with [] => true | e :: _ => Ascii.eqb e "/" end
            then ""
            else String "." ext
        end
      else extnameFrom before (String c ext)
  end.

Definition extname (filePath : string) : string :=
  extnameFrom (dropSlashes (rev (String.list_ascii_of_string filePath))) "".

(** A platform for the examples. [path.extname] is Node's on POSIX paths.
    [path.join] puts a slash between its arguments, which is what Node
    does when neither is empty, the first does not end with a slash and
    the second has no [.] or [..] segment. [JSON.parse] and the decoding
    of a [package.json] are tables over the three JSON texts of these
    examples, [blankJson], [reactPackage] and the empty object; any other
    text is taken not to be JSON. *)
Definition runtime : Runtime :=
  {| path_extname := extname;
     path_join := fun a b => a +:+ "/" +:+ b;
     JSON_parse := fun text =>
       if String.eqb text blankJson then Some (JS.Array [blankItem])
       else if String.eqb text reactPackage then
         Some (JS.Object
                 [ ("dependencies", JS.Object [("react", JS.Str "^18.2.0")]);
                   ("devDependencies", JS.Object [("typescript", JS.Str "^5.4.0")]) ])
       else if String.eqb text "{}" then Some (JS.Object [])
       else None;
     packageKeys := fun content =>
       if String.eqb content reactPackage then Some ["react"; "typescript"]
       else if String.eqb content "{}" then Some []
       else None |}.

(** A service without a key: [initializeGemini] returned early. *)
Definition offline : GeminiService.t :=
  {| GeminiService.isInitialized := false; GeminiService.model := None |}.

(** An initialized service whose backend answers [blankAnswer]. *)
Definition blankBackend : GeminiService.t :=
  {| GeminiService.isInitialized := true;
     GeminiService.model := Some (fun _ => Ok blankAnswer) |}.

(** An adapter whose two operations throw. *)
Definition failingAdapter : GenerationAdapter.t :=
  {| GenerationAdapter.generateClarificationQuestions :=
       fun _ _ => ([], Throw (JS.Error "backend down"));
     GenerationAdapter.generatePlan :=
       fun _ _ _ => ([], Throw (JS.Error "backend down")) |}.

(** A file manipulator that fails on the second entry of a plan. *)
Definition secondFails : FileManipulator.t :=
  {| FileManipulator.applyPlanItem := fun index _ =>
       if (index =? 1)%nat then Throw (JS.Error "EACCES") else Ok () |}.

Definition request : string := "Add user authentication with Auth0".

(** A provider constructed on an empty storage. *)
Definition fresh : World PlannerProvider.t := PlannerProvider.constructor ∅.

(** The provider after a start with the offline service. *)
Definition started : World PlannerProvider.t :=
  exec (PlannerProvider.generatePlan (@GenerationAdapter.gemini runtime offline)
          (Some request)) fresh.

(** ... and after the three questions were answered. *)
Definition answered : World PlannerProvider.t :=
  exec (answerAll [Some "Auth0"; Some " yes "; Some "no"]) started.

(** ... and after the answers were submitted. *)
Definition planned : World PlannerProvider.t :=
  exec (PlannerProvider.submitClarification (@GenerationAdapter.gemini runtime offline))
    answered.

(** A workspace with one folder, whose only matches are two
    [package.json] files, one of them larger than the limit. *)
Definition smallFile : CodebaseAnalyzer.Uri :=
  {| CodebaseAnalyzer.fsPath := "/work/package.json";
     CodebaseAnalyzer.asRelativePath := "package.json";
     CodebaseAnalyzer.stat := Some 120%N;
     CodebaseAnalyzer.readFile := Some "{}" |}.

Definition largeFile : CodebaseAnalyzer.Uri :=
  {| CodebaseAnalyzer.fsPath := "/work/big/package.json";
     CodebaseAnalyzer.asRelativePath := "big/package.json";
     CodebaseAnalyzer.stat := Some 50001%N;
     CodebaseAnalyzer.readFile := Some "{}" |}.

Definition workspace : CodebaseAnalyzer.Workspace :=
  {| CodebaseAnalyzer.workspaceFolders := Some ["/work"];
     CodebaseAnalyzer.findFiles := fun pattern _ _ =>
       if String.eqb pattern "**/package.json" then Some [largeFile; smallFile] else Some [];
     CodebaseAnalyzer.readDirectory := fun _ => Some [] |}.

(** The same folder when its only match is a [package.json] that holds
    [reactPackage]. *)
Definition reactFile : CodebaseAnalyzer.Uri :=
  {| CodebaseAnalyzer.fsPath := "/work/package.json";
     CodebaseAnalyzer.asRelativePath := "package.json";
     CodebaseAnalyzer.stat := Some 83%N;
     CodebaseAnalyzer.readFile := Some reactPackage |}.

Definition reactWorkspace : CodebaseAnalyzer.Workspace :=
  {| CodebaseAnalyzer.workspaceFolders := Some ["/work"];
     CodebaseAnalyzer.findFiles := fun pattern _ _ =>
       if String.eqb pattern "**/package.json" then Some [reactFile] else Some [];
     CodebaseAnalyzer.readDirectory := fun _ => Some [] |}.

(** An adapter whose two operations throw a string, not an [Error]. *)
Definition rejectingAdapter : GenerationAdapter.t :=
  {| GenerationAdapter.generateClarificationQuestions :=
       fun _ _ => ([], Throw (JS.Thrown "rate limited"));
     GenerationAdapter.generatePlan :=
       fun _ _ _ => ([], Throw (JS.Thrown "rate limited")) |}.

(** An initialized service whose backend answers four lines, two of them
    questions. *)
Definition askingBackend : GeminiService.t :=
  {| GeminiService.isInitialized := true;
     GeminiService.model := Some (fun _ =>
       Ok ("Here are the questions:" +:+ newline
           +:+ "  1. Which provider?  " +:+ newline
           +:+ newline
           +:+ "2. Is SSO needed?")) |}.

(** An initialized service whose backend answers [blankJson] without a
    fence. *)
Definition bareBackend : GeminiService.t :=
  {| GeminiService.isInitialized := true;
     GeminiService.model := Some (fun _ => Ok blankJson) |}.

(** A workspace with one folder in which every search and every listing
    fails. *)
Definition emptyWorkspace : CodebaseAnalyzer.Workspace :=
  {| CodebaseAnalyzer.workspaceFolders := Some ["/work"];
     CodebaseAnalyzer.findFiles := fun _ _ _ => None;
     CodebaseAnalyzer.readDirectory := fun _ => None |}.

(** A provider constructed on the storage a window leaves behind when it
    is closed while the plan is generated. *)
Definition interrupted : World PlannerProvider.t :=
  PlannerProvider.constructor
    (<[PlannerProvider.WORKFLOW_STATE_KEY :=
         PlannerProvider.set_phase planning (PlannerProvider.workflowState (this answered))]>
       ∅).

(** A sidebar that received a request and one answer while the service
    was offline: it holds the fallback plan for the request. *)
Definition sidebarPlanned : World SidebarProvider.t :=
  exec (SidebarProvider.handleGeneratePlan (@GenerationAdapter.gemini runtime offline)
          request;;
        SidebarProvider.handleSubmitAnswer (@GenerationAdapter.gemini runtime offline)
          "Auth0")
    SidebarProvider.constructor.

End Examples.

(* ===================================================================== *)
(** * Properties *)
(* ===================================================================== *)

(** ** Strings *)

Lemma prefix_toLowerCase (p s : string) :
  String.prefix p s = true ->
  String.prefix (JS.toLowerCase p) (JS.toLowerCase s) = true.
Proof.
  revert s. induction p as [|a p IH]; intros [|b s]; simpl; try done.
  destruct (Ascii.ascii_dec a b) as [->|Hne]; [|done].
  intros H. destruct (Ascii.ascii_dec _ _); [|done]. by apply IH.
Qed.

Lemma includes_nil (sub : string) : JS.includes "" sub = String.prefix sub "".
Proof. simpl. apply orb_false_r. Qed.

Lemma includes_cons (c : ascii) (s sub : string) :
  JS.includes (String c s) sub = String.prefix sub (String c s) || JS.includes s sub.
Proof. reflexivity. Qed.

(** Lower-casing both sides keeps an occurrence. *)
Lemma includes_toLowerCase (s sub : string) :
  JS.includes s sub = true ->
  JS.includes (JS.toLowerCase s) (JS.toLowerCase sub) = true.
Proof.
  induction s as [|c s IH].
  - rewrite includes_nil. intros H%prefix_toLowerCase.
    change (JS.toLowerCase "") with "". by rewrite includes_nil.
  - rewrite includes_cons. intros [H%prefix_toLowerCase|H]%orb_true_iff.
    + change (JS.toLowerCase (String c s))
        with (String (JS.toLowerChar c) (JS.toLowerCase s)) in *.
      rewrite includes_cons, H. done.
    + change (JS.toLowerCase (String c s))
        with (String (JS.toLowerChar c) (JS.toLowerCase s)).
      rewrite includes_cons, (IH H). apply orb_true_r.
Qed.

Lemma Forall_filter_true {A} (f : A -> bool) (l : list A) :
  Forall (fun x => f x = true) (List.filter f l).
Proof.
  induction l as [|x l IH]; simpl; [constructor|].
  destruct (f x) eqn:E; [constructor|]; done.
Qed.

(** ** The fallback of the generation adapter *)

Lemma fallbackQuestions_bucket (userRequest : string) :
  GeminiService.getFallbackClarificationQuestions userRequest
  = Spec.questionsOf (Spec.bucketOf userRequest).
Proof.
  unfold GeminiService.getFallbackClarificationQuestions, Spec.bucketOf.
  cbv zeta.
  destruct (JS.includes _ "auth"); [done|].
  destruct (JS.includes _ "api" || JS.includes _ "endpoint"); [done|].
  destruct (JS.includes _ "database" || JS.includes _ "db"); done.
Qed.

Lemma fallbackPlan_bucket (userRequest : string) :
  GeminiService.getFallbackPlan userRequest = Spec.planOf (Spec.bucketOf userRequest).
Proof.
  unfold GeminiService.getFallbackPlan, Spec.bucketOf.
  cbv zeta.
  destruct (JS.includes _ "auth"); [done|].
  destruct (JS.includes _ "api" || JS.includes _ "endpoint"); [done|].
  destruct (JS.includes _ "database" || JS.includes _ "db"); done.
Qed.

Lemma questionsOf_schema (b : Spec.Bucket) : Spec.questionSchema (Spec.questionsOf b).
Proof.
  destruct b; (split; [simpl; lia|]); repeat constructor; done.
Qed.

Lemma planOf_schema (b : Spec.Bucket) :
  Spec.planSchema (Spec.planOf b) ∧ Forall Spec.filledIn (Spec.planOf b).
Proof.
  destruct b; (split; [split; [done|]|]); repeat constructor;
    unfold Spec.validAction; simpl; try set_solver; done.
Qed.

(** ** The backend path of the generation adapter *)

Lemma parseQuestions_schema (text : string) :
  (length (GeminiService.parseQuestions text) ≤ 3)%nat
  ∧ Forall (fun q => q ≠ "" ∧ JS.includes q "?" = true) (GeminiService.parseQuestions text).
Proof.
  unfold GeminiService.parseQuestions, JS.slice0. split.
  - rewrite length_take. lia.
  - apply Forall_take. eapply Forall_impl; [apply Forall_filter_true|].
    intros q [Hlen Hq]%andb_true_iff. split; [|done].
    intros ->. done.
Qed.

(** The three reads the filter of [generatePlan] makes on an element it
    keeps, and what the element becomes. *)
Lemma isValidItem_spec (item : JS.value) :
  GeminiService.isValidItem item = true ↔
  JS.truthy item = true
  ∧ ∃ f a d,
      JS.asString (JS.get item "file") = Some f
      ∧ JS.asString (JS.get item "action") = Some a
      ∧ JS.asString (JS.get item "description") = Some d
      ∧ Spec.validAction a.
Proof.
  unfold GeminiService.isValidItem, JS.arrayIncludes, Spec.validAction.
  split.
  - intros H.
    apply andb_true_iff in H as [H Hin].
    apply andb_true_iff in H as [H Hd].
    apply andb_true_iff in H as [H Ha].
    apply andb_true_iff in H as [Ht Hf].
    apply bool_decide_eq_true in Hf as [f Hf].
    apply bool_decide_eq_true in Ha as [a Ha].
    apply bool_decide_eq_true in Hd as [d Hd].
    rewrite Ha in Hin. apply bool_decide_eq_true in Hin.
    split; [done|]. by exists f, a, d.
  - intros (Ht & f & a & d & Hf & Ha & Hd & Hin).
    rewrite Ht, Hf, Ha, Hd. simpl.
    rewrite !bool_decide_eq_true_2 by eauto. done.
Qed.

Lemma toPlanItem_valid (item : JS.value) :
  GeminiService.isValidItem item = true ->
  ∃ f a d,
    JS.asString (JS.get item "file") = Some f
    ∧ JS.asString (JS.get item "action") = Some a
    ∧ JS.asString (JS.get item "description") = Some d
    ∧ Spec.validAction a
    ∧ GeminiService.toPlanItem item
      = {| file := JS.trim f; action := a; description := JS.trim d |}.
Proof.
  intros (_ & f & a & d & Hf & Ha & Hd & Hv)%isValidItem_spec.
  exists f, a, d. repeat split; try done.
  unfold GeminiService.toPlanItem, GeminiService.stringProp. by rewrite Hf, Ha, Hd.
Qed.

Lemma validatedPlan_actions (planData : list JS.value) :
  Forall (fun i => Spec.validAction (action i))
    (map GeminiService.toPlanItem (List.filter GeminiService.isValidItem planData)).
Proof.
  apply Forall_map. eapply Forall_impl; [apply Forall_filter_true|].
  intros item (f & a & d & _ & _ & _ & Hv & ->)%toPlanItem_valid. exact Hv.
Qed.

Lemma fallback_auth (userRequest : string) :
  JS.includes (JS.toLowerCase userRequest) "auth" = true ->
  GeminiService.getFallbackClarificationQuestions userRequest = Spec.authQuestions
  ∧ GeminiService.getFallbackPlan userRequest = Spec.authPlan.
Proof.
  intros H. rewrite fallbackQuestions_bucket, fallbackPlan_bucket.
  unfold Spec.bucketOf. cbv zeta. by rewrite H.
Qed.

(** Whatever the state of the service and whatever the backend answers,
    [generateClarificationQuestions] returns, and what it returns has the
    shape of a list of questions. *)
Lemma generateClarificationQuestions_schema (svc : GeminiService.t)
    (userRequest : string) (codebaseContext : option CodebaseContext) :
  ∃ questions,
    snd (GeminiService.generateClarificationQuestions svc userRequest codebaseContext)
    = Ok questions
    ∧ Spec.questionSchema questions.
Proof.
  unfold GeminiService.generateClarificationQuestions. cbv zeta.
  destruct (negb (GeminiService.ensureInitialized svc)).
  { eexists. split; [reflexivity|].
    rewrite fallbackQuestions_bucket. apply questionsOf_schema. }
  destruct (GeminiService.generateContent svc _) as [text|e].
  - destruct (0 <? length (GeminiService.parseQuestions text))%nat eqn:Hlen.
    + eexists. split; [reflexivity|].
      apply Nat.ltb_lt in Hlen.
      destruct (parseQuestions_schema text) as [Hle Hall].
      split; [lia|exact Hall].
    + eexists. split; [reflexivity|].
      rewrite fallbackQuestions_bucket. apply questionsOf_schema.
  - eexists. split; [reflexivity|].
    rewrite fallbackQuestions_bucket. apply questionsOf_schema.
Qed.

(** Whatever the state of the service, the backend's answer and the
    result of parsing it, [generatePlan] returns, and what it returns has
    the shape of a plan. *)
Lemma generatePlan_schema `{R : Runtime} (svc : GeminiService.t) (userRequest : string)
    (clarificationAnswers : list string) (codebaseContext : option CodebaseContext) :
  ∃ plan,
    snd (GeminiService.generatePlan svc userRequest clarificationAnswers codebaseContext)
    = Ok plan
    ∧ Spec.planSchema plan.
Proof.
  unfold GeminiService.generatePlan. cbv zeta.
  destruct (negb (GeminiService.ensureInitialized svc)).
  { eexists. split; [reflexivity|].
    rewrite fallbackPlan_bucket. apply planOf_schema. }
  destruct (GeminiService.tryGeneratePlan svc _ _ _) as [plan|e] eqn:Htry.
  - exists plan. split; [reflexivity|].
    unfold GeminiService.tryGeneratePlan in Htry. cbv zeta in Htry.
    destruct (GeminiService.generateContent svc _) as [text|]; [|done].
    destruct (GeminiService.matchArray _) as [jsonMatch|]; [|done].
    destruct (JSON_parse jsonMatch) as [[| | | |planData|]|]; try done.
    destruct (length _ =? 0)%nat eqn:Hlen; [done|].
    injection Htry as <-. apply Nat.eqb_neq in Hlen. split.
    + intros Hnil. by rewrite Hnil in Hlen.
    + apply validatedPlan_actions.
  - eexists. split; [reflexivity|].
    rewrite fallbackPlan_bucket. apply planOf_schema.
Qed.

(** ** C10 *)

(** C10. In fallback mode the buckets are tested in the order
    authentication, API/endpoint, database, generic on the lower-cased
    request ([Spec.bucketOf]), by substring search: both fallbacks are the
    entry of the bucket found that way, two requests that differ in case
    only get the same, and a request whose lower-cased text contains "auth"
    gets the authentication questions and the authentication plan whatever
    else it contains. *)
Theorem fallback_buckets_tested_in_order (userRequest : string) :
  JS.includes (JS.toLowerCase userRequest) "auth" = true ->
  (GeminiService.getFallbackClarificationQuestions userRequest = Spec.authQuestions
   ∧ GeminiService.getFallbackPlan userRequest = Spec.authPlan)
  ∧ (∀ other : string,
       GeminiService.getFallbackClarificationQuestions other
       = Spec.questionsOf (Spec.bucketOf other)
       ∧ GeminiService.getFallbackPlan other = Spec.planOf (Spec.bucketOf other))
  ∧ (∀ r1 r2 : string,
       JS.toLowerCase r1 = JS.toLowerCase r2 ->
       GeminiService.getFallbackClarificationQuestions r1
       = GeminiService.getFallbackClarificationQuestions r2
       ∧ GeminiService.getFallbackPlan r1 = GeminiService.getFallbackPlan r2).
Proof.
  intros H. split; [by apply fallback_auth|]. split.
  - intros other. split; [apply fallbackQuestions_bucket|apply fallbackPlan_bucket].
  - intros r1 r2 Hsame.
    rewrite !fallbackQuestions_bucket, !fallbackPlan_bucket.
    unfold Spec.bucketOf. by rewrite Hsame.
Qed.

(** A request with "Author", "API", "endpoint", "database" and "db" in it
    is answered from the authentication bucket. *)
Lemma fallback_buckets_tested_in_order_witness :
  let userRequest := "Author API endpoint for the database db" in
  JS.includes (JS.toLowerCase userRequest) "api" = true
  ∧ JS.includes (JS.toLowerCase userRequest) "db" = true
  ∧ GeminiService.getFallbackClarificationQuestions userRequest = Spec.authQuestions
  ∧ GeminiService.getFallbackPlan userRequest = Spec.authPlan.
Proof.
  split; [reflexivity|]. split; [reflexivity|].
  apply (fallback_buckets_tested_in_order "Author API endpoint for the database db").
  reflexivity.
Defined.

(** ** C6 *)

(** C6, as the code has it. With an uninitialized backend both operations
    return a fallback without asking the backend. The questions are the
    entry of the keyword bucket of the request ([Spec.bucketOf]:
    authentication, API/endpoint, database, generic). The plan is not
    selected against the four buckets: it is the authentication plan when
    the lower-cased request contains "auth", and one and the same plan for
    every other request, whatever its bucket. Both are never empty, and
    they have the shape every result of the two operations has. *)
Theorem fallback_when_uninitialized `{R : Runtime} (svc : GeminiService.t)
    (userRequest : string) (clarificationAnswers : list string)
    (codebaseContext : option CodebaseContext) :
  GeminiService.ensureInitialized svc = false ->
  let questions := Spec.questionsOf (Spec.bucketOf userRequest) in
  let plan := if JS.includes (JS.toLowerCase userRequest) "auth"
              then Spec.authPlan else Spec.genericPlan in
  GeminiService.generateClarificationQuestions svc userRequest codebaseContext
  = ([], Ok questions)
  ∧ GeminiService.generatePlan svc userRequest clarificationAnswers codebaseContext
    = ([], Ok plan)
  ∧ (Spec.bucketOf userRequest ≠ Spec.Authentication -> plan = Spec.genericPlan)
  ∧ questions ≠ [] ∧ plan ≠ []
  ∧ Spec.questionSchema questions
  ∧ Spec.planSchema plan ∧ Forall Spec.filledIn plan
  ∧ (∀ (other : GeminiService.t) request answers context,
       (∃ qs, snd (GeminiService.generateClarificationQuestions other request context) = Ok qs
              ∧ Spec.questionSchema qs)
       ∧ (∃ p, snd (GeminiService.generatePlan other request answers context) = Ok p
               ∧ Spec.planSchema p)).
Proof.
  intros Hoff questions plan.
  assert (plan = Spec.planOf (Spec.bucketOf userRequest)) as Hplan.
  { subst plan. unfold Spec.bucketOf. cbv zeta.
    destruct (JS.includes (JS.toLowerCase userRequest) "auth"); [done|].
    by repeat (destruct (_ || _)). }
  split; [|split; [|split]].
  - unfold GeminiService.generateClarificationQuestions. cbv zeta.
    rewrite Hoff. simpl. by rewrite fallbackQuestions_bucket.
  - unfold GeminiService.generatePlan. cbv zeta.
    rewrite Hoff. simpl. by rewrite fallbackPlan_bucket, Hplan.
  - rewrite Hplan. by destruct (Spec.bucketOf userRequest).
  - rewrite Hplan.
    split; [subst questions; by destruct (Spec.bucketOf userRequest)|].
    split; [by destruct (Spec.bucketOf userRequest)|].
    split; [apply questionsOf_schema|].
    split; [apply planOf_schema|].
    split; [apply planOf_schema|].
    intros other request answers context. split.
    + apply generateClarificationQuestions_schema.
    + apply generatePlan_schema.
Qed.

(** The service without a key, asked about a database request: the
    database questions, and the plan of every request without "auth". *)
Lemma fallback_when_uninitialized_witness :
  GeminiService.generateClarificationQuestions Examples.offline
    "Store the orders in a database" None
  = ([], Ok (Spec.questionsOf Spec.Database))
  ∧ @GeminiService.generatePlan Examples.runtime Examples.offline
      "Store the orders in a database" ["PostgreSQL"] None
    = ([], Ok Spec.genericPlan).
Proof.
  pose proof (@fallback_when_uninitialized Examples.runtime Examples.offline
                "Store the orders in a database" ["PostgreSQL"] None eq_refl) as H.
  destruct H as (Hq & Hp & _).
  split; [exact Hq|exact Hp].
Defined.

(** C6, as stated, fails for the plan. A request of the API bucket, one of
    the database bucket and one of the generic bucket get three different
    lists of questions and one and the same plan. *)
Lemma fallback_plan_ignores_the_bucket :
  let api := "Add a REST api endpoint" in
  let database := "Store the orders in a database" in
  let generic := "Add a dark mode toggle" in
  let plan r := @GeminiService.generatePlan Examples.runtime Examples.offline r [] None in
  let questions r := GeminiService.generateClarificationQuestions Examples.offline r None in
  Spec.bucketOf api = Spec.Api
  ∧ Spec.bucketOf database = Spec.Database
  ∧ Spec.bucketOf generic = Spec.Generic
  ∧ questions api ≠ questions generic
  ∧ questions database ≠ questions generic
  ∧ questions api ≠ questions database
  ∧ plan api = plan generic
  ∧ plan database = plan generic
  ∧ plan generic = ([], Ok Spec.genericPlan).
Proof.
  cbv zeta. repeat (split; [by vm_compute|]). by vm_compute.
Qed.

(** ** C5 *)

(** C5. For every request (so for every request a valid start accepts)
    [generateClarificationQuestions] returns between one and three strings
    that each contain a question mark; and when the backend is unavailable
    (the service is not initialized, or the call to the backend throws) a
    request that contains "auth" gets exactly the three authentication
    questions. *)
Theorem clarification_questions_shape (svc : GeminiService.t) (userRequest : string)
    (codebaseContext : option CodebaseContext) :
  (∃ questions,
     snd (GeminiService.generateClarificationQuestions svc userRequest codebaseContext)
     = Ok questions
     ∧ (1 ≤ length questions ≤ 3)%nat
     ∧ Forall (fun q => JS.includes q "?" = true) questions)
  ∧ (GeminiService.ensureInitialized svc = false
     ∨ (∃ e, GeminiService.generateContent svc
               (GeminiService.ClarificationPrompt codebaseContext userRequest) = Throw e) ->
     JS.includes userRequest "auth" = true ->
     snd (GeminiService.generateClarificationQuestions svc userRequest codebaseContext)
     = Ok Spec.authQuestions).
Proof.
  split.
  - destruct (generateClarificationQuestions_schema svc userRequest codebaseContext)
      as (questions & Heq & Hlen & Hall).
    exists questions. split; [done|]. split; [done|].
    eapply Forall_impl; [exact Hall|]. by intros q [_ Hq].
  - intros Hdown Hauth%includes_toLowerCase.
    change (JS.toLowerCase "auth") with "auth" in Hauth.
    apply fallback_auth in Hauth as [Hq _].
    unfold GeminiService.generateClarificationQuestions. cbv zeta.
    destruct (GeminiService.ensureInitialized svc) eqn:Hinit; simpl; [|by rewrite Hq].
    destruct Hdown as [Hoff|[e He]]; [done|].
    rewrite He. simpl. by rewrite Hq.
Qed.

(** The request of the end-to-end scenario, with the service offline. *)
Lemma clarification_questions_shape_witness :
  snd (GeminiService.generateClarificationQuestions Examples.offline Examples.request None)
  = Ok Spec.authQuestions.
Proof.
  apply (clarification_questions_shape Examples.offline Examples.request None).
  - left. reflexivity.
  - reflexivity.
Defined.

(** ** C1 *)

(** The backend path of [generatePlan] hands back the elements of the
    array parsed from the answer of the backend that pass the filter, each
    turned into a plan item. *)
Lemma tryGeneratePlan_validated `{R : Runtime} (svc : GeminiService.t) (userRequest : string)
    (clarificationAnswers : list string) (codebaseContext : option CodebaseContext)
    (plan : list PlanItem) :
  GeminiService.tryGeneratePlan svc userRequest clarificationAnswers codebaseContext = Ok plan ->
  ∃ responseText jsonMatch planData,
    GeminiService.generateContent svc
      (GeminiService.PlanPrompt codebaseContext userRequest clarificationAnswers)
    = Ok responseText
    ∧ arrayIn responseText = Some jsonMatch
    ∧ JSON_parse jsonMatch = Some (JS.Array planData)
    ∧ plan = map GeminiService.toPlanItem (List.filter GeminiService.isValidItem planData).
Proof.
  unfold GeminiService.tryGeneratePlan, arrayIn. cbv zeta. intros Htry.
  destruct (GeminiService.generateContent svc _) as [text|]; [|done].
  destruct (GeminiService.matchArray _) as [jsonMatch|] eqn:Hmatch; [|done].
  destruct (JSON_parse jsonMatch) as [[| | | |planData|]|] eqn:Hparse; try done.
  destruct (length _ =? 0)%nat; [done|].
  injection Htry as <-. by exists text, jsonMatch, planData.
Qed.

(** The array parsed from the answer of the backend decides the plan: the
    elements that pass the filter, or the fallback when none does. *)
Lemma generatePlan_of_response `{R : Runtime} (svc : GeminiService.t) (userRequest : string)
    (clarificationAnswers : list string) (codebaseContext : option CodebaseContext)
    (responseText jsonMatch : string) (planData : list JS.value) :
  GeminiService.ensureInitialized svc = true ->
  GeminiService.generateContent svc
    (GeminiService.PlanPrompt codebaseContext userRequest clarificationAnswers)
  = Ok responseText ->
  arrayIn responseText = Some jsonMatch ->
  JSON_parse jsonMatch = Some (JS.Array planData) ->
  GeminiService.generatePlan svc userRequest clarificationAnswers codebaseContext
  = match List.filter GeminiService.isValidItem planData with
    | [] => ([Warning "Failed to generate plan with AI. Using fallback."],
             Ok (GeminiService.getFallbackPlan userRequest))
    | kept => ([], Ok (map GeminiService.toPlanItem kept))
    end.
Proof.
  intros Hinit Htext Hmatch Hparse.
  unfold GeminiService.generatePlan, GeminiService.tryGeneratePlan. cbv zeta.
  unfold arrayIn in Hmatch. rewrite Hinit, Htext, Hmatch, Hparse. cbn [negb].
  rewrite length_map. by destruct (List.filter GeminiService.isValidItem planData).
Qed.

(** C1, as the code has it. [generatePlan] keeps an element of the array
    parsed from the answer of the backend exactly when it is truthy, its
    [file], [action] and [description] are strings and its [action] is one
    of "new", "modify", "remove"; every other element is dropped; a kept
    element becomes the plan item with the same action and with [file]
    and [description] trimmed, nothing being put in the place of a missing
    value. The plan of the backend path is made of the kept elements of
    that array, in order, and of nothing else; when no element is kept the
    fallback plan is returned with a warning. Every item of the returned
    plan has one of the three actions. Nothing requires [file] or
    [description] to be non-empty. *)
Theorem generatePlan_validates_elements `{R : Runtime} (svc : GeminiService.t)
    (userRequest : string) (clarificationAnswers : list string)
    (codebaseContext : option CodebaseContext) :
  (∀ item,
     GeminiService.isValidItem item = true ↔
     JS.truthy item = true
     ∧ ∃ f a d,
         JS.asString (JS.get item "file") = Some f
         ∧ JS.asString (JS.get item "action") = Some a
         ∧ JS.asString (JS.get item "description") = Some d
         ∧ Spec.validAction a)
  ∧ (∀ item f a d,
       GeminiService.isValidItem item = true ->
       JS.asString (JS.get item "file") = Some f ->
       JS.asString (JS.get item "action") = Some a ->
       JS.asString (JS.get item "description") = Some d ->
       GeminiService.toPlanItem item
       = {| file := JS.trim f; action := a; description := JS.trim d |})
  ∧ (∀ plan,
       GeminiService.tryGeneratePlan svc userRequest clarificationAnswers codebaseContext
       = Ok plan ->
       ∃ responseText jsonMatch planData,
         GeminiService.generateContent svc
           (GeminiService.PlanPrompt codebaseContext userRequest clarificationAnswers)
         = Ok responseText
         ∧ arrayIn responseText = Some jsonMatch
         ∧ JSON_parse jsonMatch = Some (JS.Array planData)
         ∧ plan = map GeminiService.toPlanItem
                    (List.filter GeminiService.isValidItem planData))
  ∧ (∀ responseText jsonMatch planData,
       GeminiService.ensureInitialized svc = true ->
       GeminiService.generateContent svc
         (GeminiService.PlanPrompt codebaseContext userRequest clarificationAnswers)
       = Ok responseText ->
       arrayIn responseText = Some jsonMatch ->
       JSON_parse jsonMatch = Some (JS.Array planData) ->
       GeminiService.generatePlan svc userRequest clarificationAnswers codebaseContext
       = match List.filter GeminiService.isValidItem planData with
         | [] => ([Warning "Failed to generate plan with AI. Using fallback."],
                  Ok (GeminiService.getFallbackPlan userRequest))
         | kept => ([], Ok (map GeminiService.toPlanItem kept))
         end)
  ∧ (∃ plan,
       snd (GeminiService.generatePlan svc userRequest clarificationAnswers codebaseContext)
       = Ok plan
       ∧ plan ≠ []
       ∧ Forall (fun i => Spec.validAction (action i)) plan).
Proof.
  split; [exact isValidItem_spec|]. split; [|split; [|split]].
  - intros item f a d (f' & a' & d' & Hf & Ha & Hd & _ & ->)%toPlanItem_valid Hf' Ha' Hd'.
    congruence.
  - intros plan. apply tryGeneratePlan_validated.
  - intros responseText jsonMatch planData. apply generatePlan_of_response.
  - destruct (generatePlan_schema svc userRequest clarificationAnswers codebaseContext)
      as (plan & Heq & Hne & Hall).
    by exists plan.
Qed.

(** C1, as stated, fails: an element whose [file] is blank and whose
    [description] is empty passes the filter, and the plan that is
    returned holds an item with an empty [file] and an empty
    [description]. *)
Lemma generatePlan_keeps_blank_item :
  GeminiService.isValidItem Examples.blankItem = true
  ∧ @GeminiService.generatePlan Examples.runtime Examples.blankBackend
      "Add a settings page" [] None
    = ([], Ok [Spec.item "" "new" ""])
  ∧ ¬ Spec.filledIn (Spec.item "" "new" "").
Proof.
  split; [reflexivity|]. split; [vm_compute; reflexivity|].
  intros [Hfile _]. by apply Hfile.
Qed.

(** ** Running a method *)

Ltac run :=
  repeat (unfold mbind, M_bind, mret, M_ret, PlannerProvider.getState, getThis, assign, emit,
            throw, tryCatch, PlannerProvider.resetWorkflowState,
            PlannerProvider.saveWorkflowState, PlannerProvider.refresh,
            PlannerProvider.onState, window.showInformationMessage,
            window.showErrorMessage, window.showWarningMessage, window.askWarningMessage,
            window.showInputBox, SidebarProvider.postMessage;
          cbn [this trace fst snd PlannerProvider.workflowState
               PlannerProvider.workspaceState]).

Lemma during_eq {S A} (m : M S A) (w : World S) (new : list Event) :
  trace (exec m w) = trace w ++ new -> during m w = new.
Proof. unfold during. intros ->. apply drop_app_length. Qed.

Lemma emitAll_run {S} (ns : list Notification) (w : World S) :
  emitAll ns w = (Ok (), {| this := this w; trace := trace w ++ map EvNotify ns |}).
Proof.
  revert w. induction ns as [|n ns IH]; intros [p tr]; simpl.
  - unfold mret, M_ret. simpl. by rewrite app_nil_r.
  - unfold mbind, M_bind, emit. simpl. rewrite IH. simpl.
    by rewrite <- app_assoc.
Qed.

Lemma await_run {S A} (e : Event) (ns : list Notification) (r : Result A) (w : World S) :
  await e (ns, r) w
  = (r, {| this := this w; trace := trace w ++ e :: map EvNotify ns |}).
Proof.
  unfold await, mbind, M_bind, emit. simpl. rewrite emitAll_run. simpl.
  rewrite <- app_assoc. simpl. by destruct r.
Qed.

(** ** The workflow engine: answers *)

Lemma validateAnswer_accepts (value : string) :
  PlannerProvider.validateAnswer value = None -> PlannerProvider.isMissing (Some value) = false.
Proof.
  unfold PlannerProvider.validateAnswer, PlannerProvider.isMissing.
  destruct (String.eqb value ""); simpl; [done|done].
Qed.

Lemma answerNextQuestion_noop (typed : option string) (w : World PlannerProvider.t) :
  let s := PlannerProvider.workflowState (this w) in
  phase s ≠ clarification
  ∨ (length (clarificationQuestions s) ≤ length (clarificationAnswers s))%nat
  ∨ acceptedAnswer typed = None ->
  PlannerProvider.answerNextQuestion typed w = (Ok (), w).
Proof.
  destruct w as [[s st] tr]. simpl. intros H.
  unfold PlannerProvider.answerNextQuestion. run.
  destruct (decide (phase s = clarification)) as [Hp|Hp].
  2: { by rewrite bool_decide_eq_false_2. }
  rewrite bool_decide_eq_true_2 by done. simpl.
  destruct (length (clarificationQuestions s) <=? length (clarificationAnswers s))%nat eqn:Hle;
    [done|].
  apply Nat.leb_gt in Hle.
  destruct H as [H|[H|H]]; [done|lia|].
  unfold acceptedAnswer in H. destruct typed as [v|]; [|done].
  destruct (PlannerProvider.validateAnswer v); [done|done].
Qed.

Lemma answerNextQuestion_append (typed : option string) (w : World PlannerProvider.t)
    (a : string) :
  let s := PlannerProvider.workflowState (this w) in
  phase s = clarification ->
  (length (clarificationAnswers s) < length (clarificationQuestions s))%nat ->
  acceptedAnswer typed = Some a ->
  returned (PlannerProvider.answerNextQuestion typed) w = Ok ()
  ∧ PlannerProvider.workflowState (this (exec (PlannerProvider.answerNextQuestion typed) w))
    = PlannerProvider.set_clarificationAnswers (clarificationAnswers s ++ [a]) s.
Proof.
  destruct w as [[s st] tr]. simpl. intros Hp Hlt Hacc.
  unfold exec, returned, PlannerProvider.answerNextQuestion.
  run. rewrite Hp. simpl.
  apply Nat.leb_gt in Hlt. rewrite Hlt.
  unfold acceptedAnswer in Hacc.
  destruct typed as [v|]; [|done].
  destruct (PlannerProvider.validateAnswer v) eqn:Hv; [done|].
  injection Hacc as <-.
  rewrite (validateAnswer_accepts v Hv). run.
  destruct (0 <? _)%nat; done.
Qed.

Lemma answerNextQuestion_cases (typed : option string) (w : World PlannerProvider.t) :
  let s := PlannerProvider.workflowState (this w) in
  (PlannerProvider.answerNextQuestion typed w = (Ok (), w)
   ∧ (phase s ≠ clarification
      ∨ (length (clarificationQuestions s) ≤ length (clarificationAnswers s))%nat
      ∨ acceptedAnswer typed = None))
  ∨ (∃ a, acceptedAnswer typed = Some a
          ∧ phase s = clarification
          ∧ (length (clarificationAnswers s) < length (clarificationQuestions s))%nat
          ∧ returned (PlannerProvider.answerNextQuestion typed) w = Ok ()
          ∧ PlannerProvider.workflowState
              (this (exec (PlannerProvider.answerNextQuestion typed) w))
            = PlannerProvider.set_clarificationAnswers (clarificationAnswers s ++ [a]) s).
Proof.
  intros s.
  destruct (decide (phase s = clarification)) as [Hp|Hp].
  2: { left. split; [apply answerNextQuestion_noop|]; by left. }
  destruct (decide (length (clarificationAnswers s) < length (clarificationQuestions s))%nat)
    as [Hlt|Hge].
  2: { left. split; [apply answerNextQuestion_noop|]; right; left; fold s; lia. }
  destruct (acceptedAnswer typed) as [a|] eqn:Hacc.
  2: { left. split; [apply answerNextQuestion_noop|]; right; by right. }
  right. exists a.
  destruct (answerNextQuestion_append typed w a Hp Hlt Hacc) as [Hr Hs].
  by repeat split.
Qed.

Lemma answerAll_spec (typed : list (option string)) (w : World PlannerProvider.t) :
  let s := PlannerProvider.workflowState (this w) in
  let s' := PlannerProvider.workflowState (this (exec (answerAll typed) w)) in
  returned (answerAll typed) w = Ok ()
  ∧ phase s' = phase s
  ∧ clarificationQuestions s' = clarificationQuestions s
  ∧ clarificationAnswers s'
    = clarificationAnswers s
      ++ (if bool_decide (phase s = clarification)
          then take (length (clarificationQuestions s) - length (clarificationAnswers s))
                 (omap acceptedAnswer typed)
          else []).
Proof.
  revert w. induction typed as [|v typed IH]; intros w s.
  - simpl. unfold exec, returned, mret, M_ret. simpl.
    repeat split; try done. rewrite take_nil. destruct (bool_decide _); by rewrite app_nil_r.
  - pose proof (answerNextQuestion_cases v w) as Hstep.
    assert (Hseq : ∀ w1, PlannerProvider.answerNextQuestion v w = (Ok (), w1) ->
                   (answerAll (v :: typed)) w = answerAll typed w1).
    { intros w1 H1. simpl. unfold mbind, M_bind. by rewrite H1. }
    destruct Hstep as [[Hnoop Hwhy]|(a & Hacc & Hp & Hlt & Hret & Hst)].
    + unfold exec, returned. rewrite (Hseq w Hnoop).
      destruct (IH w) as (Hr & Hph & Hq & Ha). fold s in Hph, Hq, Ha.
      unfold exec, returned in *. repeat split; try done.
      rewrite Ha. f_equal.
      destruct (decide (phase s = clarification)) as [Hp|Hp].
      2: { by rewrite bool_decide_eq_false_2. }
      rewrite bool_decide_eq_true_2 by done.
      destruct Hwhy as [H|[H|H]]; [done| |].
      * fold s in H. replace (_ - _)%nat with 0%nat by lia. by rewrite !take_0.
      * simpl. by rewrite H.
    + unfold exec, returned in Hret, Hst.
      destruct (PlannerProvider.answerNextQuestion v w) as [r w1] eqn:Hrun.
      simpl in Hret, Hst. subst r.
      unfold exec, returned. rewrite (Hseq w1 eq_refl).
      destruct (IH w1) as (Hr & Hph & Hq & Ha).
      unfold exec, returned in *. rewrite Hst in Hph, Hq, Ha. simpl in Hph, Hq, Ha.
      fold s in Hph, Hq, Ha.
      repeat split; try done.
      rewrite Ha. rewrite !bool_decide_eq_true_2 by done.
      rewrite <- app_assoc. f_equal. simpl. rewrite Hacc.
      rewrite length_app. simpl. fold s in Hlt.
      replace (length (clarificationQuestions s) - length (clarificationAnswers s))%nat
        with (S (length (clarificationQuestions s) - (length (clarificationAnswers s) + 1)))%nat
        by lia.
      done.
Qed.

(** ** C8 *)

(** C8. Whatever the workflow state is, saving it and constructing a new
    provider on the storage that results gives a provider whose workflow
    state is the one that was saved: same phase, request, questions,
    answers and plan. *)
Theorem save_then_load_is_identity (w : World PlannerProvider.t) :
  let saved := exec PlannerProvider.saveWorkflowState w in
  let reloaded :=
    PlannerProvider.constructor (PlannerProvider.workspaceState (this saved)) in
  let s := PlannerProvider.workflowState (this w) in
  let s' := PlannerProvider.workflowState (this reloaded) in
  s' = s
  ∧ phase s' = phase s
  ∧ userRequest s' = userRequest s
  ∧ clarificationQuestions s' = clarificationQuestions s
  ∧ clarificationAnswers s' = clarificationAnswers s
  ∧ plan s' = plan s.
Proof.
  destruct w as [[s st] tr].
  cbv zeta.
  assert (PlannerProvider.workflowState
            (this (PlannerProvider.constructor
                     (PlannerProvider.workspaceState
                        (this (exec PlannerProvider.saveWorkflowState
                                 {| this := {| PlannerProvider.workflowState := s;
                                               PlannerProvider.workspaceState := st |};
                                    trace := tr |})))))
          = s) as ->.
  { unfold exec, PlannerProvider.constructor, PlannerProvider.loadWorkflowState. run.
    rewrite lookup_insert_eq. run. reflexivity. }
  done.
Qed.

(** ** The workflow engine: start, submit, execute *)

Lemma validateRequest_accepts (value : string) :
  PlannerProvider.validateRequest value = None ->
  PlannerProvider.isMissing (Some value) = false.
Proof.
  unfold PlannerProvider.validateRequest, PlannerProvider.isMissing.
  destruct (String.eqb value ""); simpl; done.
Qed.

Lemma generatePlan_run (svc : GenerationAdapter.t) (v : string) (w : World PlannerProvider.t) :
  let s := PlannerProvider.workflowState (this w) in
  let st := PlannerProvider.workspaceState (this w) in
  let K := PlannerProvider.WORKFLOW_STATE_KEY in
  let o := GenerationAdapter.generateClarificationQuestions svc v None in
  let s1 := startInProgress v s in
  let tr1 := trace w ++ [EvUpdate K s1; EvFire;
                         EvNotify (Information "🤔 Analyzing your request and generating clarification questions...");
                         EvClarification v None] ++ map EvNotify (fst o) in
  let fail (e : JS.Exception) :=
    (Ok (), {| this := {| PlannerProvider.workflowState := PlannerProvider.set_phase idle s1;
                          PlannerProvider.workspaceState :=
                            <[K := PlannerProvider.set_phase idle s1]> (<[K := s1]> st) |};
               trace := tr1 ++ [EvNotify (Error ("Error generating clarification questions: " +:+ JS.toString e));
                                EvUpdate K (PlannerProvider.set_phase idle s1); EvFire] |}) in
  phase s = idle ->
  PlannerProvider.validateRequest v = None ->
  PlannerProvider.generatePlan svc (Some v) w =
  match snd o with
  | Ok [] => fail (JS.Error "No clarification questions generated")
  | Ok questions =>
      let s2 := PlannerProvider.set_clarificationQuestions questions s1 in
      (Ok (), {| this := {| PlannerProvider.workflowState := s2;
                            PlannerProvider.workspaceState := <[K := s2]> (<[K := s1]> st) |};
                 trace := tr1 ++ [EvUpdate K s2; EvFire;
                                  EvNotify (Information ("Generated " +:+ JS.ofNat (length questions)
                                     +:+ " clarification questions. Please answer them to proceed."))] |})
  | Throw e => fail e
  end.
Proof.
  destruct w as [[s st] tr]. cbv zeta. cbn [this trace PlannerProvider.workflowState PlannerProvider.workspaceState].
  intros Hidle Hvalid.
  unfold PlannerProvider.generatePlan. run.
  rewrite Hidle. rewrite bool_decide_eq_true_2 by done. cbn [negb].
  rewrite Hvalid. run. rewrite (validateRequest_accepts v Hvalid). run.
  change (default "" (Some v)) with v.
  destruct (GenerationAdapter.generateClarificationQuestions svc v None) as [ns r].
  rewrite await_run. cbn [fst snd this trace].
  unfold startInProgress, PlannerProvider.set_phase, PlannerProvider.set_userRequest, PlannerProvider.set_clarificationQuestions, PlannerProvider.set_clarificationAnswers.
  cbn [phase userRequest clarificationQuestions clarificationAnswers plan default].
  destruct r as [[|q qs]|e]; run; cbn [length Nat.eqb]; run; rewrite <- ?app_assoc; reflexivity.
Qed.

Lemma generatePlan_ignored (svc : GenerationAdapter.t) (typed : option string)
    (w : World PlannerProvider.t) :
  phase (PlannerProvider.workflowState (this w)) ≠ idle ∨ acceptedRequest typed = None ->
  PlannerProvider.generatePlan svc typed w = (Ok (), w).
Proof.
  destruct w as [[s st] tr]. cbn [this PlannerProvider.workflowState]. intros H.
  unfold PlannerProvider.generatePlan. run.
  destruct (decide (phase s = idle)) as [Hp|Hp].
  2: { by rewrite bool_decide_eq_false_2. }
  rewrite bool_decide_eq_true_2 by done. cbn [negb].
  destruct H as [H|H]; [done|].
  unfold acceptedRequest in H. destruct typed as [v|]; [|done].
  destruct (PlannerProvider.validateRequest v); [|done]. done.
Qed.

Lemma set_phase_back (s : WorkflowState) (p q : Phase) :
  phase s = q -> PlannerProvider.set_phase q (PlannerProvider.set_phase p s) = s.
Proof. intros <-. by destruct s. Qed.

Lemma submitClarification_run (svc : GenerationAdapter.t) (w : World PlannerProvider.t) :
  let s := PlannerProvider.workflowState (this w) in
  let st := PlannerProvider.workspaceState (this w) in
  let K := PlannerProvider.WORKFLOW_STATE_KEY in
  let o := GenerationAdapter.generatePlan svc (userRequest s) (clarificationAnswers s) None in
  let s1 := PlannerProvider.set_phase planning s in
  let tr1 := trace w
             ++ [EvUpdate K s1; EvFire;
                 EvNotify (Information "Generating detailed implementation plan...");
                 EvPlan (userRequest s) (clarificationAnswers s) None]
             ++ map EvNotify (fst o) in
  let fail (e : JS.Exception) :=
    (Ok (), {| this := {| PlannerProvider.workflowState := s;
                          PlannerProvider.workspaceState := <[K := s]> (<[K := s1]> st) |};
               trace := tr1 ++ [EvNotify (Error ("Error generating implementation plan: "
                                                 +:+ JS.toString e));
                                EvUpdate K s; EvFire] |}) in
  phase s = clarification ->
  length (clarificationAnswers s) = length (clarificationQuestions s) ->
  PlannerProvider.submitClarification svc w =
  match snd o with
  | Ok [] => fail (JS.Error "No implementation plan generated")
  | Ok plan =>
      let s2 := PlannerProvider.set_phase ready (PlannerProvider.set_plan plan s1) in
      (Ok (), {| this := {| PlannerProvider.workflowState := s2;
                            PlannerProvider.workspaceState := <[K := s2]> (<[K := s1]> st) |};
                 trace := tr1 ++ [EvUpdate K s2; EvFire;
                                  EvNotify (Information
                                    ("Implementation plan generated successfully! "
                                     +:+ JS.ofNat (length plan)
                                     +:+ " file changes ready for execution."))] |})
  | Throw e => fail e
  end.
Proof.
  destruct w as [[s st] tr]. cbv zeta.
  cbn [this trace PlannerProvider.workflowState PlannerProvider.workspaceState].
  intros Hp Hlen.
  unfold PlannerProvider.submitClarification. run.
  rewrite Hp. rewrite bool_decide_eq_true_2 by done. cbn [negb].
  rewrite Hlen, Nat.eqb_refl. cbn [negb]. run.
  change (userRequest (PlannerProvider.set_phase planning s)) with (userRequest s).
  change (clarificationAnswers (PlannerProvider.set_phase planning s))
    with (clarificationAnswers s).
  destruct (GenerationAdapter.generatePlan svc (userRequest s) (clarificationAnswers s) None)
    as [ns r].
  rewrite await_run. cbn [fst snd this trace].
  destruct r as [[|i plan]|e]; run; cbn [length Nat.eqb]; run;
    rewrite ?(set_phase_back s planning clarification Hp), <- ?app_assoc; reflexivity.
Qed.

Lemma submitClarification_ignored (svc : GenerationAdapter.t) (w : World PlannerProvider.t) :
  phase (PlannerProvider.workflowState (this w)) ≠ clarification ->
  PlannerProvider.submitClarification svc w = (Ok (), w).
Proof.
  destruct w as [[s st] tr]. cbn [this PlannerProvider.workflowState]. intros Hp.
  unfold PlannerProvider.submitClarification. run.
  by rewrite bool_decide_eq_false_2.
Qed.

Lemma submitClarification_partial (svc : GenerationAdapter.t) (w : World PlannerProvider.t) :
  let s := PlannerProvider.workflowState (this w) in
  phase s = clarification ->
  length (clarificationAnswers s) ≠ length (clarificationQuestions s) ->
  PlannerProvider.submitClarification svc w
  = (Ok (), {| this := this w;
               trace := trace w
                        ++ [EvNotify (Warning "Please answer all clarification questions first.")] |}).
Proof.
  destruct w as [[s st] tr]. cbn [this trace PlannerProvider.workflowState]. intros Hp Hne.
  unfold PlannerProvider.submitClarification. run.
  rewrite Hp, bool_decide_eq_true_2 by done. cbn [negb].
  apply Nat.eqb_neq in Hne. rewrite Hne. cbn [negb]. reflexivity.
Qed.

Lemma applyEntries_run (fm : FileManipulator.t) (entries : list (nat * PlanItem))
    (successCount : nat) (w : World PlannerProvider.t) :
  ∃ evs,
    PlannerProvider.applyEntries fm entries successCount w
    = (Ok (successCount + length (List.filter (fun e => negb (fails fm e)) entries))%nat,
       {| this := this w; trace := trace w ++ evs |})
    ∧ applied evs = map snd entries
    ∧ writes evs = []
    ∧ generationCalls evs = []
    ∧ analyses evs = [].
Proof.
  revert successCount w.
  induction entries as [|[index planItem] entries IH]; intros successCount [p tr].
  - exists []. unfold PlannerProvider.applyEntries. run.
    rewrite app_nil_r, Nat.add_0_r. done.
  - cbn [PlannerProvider.applyEntries]. run.
    rewrite await_run. cbn [this trace map fst snd List.filter].
    destruct (FileManipulator.applyPlanItem fm index planItem) as [[]|e] eqn:Happly.
    + assert (fails fm (index, planItem) = false) as ->
        by (unfold fails; cbn [fst snd]; by rewrite Happly).
      cbn [negb length].
      destruct (3 <? length (plan (PlannerProvider.workflowState p)))%nat; run.
      * edestruct (IH (successCount + 1)%nat) as (evs & Hrun & Happ & Hw & Hg & Ha).
        rewrite Hrun. cbn [this trace].
        eexists (EvApply planItem :: _ :: evs).
        split; [f_equal; [f_equal; lia|]; f_equal; by rewrite <- !app_assoc|].
        unfold applied, writes, generationCalls, analyses in *. cbn.
      by rewrite Happ, Hw, Hg, Ha.
      * edestruct (IH (successCount + 1)%nat) as (evs & Hrun & Happ & Hw & Hg & Ha).
        rewrite Hrun. cbn [this trace].
        exists (EvApply planItem :: evs).
        split; [f_equal; [f_equal; lia|]; f_equal; by rewrite <- !app_assoc|].
        unfold applied, writes, generationCalls, analyses in *. cbn.
      by rewrite Happ, Hw, Hg, Ha.
    + assert (fails fm (index, planItem) = true) as ->
        by (unfold fails; cbn [fst snd]; by rewrite Happly).
      cbn [negb]. run.
      edestruct (IH successCount) as (evs & Hrun & Happ & Hw & Hg & Ha).
      rewrite Hrun. cbn [this trace].
      eexists (EvApply planItem :: _ :: evs).
      split; [f_equal; f_equal; by rewrite <- !app_assoc|].
      unfold applied, writes, generationCalls, analyses in *. cbn.
      by rewrite Happ, Hw, Hg, Ha.
Qed.

Lemma filter_negb_length {A} (f : A -> bool) (l : list A) :
  length (List.filter (fun x => negb (f x)) l) = (length l - length (List.filter f l))%nat.
Proof.
  induction l as [|x l IH]; [done|]. simpl.
  pose proof (List.filter_length_le f l) as Hle.
  destruct (f x); simpl; rewrite IH; lia.
Qed.

Lemma entries_snd (plan : list PlanItem) : map snd (PlannerProvider.entries plan) = plan.
Proof.
  unfold PlannerProvider.entries.
  generalize (fun index : nat => index) as g.
  change (imap (λ index planItem, (index, planItem)) plan)
    with (imap (λ index planItem, ((fun i : nat => i) index, planItem)) plan).
  generalize (fun i : nat => i) as h.
  induction plan as [|x plan IH]; intros h g; [done|].
  simpl. f_equal. apply (IH (h ∘ S) g).
Qed.

Lemma entries_length (plan : list PlanItem) :
  length (PlannerProvider.entries plan) = length plan.
Proof. by rewrite <- (entries_snd plan) at 2; rewrite length_map. Qed.

Lemma executeToIDE_run (fm : FileManipulator.t) (w : World PlannerProvider.t) :
  let s := PlannerProvider.workflowState (this w) in
  let st := PlannerProvider.workspaceState (this w) in
  let K := PlannerProvider.WORKFLOW_STATE_KEY in
  let total := length (plan s) in
  phase s = ready ->
  plan s ≠ [] ->
  ∃ evs,
    PlannerProvider.executeToIDE fm (Some "Yes, Execute Plan") w
    = (Ok (),
       {| this := {| PlannerProvider.workflowState := PlannerProvider.emptyState;
                     PlannerProvider.workspaceState := <[K := PlannerProvider.emptyState]> st |};
          trace := trace w
                   ++ [EvNotify (Warning ("Are you sure you want to execute " +:+ JS.ofNat total
                                          +:+ " file changes to your workspace?"));
                       EvNotify (Information "⚡ Executing implementation plan...")]
                   ++ evs
                   ++ [EvNotify (Information
                         ("Execution completed! Successfully applied "
                          +:+ JS.ofNat (total - length (failures fm (plan s))) +:+ "/"
                          +:+ JS.ofNat total +:+ " file changes."));
                       EvUpdate K PlannerProvider.emptyState; EvFire] |})
    ∧ applied evs = plan s
    ∧ writes evs = []
    ∧ generationCalls evs = []
    ∧ analyses evs = [].
Proof.
  destruct w as [[s st] tr]. cbv zeta.
  cbn [this trace PlannerProvider.workflowState PlannerProvider.workspaceState].
  intros Hp Hne.
  unfold PlannerProvider.executeToIDE. run.
  rewrite Hp, bool_decide_eq_true_2 by done. cbn [negb orb].
  assert ((length (plan s) =? 0)%nat = false) as ->.
  { apply Nat.eqb_neq. by destruct (plan s). }
  run. rewrite bool_decide_eq_true_2 by done. cbn [negb]. run.
  edestruct (applyEntries_run fm (PlannerProvider.entries (plan s)) 0)
    as (evs & Hrun & Happ & Hw & Hg & Ha).
  rewrite Hrun. cbn [this trace PlannerProvider.workflowState PlannerProvider.workspaceState].
  exists evs. rewrite entries_snd in Happ. split; [|done].
  rewrite filter_negb_length, entries_length. cbn [Nat.add].
  unfold failures. f_equal. f_equal. by rewrite <- !app_assoc.
Qed.

(** ** The webview provider *)





Lemma handleGeneratePlan_run (svc : GenerationAdapter.t) (request : string)
    (w : World SidebarProvider.t) :
  let p := this w in
  let context := SidebarProvider.codebaseContext p in
  let o := GenerationAdapter.generateClarificationQuestions svc request context in
  SidebarProvider.handleGeneratePlan svc request w
  = (Ok (),
     {| this := {| SidebarProvider.codebaseContext := context;
                   SidebarProvider.currentRequest := request;
                   SidebarProvider.clarificationQuestions :=
                     match snd o with
                     | Ok clarifications => clarifications
                     | Throw _ => SidebarProvider.clarificationQuestions p
                     end;
                   SidebarProvider.clarificationAnswers :=
                     SidebarProvider.clarificationAnswers p;
                   SidebarProvider.currentPlan := SidebarProvider.currentPlan p |};
        trace := trace w
                 ++ [EvPost (showLoading "Analyzing your request with codebase context...");
                     EvClarification request context]
                 ++ map EvNotify (fst o)
                 ++ [EvPost match snd o with
                            | Ok clarifications => showClarifications clarifications request
                            | Throw error => showError ("Error: " +:+ SidebarProvider.errorText error)
                            end] |}).
Proof.
  destruct w as [p tr]. cbv zeta. cbn [this trace].
  unfold SidebarProvider.handleGeneratePlan. run.
  cbn [SidebarProvider.codebaseContext SidebarProvider.currentRequest
       SidebarProvider.clarificationAnswers SidebarProvider.clarificationQuestions
       SidebarProvider.currentPlan].
  destruct (GenerationAdapter.generateClarificationQuestions svc _ _) as [ns r].
  rewrite await_run. cbn [this trace fst snd].
  destruct r as [qs|e]; run; rewrite <- !app_assoc; reflexivity.
Qed.

Lemma handleSubmitAnswer_run (svc : GenerationAdapter.t) (answer : string)
    (w : World SidebarProvider.t) :
  let p := this w in
  let context := SidebarProvider.codebaseContext p in
  let answers := SidebarProvider.clarificationAnswers p ++ [answer] in
  let o := GenerationAdapter.generatePlan svc (SidebarProvider.currentRequest p) answers
             context in
  SidebarProvider.handleSubmitAnswer svc answer w
  = (Ok (),
     {| this := {| SidebarProvider.codebaseContext := context;
                   SidebarProvider.currentRequest := SidebarProvider.currentRequest p;
                   SidebarProvider.clarificationQuestions :=
                     SidebarProvider.clarificationQuestions p;
                   SidebarProvider.clarificationAnswers := answers;
                   SidebarProvider.currentPlan :=
                     match snd o with
                     | Ok plan => plan
                     | Throw _ => SidebarProvider.currentPlan p
                     end |};
        trace := trace w
                 ++ [EvPost (showLoading "Generating contextual implementation plan...");
                     EvPlan (SidebarProvider.currentRequest p) answers context]
                 ++ map EvNotify (fst o)
                 ++ [EvPost match snd o with
                            | Ok plan => showPlan plan
                            | Throw error => showError ("Error: " +:+ SidebarProvider.errorText error)
                            end] |}).
Proof.
  destruct w as [p tr]. cbv zeta. cbn [this trace].
  unfold SidebarProvider.handleSubmitAnswer. run.
  cbn [SidebarProvider.codebaseContext SidebarProvider.currentRequest
       SidebarProvider.clarificationAnswers SidebarProvider.clarificationQuestions
       SidebarProvider.currentPlan].
  destruct (GenerationAdapter.generatePlan svc _ _ _) as [ns r].
  rewrite await_run. cbn [this trace fst snd].
  destruct r as [qs|e]; run; rewrite <- !app_assoc; reflexivity.
Qed.

Lemma handleExecuteToIDE_run (w : World SidebarProvider.t) :
  let p := this w in
  SidebarProvider.handleExecuteToIDE w
  = (Ok (),
     {| this := p;
        trace := trace w
                 ++ [EvPost (showLoading "Generating Copilot prompts...");
                     EvPost (showCopilotPrompts
                               (SidebarProvider.generateCopilotPrompts
                                  (SidebarProvider.currentPlan p)
                                  (SidebarProvider.codebaseContext p)))] |}).
Proof.
  destruct w as [p tr]. cbv zeta. cbn [this trace].
  unfold SidebarProvider.handleExecuteToIDE. run.
  rewrite <- !app_assoc. reflexivity.
Qed.

Lemma handleRestartWorkflow_run (w : World SidebarProvider.t) :
  SidebarProvider.handleRestartWorkflow w
  = (Ok (),
     {| this := {| SidebarProvider.codebaseContext :=
                     SidebarProvider.codebaseContext (this w);
                   SidebarProvider.currentRequest := "";
                   SidebarProvider.clarificationQuestions := [];
                   SidebarProvider.clarificationAnswers := [];
                   SidebarProvider.currentPlan := [] |};
        trace := trace w ++ [EvPost resetWorkflow] |}).
Proof.
  destruct w as [p tr]. unfold SidebarProvider.handleRestartWorkflow. run. reflexivity.
Qed.

Lemma onDidReceiveMessage_this (svc : GenerationAdapter.t) (data : SidebarProvider.Message)
    (w : World SidebarProvider.t) :
  ∃ w',
    SidebarProvider.onDidReceiveMessage svc data w = (Ok (), w')
    ∧ SidebarProvider.clarificationAnswers (this w')
      = answersAfter [data] (SidebarProvider.clarificationAnswers (this w))
    ∧ SidebarProvider.currentRequest (this w')
      = requestAfter [data] (SidebarProvider.currentRequest (this w))
    ∧ SidebarProvider.codebaseContext (this w') = SidebarProvider.codebaseContext (this w).
Proof.
  destruct data as [request|answer| | |]; cbn [SidebarProvider.onDidReceiveMessage].
  - eexists. split; [apply handleGeneratePlan_run|]. done.
  - eexists. split; [apply handleSubmitAnswer_run|]. done.
  - eexists. split; [apply handleExecuteToIDE_run|]. done.
  - eexists. split; [apply handleRestartWorkflow_run|]. done.
  - exists w. done.
Qed.

Lemma receiveAll_this (svc : GenerationAdapter.t) (messages : list SidebarProvider.Message)
    (w : World SidebarProvider.t) :
  ∃ w',
    receiveAll svc messages w = (Ok (), w')
    ∧ SidebarProvider.clarificationAnswers (this w')
      = answersAfter messages (SidebarProvider.clarificationAnswers (this w))
    ∧ SidebarProvider.currentRequest (this w')
      = requestAfter messages (SidebarProvider.currentRequest (this w))
    ∧ SidebarProvider.codebaseContext (this w') = SidebarProvider.codebaseContext (this w).
Proof.
  revert w. induction messages as [|data messages IH]; intros w; [by exists w|].
  destruct (onDidReceiveMessage_this svc data w) as (w1 & Hrun & Ha & Hr & Hc).
  destruct (IH w1) as (w' & Hrun' & Ha' & Hr' & Hc').
  exists w'. cbn [receiveAll]. unfold mbind, M_bind. rewrite Hrun.
  split; [exact Hrun'|]. rewrite Ha', Hr', Hc', Ha, Hr, Hc.
  by destruct data.
Qed.

(** ** Reading a trace *)

Lemma writes_app (l1 l2 : list Event) : writes (l1 ++ l2) = writes l1 ++ writes l2.
Proof. apply omap_app. Qed.

Lemma applied_app (l1 l2 : list Event) : applied (l1 ++ l2) = applied l1 ++ applied l2.
Proof. apply omap_app. Qed.

Lemma generationCalls_app (l1 l2 : list Event) :
  generationCalls (l1 ++ l2) = generationCalls l1 ++ generationCalls l2.
Proof. apply List.filter_app. Qed.

Lemma analyses_app (l1 l2 : list Event) : analyses (l1 ++ l2) = analyses l1 ++ analyses l2.
Proof. apply List.filter_app. Qed.

(** Notifications are neither writes, nor applications, nor calls. *)
Lemma notifications_silent (ns : list Notification) :
  writes (map EvNotify ns) = []
  ∧ applied (map EvNotify ns) = []
  ∧ generationCalls (map EvNotify ns) = []
  ∧ analyses (map EvNotify ns) = [].
Proof. induction ns as [|n ns IH]; [done|]. simpl. exact IH. Qed.

Lemma during_unchanged {S A} (m : M S A) (w : World S) (r : Result A) :
  m w = (r, w) -> during m w = [].
Proof. unfold during, exec. intros ->. simpl. apply drop_all. Qed.

Ltac read_trace :=
  rewrite ?writes_app, ?applied_app, ?generationCalls_app, ?analyses_app;
  rewrite ?(proj1 (notifications_silent _)),
          ?(proj1 (proj2 (notifications_silent _))),
          ?(proj1 (proj2 (proj2 (notifications_silent _)))),
          ?(proj2 (proj2 (proj2 (notifications_silent _)))).

(** ** C2 *)

(** What a start whose generation step fails leaves behind. *)
Lemma failed_start (svc : GenerationAdapter.t) (v : string) (w : World PlannerProvider.t) :
  let s := PlannerProvider.workflowState (this w) in
  let m := PlannerProvider.generatePlan svc (Some v) in
  let reverted := PlannerProvider.set_phase idle (startInProgress v s) in
  phase s = idle ->
  PlannerProvider.validateRequest v = None ->
  failed (GenerationAdapter.generateClarificationQuestions svc v None) ->
  returned m w = Ok ()
  ∧ writes (during m w) = [startInProgress v s; reverted]
  ∧ PlannerProvider.workflowState (this (exec m w)) = reverted
  ∧ PlannerProvider.workspaceState (this (exec m w)) !! PlannerProvider.WORKFLOW_STATE_KEY
    = Some reverted.
Proof.
  intros s m reverted Hidle Hvalid Hfail.
  pose proof (generatePlan_run svc v w Hidle Hvalid) as Hrun. cbv beta zeta in Hrun.
  unfold failed in Hfail. unfold returned, exec, m.
  assert (∀ tr' e,
    PlannerProvider.generatePlan svc (Some v) w
    = (Ok (),
       {| this := {| PlannerProvider.workflowState := reverted;
                     PlannerProvider.workspaceState :=
                       <[PlannerProvider.WORKFLOW_STATE_KEY := reverted]>
                         (<[PlannerProvider.WORKFLOW_STATE_KEY := startInProgress v s]>
                            (PlannerProvider.workspaceState (this w))) |};
          trace := (trace w
                    ++ [EvUpdate PlannerProvider.WORKFLOW_STATE_KEY (startInProgress v s);
                        EvFire; EvNotify (Information tr');
                        EvClarification v None]
                    ++ map EvNotify
                         (fst (GenerationAdapter.generateClarificationQuestions svc v None)))
                   ++ [EvNotify (Error e);
                       EvUpdate PlannerProvider.WORKFLOW_STATE_KEY reverted; EvFire] |}) ->
    fst (PlannerProvider.generatePlan svc (Some v) w) = Ok ()
    ∧ writes (during (PlannerProvider.generatePlan svc (Some v)) w)
      = [startInProgress v s; reverted]
    ∧ PlannerProvider.workflowState (this (snd (PlannerProvider.generatePlan svc (Some v) w)))
      = reverted
    ∧ PlannerProvider.workspaceState (this (snd (PlannerProvider.generatePlan svc (Some v) w)))
        !! PlannerProvider.WORKFLOW_STATE_KEY = Some reverted) as Hall.
  { intros tr' e Heq. split; [by rewrite Heq|]. split; [|split].
    - erewrite during_eq; [|unfold exec; rewrite Heq; cbn [snd trace];
                            rewrite <- !app_assoc; reflexivity].
      read_trace. reflexivity.
    - by rewrite Heq.
    - rewrite Heq. cbn [snd this PlannerProvider.workspaceState]. apply lookup_insert_eq. }
  destruct (snd (GenerationAdapter.generateClarificationQuestions svc v None))
    as [[|q qs]|e]; [| done |]; eapply Hall; exact Hrun.
Qed.

(** What a submit whose generation step fails leaves behind. *)
Lemma failed_submit (svc : GenerationAdapter.t) (w : World PlannerProvider.t) :
  let s := PlannerProvider.workflowState (this w) in
  let m := PlannerProvider.submitClarification svc in
  phase s = clarification ->
  length (clarificationAnswers s) = length (clarificationQuestions s) ->
  failed (GenerationAdapter.generatePlan svc (userRequest s) (clarificationAnswers s) None) ->
  returned m w = Ok ()
  ∧ writes (during m w) = [PlannerProvider.set_phase planning s; s]
  ∧ PlannerProvider.workflowState (this (exec m w)) = s
  ∧ PlannerProvider.workspaceState (this (exec m w)) !! PlannerProvider.WORKFLOW_STATE_KEY
    = Some s.
Proof.
  intros s m Hp Hlen Hfail.
  pose proof (submitClarification_run svc w Hp Hlen) as Hrun. cbv beta zeta in Hrun.
  fold s in Hrun.
  unfold failed in Hfail. unfold returned, exec, m.
  assert (∀ tr' e,
    PlannerProvider.submitClarification svc w
    = (Ok (),
       {| this := {| PlannerProvider.workflowState := s;
                     PlannerProvider.workspaceState :=
                       <[PlannerProvider.WORKFLOW_STATE_KEY := s]>
                         (<[PlannerProvider.WORKFLOW_STATE_KEY :=
                              PlannerProvider.set_phase planning s]>
                            (PlannerProvider.workspaceState (this w))) |};
          trace := (trace w
                    ++ [EvUpdate PlannerProvider.WORKFLOW_STATE_KEY
                          (PlannerProvider.set_phase planning s);
                        EvFire; EvNotify (Information tr');
                        EvPlan (userRequest s) (clarificationAnswers s) None]
                    ++ map EvNotify
                         (fst (GenerationAdapter.generatePlan svc (userRequest s)
                                 (clarificationAnswers s) None)))
                   ++ [EvNotify (Error e);
                       EvUpdate PlannerProvider.WORKFLOW_STATE_KEY s; EvFire] |}) ->
    fst (PlannerProvider.submitClarification svc w) = Ok ()
    ∧ writes (during (PlannerProvider.submitClarification svc) w)
      = [PlannerProvider.set_phase planning s; s]
    ∧ PlannerProvider.workflowState (this (snd (PlannerProvider.submitClarification svc w)))
      = s
    ∧ PlannerProvider.workspaceState (this (snd (PlannerProvider.submitClarification svc w)))
        !! PlannerProvider.WORKFLOW_STATE_KEY = Some s) as Hall.
  { intros tr' e Heq. split; [by rewrite Heq|]. split; [|split].
    - erewrite during_eq; [|unfold exec; rewrite Heq; cbn [snd trace];
                            rewrite <- !app_assoc; reflexivity].
      read_trace. reflexivity.
    - by rewrite Heq.
    - rewrite Heq. cbn [snd this PlannerProvider.workspaceState]. apply lookup_insert_eq. }
  destruct (snd (GenerationAdapter.generatePlan svc (userRequest s)
                   (clarificationAnswers s) None))
    as [[|q qs]|e]; [| done |]; eapply Hall; exact Hrun.
Qed.

(** C2, as the code has it. When the generation step of a start or of a
    submit fails (the adapter throws or returns nothing), the state is
    written to the storage twice: first the state in progress (for a
    start the new request with phase [clarification] and no questions or
    answers, for a submit the state with phase [planning]), then the state
    with the phase put back (to [idle] for a start, to [clarification] for
    a submit). The state written last is the state of the provider; for a
    submit it is the state from before the call. *)
Theorem failed_generation_restores_the_phase (svc : GenerationAdapter.t) (v : string)
    (w : World PlannerProvider.t) :
  let s := PlannerProvider.workflowState (this w) in
  let K := PlannerProvider.WORKFLOW_STATE_KEY in
  (phase s = idle ->
   PlannerProvider.validateRequest v = None ->
   failed (GenerationAdapter.generateClarificationQuestions svc v None) ->
   let m := PlannerProvider.generatePlan svc (Some v) in
   let reverted := PlannerProvider.set_phase idle (startInProgress v s) in
   returned m w = Ok ()
   ∧ writes (during m w) = [startInProgress v s; reverted]
   ∧ PlannerProvider.workflowState (this (exec m w)) = reverted
   ∧ PlannerProvider.workspaceState (this (exec m w)) !! K = Some reverted
   ∧ phase reverted = phase s)
  ∧ (phase s = clarification ->
     length (clarificationAnswers s) = length (clarificationQuestions s) ->
     failed (GenerationAdapter.generatePlan svc (userRequest s) (clarificationAnswers s) None) ->
     let m := PlannerProvider.submitClarification svc in
     returned m w = Ok ()
     ∧ writes (during m w) = [PlannerProvider.set_phase planning s; s]
     ∧ PlannerProvider.workflowState (this (exec m w)) = s
     ∧ PlannerProvider.workspaceState (this (exec m w)) !! K = Some s).
Proof.
  intros s K. split.
  - intros Hidle Hvalid Hfail m reverted.
    destruct (failed_start svc v w Hidle Hvalid Hfail) as (Hr & Hw & Hs & Hst).
    repeat split; first [done | by rewrite Hidle].
  - intros Hp Hlen Hfail m. by apply failed_submit.
Qed.

(** A start on a new provider, and a submit after the three answers of the
    end-to-end scenario, with an adapter that throws. *)
Lemma failed_generation_restores_the_phase_witness :
  phase (PlannerProvider.workflowState
           (this (exec (PlannerProvider.generatePlan Examples.failingAdapter
                          (Some Examples.request)) Examples.fresh))) = idle
  ∧ PlannerProvider.workflowState
      (this (exec (PlannerProvider.submitClarification Examples.failingAdapter)
               Examples.answered))
    = PlannerProvider.workflowState (this Examples.answered).
Proof.
  split.
  - pose proof (failed_generation_restores_the_phase Examples.failingAdapter
                  Examples.request Examples.fresh) as H.
    cbv zeta in H. destruct H as [H _].
    destruct H as (_ & _ & Hs & _); [reflexivity|reflexivity|exact I|].
    rewrite Hs. reflexivity.
  - pose proof (failed_generation_restores_the_phase Examples.failingAdapter
                  Examples.request Examples.answered) as H.
    cbv zeta in H. destruct H as [_ H].
    destruct H as (_ & _ & Hs & _);
      [vm_compute; reflexivity|vm_compute; reflexivity|exact I|].
    exact Hs.
Defined.

(** C2, as stated, fails. A start on a new provider with an adapter that
    throws writes two states, and neither is the state of the last good
    phase (the empty state): the first has phase [clarification], the
    second keeps the request. A submit with that adapter writes a state
    with phase [planning] first. *)
Lemma failed_generation_writes_states_in_progress :
  let start := PlannerProvider.generatePlan Examples.failingAdapter (Some Examples.request) in
  let submit := PlannerProvider.submitClarification Examples.failingAdapter in
  failed (GenerationAdapter.generateClarificationQuestions Examples.failingAdapter
            Examples.request None)
  ∧ PlannerProvider.workflowState (this Examples.fresh) = PlannerProvider.emptyState
  ∧ writes (during start Examples.fresh)
    = [ {| phase := clarification; userRequest := Examples.request;
           clarificationQuestions := []; clarificationAnswers := []; plan := [] |};
        {| phase := idle; userRequest := Examples.request;
           clarificationQuestions := []; clarificationAnswers := []; plan := [] |} ]
  ∧ ¬ Forall (fun written => written = PlannerProvider.workflowState (this Examples.fresh))
        (writes (during start Examples.fresh))
  ∧ map phase (writes (during submit Examples.answered)) = [planning; clarification]
  ∧ ¬ Forall (fun written => written = PlannerProvider.workflowState (this Examples.answered))
        (writes (during submit Examples.answered)).
Proof.
  cbv zeta.
  assert (writes (during (PlannerProvider.generatePlan Examples.failingAdapter
                            (Some Examples.request)) Examples.fresh)
          = [ {| phase := clarification; userRequest := Examples.request;
                 clarificationQuestions := []; clarificationAnswers := []; plan := [] |};
              {| phase := idle; userRequest := Examples.request;
                 clarificationQuestions := []; clarificationAnswers := []; plan := [] |} ])
    as Hstart by (vm_compute; reflexivity).
  assert (map phase (writes (during (PlannerProvider.submitClarification
                                       Examples.failingAdapter) Examples.answered))
          = [planning; clarification]) as Hsubmit by (vm_compute; reflexivity).
  split; [exact I|]. split; [reflexivity|]. split; [exact Hstart|].
  split; [|split; [exact Hsubmit|]].
  - rewrite Hstart. intros H. apply Forall_cons in H as [H _]. discriminate H.
  - intros H.
    assert (Forall (fun p => p = clarification)
              (map phase (writes (during (PlannerProvider.submitClarification
                                            Examples.failingAdapter) Examples.answered))))
      as Hp.
    { apply Forall_map. eapply Forall_impl; [exact H|]. intros x ->. reflexivity. }
    rewrite Hsubmit in Hp. apply Forall_cons in Hp as [Hp _]. discriminate Hp.
Qed.

(** ** The calls of a start and of a submission *)


(** The calls a submit makes. *)
Lemma submitClarification_calls (svc : GenerationAdapter.t) (w : World PlannerProvider.t) :
  let s := PlannerProvider.workflowState (this w) in
  let d := during (PlannerProvider.submitClarification svc) w in
  analyses d = []
  ∧ generationCalls d
    = (if bool_decide (phase s = clarification
                       ∧ length (clarificationAnswers s) = length (clarificationQuestions s))
       then [EvPlan (userRequest s) (clarificationAnswers s) None]
       else []).
Proof.
  intros s d. subst d.
  destruct (decide (phase s = clarification)) as [Hp|Hp].
  2: { rewrite bool_decide_eq_false_2 by tauto.
       erewrite during_unchanged; [done|]. by apply submitClarification_ignored. }
  destruct (decide (length (clarificationAnswers s) = length (clarificationQuestions s)))
    as [Hlen|Hlen].
  2: { rewrite bool_decide_eq_false_2 by tauto.
       erewrite during_eq;
         [|unfold exec; rewrite (submitClarification_partial svc w Hp Hlen); reflexivity].
       done. }
  rewrite bool_decide_eq_true_2 by done.
  pose proof (submitClarification_run svc w Hp Hlen) as Hrun. cbv beta zeta in Hrun.
  fold s in Hrun.
  destruct (snd (GenerationAdapter.generatePlan svc (userRequest s)
                   (clarificationAnswers s) None))
    as [[|q qs]|e];
    (erewrite during_eq; [|unfold exec; rewrite Hrun; cbn [snd trace];
                           rewrite <- !app_assoc; reflexivity]);
    read_trace; done.
Qed.

(** ** C4 *)

(** C4. When a plan of N items is executed (the phase is [ready], the plan
    is not empty, the user confirms) and the application of exactly one
    item fails, every item of the plan is still handed to the file
    manipulator, in the order of the plan; the report says that N-1 of N
    changes were applied; and the workflow state is reset: the state of the
    provider and the stored state are the empty state, whose phase is
    [idle]. *)
Theorem execute_with_one_failure (fm : FileManipulator.t) (w : World PlannerProvider.t) :
  let s := PlannerProvider.workflowState (this w) in
  let N := length (plan s) in
  let m := PlannerProvider.executeToIDE fm (Some "Yes, Execute Plan") in
  phase s = ready ->
  plan s ≠ [] ->
  length (failures fm (plan s)) = 1%nat ->
  returned m w = Ok ()
  ∧ applied (during m w) = plan s
  ∧ EvNotify (Information ("Execution completed! Successfully applied "
                           +:+ JS.ofNat (N - 1) +:+ "/" +:+ JS.ofNat N +:+ " file changes."))
    ∈ during m w
  ∧ PlannerProvider.workflowState (this (exec m w)) = PlannerProvider.emptyState
  ∧ phase (PlannerProvider.workflowState (this (exec m w))) = idle
  ∧ PlannerProvider.workspaceState (this (exec m w)) !! PlannerProvider.WORKFLOW_STATE_KEY
    = Some PlannerProvider.emptyState
  ∧ writes (during m w) = [PlannerProvider.emptyState].
Proof.
  intros s N m Hready Hne Hone. subst m.
  destruct (executeToIDE_run fm w Hready Hne) as (evs & Hrun & Happ & Hw & Hg & Ha).
  cbv zeta in Hrun. fold s in Hrun, Happ. rewrite Hone in Hrun. fold N in Hrun.
  unfold returned, exec.
  assert (during (PlannerProvider.executeToIDE fm (Some "Yes, Execute Plan")) w
          = [EvNotify (Warning ("Are you sure you want to execute " +:+ JS.ofNat N
                                +:+ " file changes to your workspace?"));
             EvNotify (Information "⚡ Executing implementation plan...")]
            ++ evs
            ++ [EvNotify (Information
                  ("Execution completed! Successfully applied "
                   +:+ JS.ofNat (N - 1) +:+ "/" +:+ JS.ofNat N +:+ " file changes."));
                EvUpdate PlannerProvider.WORKFLOW_STATE_KEY PlannerProvider.emptyState;
                EvFire]) as Hd.
  { apply during_eq. unfold exec. rewrite Hrun. reflexivity. }
  rewrite Hd, Hrun. cbn [fst snd this PlannerProvider.workflowState
                          PlannerProvider.workspaceState].
  split; [done|]. split; [|split; [|split; [|split; [|split]]]].
  - rewrite !applied_app, Happ. cbn. by rewrite app_nil_r.
  - rewrite !elem_of_app. right. right. apply list_elem_of_here.
  - done.
  - done.
  - apply lookup_insert_eq.
  - rewrite !writes_app, Hw. reflexivity.
Qed.

(** The plan of the end-to-end scenario (six items) with a file manipulator
    that fails on the second one: the six items are applied in order, the
    report says 5/6, and the phase is [idle] afterwards. *)
Lemma execute_with_one_failure_witness :
  let m := PlannerProvider.executeToIDE Examples.secondFails (Some "Yes, Execute Plan") in
  applied (during m Examples.planned) = Spec.authPlan
  ∧ EvNotify (Information "Execution completed! Successfully applied 5/6 file changes.")
    ∈ during m Examples.planned
  ∧ phase (PlannerProvider.workflowState (this (exec m Examples.planned))) = idle.
Proof.
  cbv zeta.
  pose proof (execute_with_one_failure Examples.secondFails Examples.planned) as H.
  cbv zeta in H.
  destruct H as (_ & Happ & Hreport & _ & Hidle & _).
  - vm_compute. reflexivity.
  - vm_compute. discriminate.
  - vm_compute. reflexivity.
  - split; [|split].
    + etrans; [exact Happ|]. vm_compute. reflexivity.
    + assert (plan (PlannerProvider.workflowState (this Examples.planned)) = Spec.authPlan)
        as Hplan by (vm_compute; reflexivity).
      rewrite Hplan in Hreport. exact Hreport.
    + exact Hidle.
Defined.

(** ** The workspace analyzer *)

Lemma storedFrom_mono (found found' : list CodebaseAnalyzer.Uri) (f : CodebaseAnalyzer.FileInfo) :
  found ⊆ found' -> storedFrom found f -> storedFrom found' f.
Proof. intros Hsub (Hsz & uri & Hin & H). split; [done|]. exists uri. split; [auto|done]. Qed.

Lemma scanFound_full `{R : Runtime} (files : list CodebaseAnalyzer.FileInfo)
    (foundFiles : list CodebaseAnalyzer.Uri) :
  (CodebaseAnalyzer.maxTotalFiles ≤ length files)%nat ->
  CodebaseAnalyzer.scanFound files foundFiles = files.
Proof.
  intros Hfull. destruct foundFiles as [|file rest]; [done|].
  cbn [CodebaseAnalyzer.scanFound].
  apply Nat.leb_le in Hfull. by rewrite Hfull.
Qed.

Lemma scanFound_spec `{R : Runtime} (files : list CodebaseAnalyzer.FileInfo)
    (foundFiles : list CodebaseAnalyzer.Uri) :
  ∃ new,
    CodebaseAnalyzer.scanFound files foundFiles = files ++ new
    ∧ Forall (storedFrom foundFiles) new
    ∧ ((length files ≤ CodebaseAnalyzer.maxTotalFiles)%nat ->
       (length (files ++ new) ≤ CodebaseAnalyzer.maxTotalFiles)%nat).
Proof.
  revert files. induction foundFiles as [|file rest IH]; intros files.
  { exists []. simpl. rewrite app_nil_r. by repeat split. }
  assert (∀ new, Forall (storedFrom rest) new -> Forall (storedFrom (file :: rest)) new)
    as Hweaken.
  { intros new Hnew. eapply Forall_impl; [exact Hnew|].
    intros f. apply storedFrom_mono. set_solver. }
  cbn [CodebaseAnalyzer.scanFound].
  destruct (CodebaseAnalyzer.maxTotalFiles <=? length files)%nat eqn:Hcap.
  { exists []. rewrite app_nil_r. by repeat split. }
  apply Nat.leb_gt in Hcap.
  destruct (CodebaseAnalyzer.stat file) as [sz|] eqn:Hstat.
  2: { destruct (IH files) as (new & Heq & Hall & Hlen). exists new. auto. }
  destruct (CodebaseAnalyzer.maxFileSize <? sz)%N eqn:Hbig.
  { destruct (IH files) as (new & Heq & Hall & Hlen). exists new. auto. }
  apply N.ltb_ge in Hbig.
  destruct (CodebaseAnalyzer.readFile file) as [textContent|] eqn:Hread.
  2: { destruct (IH files) as (new & Heq & Hall & Hlen). exists new. auto. }
  match goal with
  | |- context [CodebaseAnalyzer.scanFound (files ++ [?f]) rest] =>
      destruct (IH (files ++ [f])) as (new & Heq & Hall & Hlen); exists (f :: new)
  end.
  split; [by rewrite Heq, <- app_assoc|]. split.
  - constructor; [|by apply Hweaken].
    split; [done|]. exists file. split; [set_solver|]. by repeat split.
  - intros _. rewrite <- app_assoc in Hlen. apply Hlen.
    rewrite length_app. simpl. lia.
Qed.

Lemma scanPatterns_full `{R : Runtime} (ws : CodebaseAnalyzer.Workspace)
    (files : list CodebaseAnalyzer.FileInfo) (patterns : list string) :
  (CodebaseAnalyzer.maxTotalFiles ≤ length files)%nat ->
  CodebaseAnalyzer.scanPatterns ws files patterns = files.
Proof.
  intros Hfull. induction patterns as [|pattern rest IH]; [done|].
  cbn [CodebaseAnalyzer.scanPatterns].
  destruct (CodebaseAnalyzer.findFiles ws pattern _ _); [|done].
  by rewrite scanFound_full.
Qed.

Lemma scanPatterns_spec `{R : Runtime} (ws : CodebaseAnalyzer.Workspace)
    (files : list CodebaseAnalyzer.FileInfo) (patterns : list string) :
  ∃ new,
    CodebaseAnalyzer.scanPatterns ws files patterns = files ++ new
    ∧ Forall (storedFor ws patterns) new
    ∧ ((length files ≤ CodebaseAnalyzer.maxTotalFiles)%nat ->
       (length (files ++ new) ≤ CodebaseAnalyzer.maxTotalFiles)%nat).
Proof.
  revert files. induction patterns as [|pattern rest IH]; intros files.
  { exists []. simpl. rewrite app_nil_r. by repeat split. }
  assert (∀ new, Forall (storedFor ws rest) new -> Forall (storedFor ws (pattern :: rest)) new)
    as Hweaken.
  { intros new Hnew. eapply Forall_impl; [exact Hnew|].
    intros f (p & found & Hin & Hf).
    exists p, found. split; [by apply list_elem_of_further|done]. }
  cbn [CodebaseAnalyzer.scanPatterns].
  destruct (CodebaseAnalyzer.findFiles ws pattern _ _) as [foundFiles|] eqn:Hfind.
  2: { destruct (IH files) as (new & Heq & Hall & Hlen). exists new. auto. }
  destruct (scanFound_spec files foundFiles) as (new1 & Heq1 & Hall1 & Hlen1).
  rewrite Heq1.
  destruct (IH (files ++ new1)) as (new2 & Heq2 & Hall2 & Hlen2).
  exists (new1 ++ new2). split; [by rewrite Heq2, <- app_assoc|]. split.
  - apply Forall_app. split; [|by apply Hweaken].
    eapply Forall_impl; [exact Hall1|]. intros f Hf.
    exists pattern, foundFiles. split; [set_solver|done].
  - intros Hle. rewrite app_assoc. auto.
Qed.

(** ** C9 *)

(** C9. The context [analyzeWorkspace] returns holds at most
    [maxTotalFiles] (20) key files, each of a size of at most [maxFileSize]
    (50000); each is a whole file that [findFiles] returned for one of the
    patterns, with the size [stat] reported and all the content [readFile]
    returned. A file larger than the limit is passed over without leaving
    anything behind, and once 20 files are gathered neither the files
    found for a pattern nor the remaining patterns add any. *)
Theorem key_files_within_limits `{R : Runtime} (ws : CodebaseAnalyzer.Workspace)
    (context : CodebaseContext) :
  CodebaseAnalyzer.analyzeWorkspace ws = Ok context ->
  let keyFiles := CodebaseAnalyzer.keyFiles context in
  (length keyFiles ≤ CodebaseAnalyzer.maxTotalFiles)%nat
  ∧ Forall (fun f => (CodebaseAnalyzer.size f ≤ CodebaseAnalyzer.maxFileSize)%N) keyFiles
  ∧ Forall (storedFor ws CodebaseAnalyzer.keyFilePatterns) keyFiles
  ∧ (∀ files file rest sz,
       CodebaseAnalyzer.stat file = Some sz ->
       (CodebaseAnalyzer.maxFileSize < sz)%N ->
       CodebaseAnalyzer.scanFound files (file :: rest) = CodebaseAnalyzer.scanFound files rest)
  ∧ (∀ files foundFiles,
       (CodebaseAnalyzer.maxTotalFiles ≤ length files)%nat ->
       CodebaseAnalyzer.scanFound files foundFiles = files)
  ∧ (∀ files patterns,
       (CodebaseAnalyzer.maxTotalFiles ≤ length files)%nat ->
       CodebaseAnalyzer.scanPatterns ws files patterns = files).
Proof.
  intros Hok keyFiles.
  assert (∃ rootPath, keyFiles = CodebaseAnalyzer.findKeyFiles ws rootPath) as [rootPath Hkey].
  { unfold CodebaseAnalyzer.analyzeWorkspace in Hok.
    destruct (CodebaseAnalyzer.workspaceFolders ws) as [[|rootPath folders]|]; try done.
    injection Hok as <-. by exists rootPath. }
  destruct (scanPatterns_spec ws [] CodebaseAnalyzer.keyFilePatterns)
    as (new & Heq & Hall & Hlen).
  unfold CodebaseAnalyzer.findKeyFiles, JS.slice0 in Hkey. rewrite Heq in Hkey.
  cbn [app] in Hkey, Hlen.
  split; [|split; [|split; [|split; [|split]]]].
  - rewrite Hkey, length_take. lia.
  - rewrite Hkey. apply Forall_take. eapply Forall_impl; [exact Hall|].
    by intros f (pattern & foundFiles & _ & _ & Hsz & _).
  - rewrite Hkey. by apply Forall_take.
  - intros files file rest sz Hstat Hbig.
    cbn [CodebaseAnalyzer.scanFound].
    destruct (CodebaseAnalyzer.maxTotalFiles <=? length files)%nat eqn:Hcap.
    + apply Nat.leb_le in Hcap. by rewrite scanFound_full.
    + rewrite Hstat. apply N.ltb_lt in Hbig. by rewrite Hbig.
  - intros files foundFiles. apply scanFound_full.
  - intros files patterns. apply scanPatterns_full.
Qed.

(** A workspace where [findFiles] returns a [package.json] of 50001 bytes
    and one of 120 bytes: the first is passed over, the second is the only
    key file. *)
Lemma key_files_within_limits_witness :
  ∃ context,
    @CodebaseAnalyzer.analyzeWorkspace Examples.runtime Examples.workspace = Ok context
    ∧ map CodebaseAnalyzer.path (CodebaseAnalyzer.keyFiles context) = ["package.json"]
    ∧ (length (CodebaseAnalyzer.keyFiles context) ≤ CodebaseAnalyzer.maxTotalFiles)%nat
    ∧ Forall (fun f => (CodebaseAnalyzer.size f ≤ CodebaseAnalyzer.maxFileSize)%N)
        (CodebaseAnalyzer.keyFiles context).
Proof.
  eexists. split; [vm_compute; reflexivity|]. split; [reflexivity|].
  match goal with
  | |- (length (CodebaseAnalyzer.keyFiles ?c) ≤ _)%nat ∧ _ =>
      pose proof (@key_files_within_limits Examples.runtime Examples.workspace c) as H
  end.
  cbv zeta in H. destruct H as (Hlen & Hsz & _); [vm_compute; reflexivity|].
  split; [exact Hlen|exact Hsz].
Defined.

(** ** The bound on the answers throughout a session *)

(** A start that is cut short leaves the state it stored before its call. *)
Lemma closedDuringStart_run (svc : GenerationAdapter.t) (typed : option string)
    (w : World PlannerProvider.t) :
  let s := PlannerProvider.workflowState (this w) in
  let st := PlannerProvider.workspaceState (this w) in
  closedDuring (PlannerProvider.generatePlan svc typed) w
  = PlannerProvider.constructor
      (if bool_decide (phase s = idle)
       then match acceptedRequest typed with
            | Some v => <[PlannerProvider.WORKFLOW_STATE_KEY := startInProgress v s]> st
            | None => st
            end
       else st).
Proof.
  intros s st. unfold closedDuring.
  destruct (decide (phase s = idle)) as [Hidle|Hidle].
  2: { rewrite bool_decide_eq_false_2 by done.
       rewrite (during_unchanged _ w (Ok ())) by (apply generatePlan_ignored; by left).
       unfold exec. rewrite generatePlan_ignored by (by left). done. }
  rewrite bool_decide_eq_true_2 by done.
  destruct (acceptedRequest typed) as [v|] eqn:Hacc.
  2: { rewrite (during_unchanged _ w (Ok ())) by (apply generatePlan_ignored; by right).
       unfold exec. rewrite generatePlan_ignored by (by right). done. }
  assert (typed = Some v ∧ PlannerProvider.validateRequest v = None) as [-> Hvalid].
  { unfold acceptedRequest in Hacc. destruct typed as [v'|]; [|done].
    destruct (PlannerProvider.validateRequest v') eqn:Hv; [done|].
    by injection Hacc as ->. }
  pose proof (generatePlan_run svc v w Hidle Hvalid) as Hrun. cbv beta zeta in Hrun.
  f_equal.
  destruct (snd (GenerationAdapter.generateClarificationQuestions svc v None))
    as [[|q qs]|e];
    (erewrite during_eq; [|unfold exec; rewrite Hrun; cbn [snd trace];
                           rewrite <- !app_assoc; reflexivity]);
    reflexivity.
Qed.

(** A submission that is cut short leaves the state in the planning
    phase. *)
Lemma closedDuringSubmit_run (svc : GenerationAdapter.t) (w : World PlannerProvider.t) :
  let s := PlannerProvider.workflowState (this w) in
  let st := PlannerProvider.workspaceState (this w) in
  closedDuring (PlannerProvider.submitClarification svc) w
  = PlannerProvider.constructor
      (if bool_decide (phase s = clarification
                       ∧ length (clarificationAnswers s) = length (clarificationQuestions s))
       then <[PlannerProvider.WORKFLOW_STATE_KEY := PlannerProvider.set_phase planning s]> st
       else st).
Proof.
  intros s st. unfold closedDuring.
  destruct (decide (phase s = clarification)) as [Hp|Hp].
  2: { rewrite bool_decide_eq_false_2 by tauto.
       rewrite (during_unchanged _ w (Ok ())) by (by apply submitClarification_ignored).
       unfold exec. by rewrite submitClarification_ignored. }
  destruct (decide (length (clarificationAnswers s) = length (clarificationQuestions s)))
    as [Hlen|Hlen].
  2: { rewrite bool_decide_eq_false_2 by tauto.
       erewrite during_eq;
         [|unfold exec; rewrite (submitClarification_partial svc w Hp Hlen); reflexivity].
       unfold exec. by rewrite (submitClarification_partial svc w Hp Hlen). }
  rewrite bool_decide_eq_true_2 by done.
  pose proof (submitClarification_run svc w Hp Hlen) as Hrun. cbv beta zeta in Hrun.
  fold s in Hrun. f_equal.
  destruct (snd (GenerationAdapter.generatePlan svc (userRequest s)
                   (clarificationAnswers s) None))
    as [[|i rest]|e];
    (erewrite during_eq; [|unfold exec; rewrite Hrun; cbn [snd trace];
                           rewrite <- !app_assoc; reflexivity]);
    reflexivity.
Qed.

Lemma savedAs_consistent s p : bounded s -> savedAs s p -> consistent p.
Proof. intros Hb [Hs Hst]. split; [by rewrite Hs|]. intros s' Hs'. congruence. Qed.

Lemma generatePlan_this (svc : GenerationAdapter.t) (typed : option string)
    (w : World PlannerProvider.t) :
  let p' := this (exec (PlannerProvider.generatePlan svc typed) w) in
  p' = this w ∨ ∃ s, savedAs s p' ∧ clarificationAnswers s = [].
Proof.
  intros p'. subst p'.
  destruct (decide (phase (PlannerProvider.workflowState (this w)) = idle)) as [Hidle|Hidle].
  2: { left. unfold exec. rewrite generatePlan_ignored; [done|by left]. }
  destruct (acceptedRequest typed) as [v|] eqn:Hacc.
  2: { left. unfold exec. rewrite generatePlan_ignored; [done|by right]. }
  assert (typed = Some v ∧ PlannerProvider.validateRequest v = None) as [-> Hvalid].
  { unfold acceptedRequest in Hacc. destruct typed as [v'|]; [|done].
    destruct (PlannerProvider.validateRequest v') eqn:Hv; [done|].
    by injection Hacc as ->. }
  right.
  pose proof (generatePlan_run svc v w Hidle Hvalid) as Hrun. cbv beta zeta in Hrun.
  unfold exec. rewrite Hrun.
  destruct (snd (GenerationAdapter.generateClarificationQuestions svc v None))
    as [[|q qs]|e]; cbn [snd this]; eexists; (split; [split; [reflexivity|]|]);
    cbn [PlannerProvider.workspaceState]; try apply lookup_insert_eq; done.
Qed.

Lemma answerNextQuestion_this (typed : option string) (w : World PlannerProvider.t) :
  let s := PlannerProvider.workflowState (this w) in
  let p' := this (exec (PlannerProvider.answerNextQuestion typed) w) in
  p' = this w
  ∨ ∃ a, (length (clarificationAnswers s) < length (clarificationQuestions s))%nat
         ∧ savedAs (PlannerProvider.set_clarificationAnswers (clarificationAnswers s ++ [a]) s) p'.
Proof.
  destruct w as [[s st] tr]. cbv zeta.
  destruct (answerNextQuestion_cases typed
              {| this := {| PlannerProvider.workflowState := s;
                            PlannerProvider.workspaceState := st |}; trace := tr |})
    as [[Hnoop _]|(a & Hacc & Hp & Hlt & _ & Hst)].
  { left. unfold exec. by rewrite Hnoop. }
  cbn [this PlannerProvider.workflowState] in Hp, Hlt, Hst |- *.
  right. exists a. split; [done|]. split; [exact Hst|].
  clear Hst.
  unfold exec, PlannerProvider.answerNextQuestion. run.
  rewrite Hp. simpl. apply Nat.leb_gt in Hlt. rewrite Hlt.
  unfold acceptedAnswer in Hacc. destruct typed as [v|]; [|done].
  destruct (PlannerProvider.validateAnswer v) eqn:Hv; [done|].
  injection Hacc as <-.
  rewrite (validateAnswer_accepts v Hv). run.
  destruct (0 <? _)%nat; cbn [snd this PlannerProvider.workspaceState];
    apply lookup_insert_eq.
Qed.

Lemma submitClarification_this (svc : GenerationAdapter.t) (w : World PlannerProvider.t) :
  let s := PlannerProvider.workflowState (this w) in
  let p' := this (exec (PlannerProvider.submitClarification svc) w) in
  p' = this w
  ∨ ∃ s', savedAs s' p'
          ∧ clarificationQuestions s' = clarificationQuestions s
          ∧ clarificationAnswers s' = clarificationAnswers s.
Proof.
  intros s p'. subst p'.
  destruct (decide (phase s = clarification)) as [Hp|Hp].
  2: { left. unfold exec. by rewrite submitClarification_ignored. }
  destruct (decide (length (clarificationAnswers s) = length (clarificationQuestions s)))
    as [Hlen|Hlen].
  2: { left. unfold exec. by rewrite (submitClarification_partial svc w Hp Hlen). }
  right.
  pose proof (submitClarification_run svc w Hp Hlen) as Hrun. cbv beta zeta in Hrun.
  fold s in Hrun. unfold exec. rewrite Hrun.
  destruct (snd (GenerationAdapter.generatePlan svc (userRequest s)
                   (clarificationAnswers s) None))
    as [[|q qs]|e]; cbn [snd this]; eexists; (split; [split; [reflexivity|]|]);
    cbn [PlannerProvider.workspaceState]; try apply lookup_insert_eq; done.
Qed.

Lemma executeToIDE_declined (fm : FileManipulator.t) (picked : option string)
    (w : World PlannerProvider.t) :
  let s := PlannerProvider.workflowState (this w) in
  phase s ≠ ready ∨ plan s = [] ∨ picked ≠ Some "Yes, Execute Plan" ->
  this (exec (PlannerProvider.executeToIDE fm picked) w) = this w
  ∧ applied (during (PlannerProvider.executeToIDE fm picked) w) = []
  ∧ writes (during (PlannerProvider.executeToIDE fm picked) w) = [].
Proof.
  destruct w as [[s st] tr]. cbn [this PlannerProvider.workflowState]. intros H.
  unfold during, exec, PlannerProvider.executeToIDE. run.
  destruct (decide (phase s = ready)) as [Hp|Hp].
  2: { rewrite bool_decide_eq_false_2 by done. cbn [negb orb snd this trace].
       rewrite drop_app_length. done. }
  rewrite bool_decide_eq_true_2 by done. cbn [negb orb].
  destruct (plan s) as [|i l] eqn:Hplan.
  { cbn [length Nat.eqb snd this trace]. rewrite drop_app_length. done. }
  cbn [length Nat.eqb]. run.
  destruct H as [H|[H|H]]; [done|done|].
  rewrite bool_decide_eq_false_2 by done. cbn [negb snd this trace].
  rewrite drop_app_length. done.
Qed.

Lemma executeToIDE_this (fm : FileManipulator.t) (picked : option string)
    (w : World PlannerProvider.t) :
  let p' := this (exec (PlannerProvider.executeToIDE fm picked) w) in
  p' = this w ∨ savedAs PlannerProvider.emptyState p'.
Proof.
  intros p'. subst p'.
  set (s := PlannerProvider.workflowState (this w)).
  destruct (decide (phase s = ready)) as [Hp|Hp].
  2: { left. apply executeToIDE_declined. by left. }
  destruct (decide (plan s = [])) as [Hplan|Hplan].
  { left. apply executeToIDE_declined. right. by left. }
  destruct (decide (picked = Some "Yes, Execute Plan")) as [->|Hpick].
  2: { left. apply executeToIDE_declined. right. by right. }
  right. destruct (executeToIDE_run fm w Hp Hplan) as (evs & Hrun & _).
  unfold exec. rewrite Hrun. split; [done|]. apply lookup_insert_eq.
Qed.

Lemma restartWorkflow_this (picked : option string) (w : World PlannerProvider.t) :
  let p' := this (exec (PlannerProvider.restartWorkflow picked) w) in
  p' = this w ∨ savedAs PlannerProvider.emptyState p'.
Proof.
  destruct w as [[s st] tr]. cbv zeta.
  unfold exec, PlannerProvider.restartWorkflow. run.
  destruct (bool_decide (picked = Some "Yes, Restart")); run.
  - right. split; [done|]. apply lookup_insert_eq.
  - by left.
Qed.

Lemma restartWorkflow_declined (picked : option string) (w : World PlannerProvider.t) :
  picked ≠ Some "Yes, Restart" ->
  PlannerProvider.restartWorkflow picked w
  = (Ok (), {| this := this w;
               trace := trace w
                        ++ [EvNotify (Warning "Are you sure you want to restart the planning workflow? This will clear all current progress.")] |}).
Proof.
  intros Hne. destruct w as [[s st] tr].
  unfold PlannerProvider.restartWorkflow. run.
  rewrite bool_decide_eq_false_2 by done. done.
Qed.

Lemma constructor_this (storage : gmap string WorkflowState) :
  this (PlannerProvider.constructor storage)
  = {| PlannerProvider.workflowState :=
         default PlannerProvider.emptyState (storage !! PlannerProvider.WORKFLOW_STATE_KEY);
       PlannerProvider.workspaceState := storage |}.
Proof.
  unfold PlannerProvider.constructor, PlannerProvider.loadWorkflowState. run.
  destruct (storage !! PlannerProvider.WORKFLOW_STATE_KEY); run; done.
Qed.

Lemma dispatch_consistent (svc : GenerationAdapter.t) (fm : FileManipulator.t) (c : Command)
    (w : World PlannerProvider.t) :
  consistent (this w) -> consistent (this (dispatch svc fm c w)).
Proof.
  intros Hc. assert (bounded PlannerProvider.emptyState) as Hempty by (unfold bounded; simpl; lia).
  assert (∀ storage,
            (∀ s, storage !! PlannerProvider.WORKFLOW_STATE_KEY = Some s -> bounded s) ->
            consistent (this (PlannerProvider.constructor storage))) as Hnew.
  { intros storage Hst. rewrite constructor_this. split; [|exact Hst].
    cbn [PlannerProvider.workflowState].
    destruct (storage !! PlannerProvider.WORKFLOW_STATE_KEY) as [s|] eqn:Hs;
      [by apply Hst|exact Hempty]. }
  destruct c as [typed|typed| |picked|picked| |typed|]; cbn [dispatch].
  - destruct (generatePlan_this svc typed w) as [->|(s & Hs & Ha)]; [done|].
    eapply savedAs_consistent; [|exact Hs]. unfold bounded. rewrite Ha. simpl. lia.
  - destruct (answerNextQuestion_this typed w) as [->|(a & Hlt & Hs)]; [done|].
    eapply savedAs_consistent; [|exact Hs]. unfold bounded. simpl.
    rewrite length_app. simpl. lia.
  - destruct (submitClarification_this svc w) as [->|(s & Hs & Hq & Ha)]; [done|].
    eapply savedAs_consistent; [|exact Hs]. unfold bounded. rewrite Hq, Ha. exact (proj1 Hc).
  - destruct (executeToIDE_this fm picked w) as [->|Hs]; [done|].
    by eapply savedAs_consistent.
  - destruct (restartWorkflow_this picked w) as [->|Hs]; [done|].
    by eapply savedAs_consistent.
  - apply Hnew. exact (proj2 Hc).
  - rewrite closedDuringStart_run. cbv zeta. apply Hnew.
    case_bool_decide; [|exact (proj2 Hc)].
    destruct (acceptedRequest typed) as [v|]; [|exact (proj2 Hc)].
    intros s Hs. apply lookup_insert_Some in Hs as [[_ <-]|[_ Hs]];
      [unfold bounded; simpl; lia|by apply (proj2 Hc)].
  - rewrite closedDuringSubmit_run. cbv zeta. apply Hnew.
    case_bool_decide; [|exact (proj2 Hc)].
    intros s Hs. apply lookup_insert_Some in Hs as [[_ <-]|[_ Hs]];
      [exact (proj1 Hc)|by apply (proj2 Hc)].
Qed.

Lemma session_consistent (svc : GenerationAdapter.t) (fm : FileManipulator.t)
    (cs : list Command) :
  consistent (this (session svc fm cs)).
Proof.
  unfold session.
  assert (consistent (this (PlannerProvider.constructor ∅))) as H0.
  { rewrite constructor_this, lookup_empty. split; [unfold bounded; simpl; lia|].
    intros s Hs. cbn [PlannerProvider.workspaceState] in Hs. by rewrite lookup_empty in Hs. }
  revert H0. generalize (PlannerProvider.constructor ∅).
  induction cs as [|c cs IH]; intros w Hw; [done|].
  simpl. apply IH. by apply dispatch_consistent.
Qed.

(** ** C3 *)

Lemma withoutContext_nil : withoutContext [].
Proof. by split. Qed.














(** ** C7 *)

(** C7. Whatever the user does in a sequence of calls of
    [answerNextQuestion] (accept a value, be refused one, dismiss the box),
    every call returns, the answers recorded are the answers there were
    followed by the accepted ones, trimmed, in the order of the calls, as
    many of them as there was room for; there are never more answers than
    questions; and once every question is answered a further call changes
    nothing at all: not the state, not the storage, not the trace. The
    bound assumed of the state the sequence starts from holds, of the state
    of the provider and of the stored state, after every sequence of
    commands of every session. *)
Theorem answers_appended_in_call_order (typed : list (option string))
    (w : World PlannerProvider.t) :
  let s := PlannerProvider.workflowState (this w) in
  let w' := exec (answerAll typed) w in
  let s' := PlannerProvider.workflowState (this w') in
  (length (clarificationAnswers s) ≤ length (clarificationQuestions s))%nat ->
  returned (answerAll typed) w = Ok ()
  ∧ clarificationAnswers s'
    = clarificationAnswers s
      ++ (if bool_decide (phase s = clarification)
          then take (length (clarificationQuestions s) - length (clarificationAnswers s))
                 (omap acceptedAnswer typed)
          else [])
  ∧ (length (clarificationAnswers s') ≤ length (clarificationQuestions s'))%nat
  ∧ (∀ more : option string,
       length (clarificationAnswers s') = length (clarificationQuestions s') ->
       PlannerProvider.answerNextQuestion more w' = (Ok (), w'))
  ∧ (∀ svc fm commands, consistent (this (session svc fm commands))).
Proof.
  intros s w' s' Hle.
  destruct (answerAll_spec typed w) as (Hr & _ & Hq & Ha).
  fold s w' s' in Hq, Ha.
  split; [exact Hr|]. split; [exact Ha|]. split; [|split].
  - rewrite Ha, Hq, length_app.
    destruct (bool_decide _); simpl; [rewrite length_take|]; lia.
  - intros more Hfull. apply answerNextQuestion_noop.
    right. left. fold w' s'. lia.
  - apply session_consistent.
Qed.

(** After the start of the end-to-end scenario: three values are accepted
    among boxes that are dismissed or refuse the value, and a fourth
    accepted value finds no question left. *)
Lemma answers_appended_in_call_order_witness :
  clarificationAnswers
    (PlannerProvider.workflowState
       (this (exec (answerAll [Some "Auth0"; None; Some "x"; Some " yes "; Some "no";
                               Some "one more"])
                Examples.started)))
  = ["Auth0"; "yes"; "no"].
Proof.
  pose proof (answers_appended_in_call_order
                [Some "Auth0"; None; Some "x"; Some " yes "; Some "no"; Some "one more"]
                Examples.started) as H.
  cbv zeta in H.
  destruct H as (_ & Ha & _).
  - vm_compute. lia.
  - etrans; [exact Ha|]. vm_compute. reflexivity.
Defined.

(* ===================================================================== *)
(** * Further properties *)
(* ===================================================================== *)

(** Properties read off the sources themselves: what the analyzer, the
    generation adapter, the workflow engine, the tree view and the
    webview provider do on every input, beyond the statements of the
    design document. *)

(** ** More on the workspace analyzer *)

Lemma scanFound_closed `{R : Runtime} (files : list CodebaseAnalyzer.FileInfo)
    (foundFiles : list CodebaseAnalyzer.Uri) :
  CodebaseAnalyzer.scanFound files foundFiles
  = files ++ take (CodebaseAnalyzer.maxTotalFiles - length files) (omap toFileInfo foundFiles).
Proof.
  revert files. induction foundFiles as [|file rest IH]; intros files.
  { simpl. by rewrite take_nil, app_nil_r. }
  cbn [CodebaseAnalyzer.scanFound].
  destruct (CodebaseAnalyzer.maxTotalFiles <=? length files)%nat eqn:Hcap.
  { apply Nat.leb_le in Hcap.
    replace (CodebaseAnalyzer.maxTotalFiles - length files)%nat with 0%nat by lia.
    by rewrite take_0, app_nil_r. }
  apply Nat.leb_gt in Hcap.
  cbn [omap list_omap]. unfold toFileInfo at 1.
  destruct (CodebaseAnalyzer.stat file) as [sz|]; [|apply IH].
  destruct (CodebaseAnalyzer.maxFileSize <? sz)%N; [apply IH|].
  destruct (CodebaseAnalyzer.readFile file) as [textContent|]; [|apply IH].
  rewrite IH, <- app_assoc. f_equal. rewrite length_app. cbn [length].
  replace (CodebaseAnalyzer.maxTotalFiles - length files)%nat
    with (S (CodebaseAnalyzer.maxTotalFiles - (length files + 1)))%nat by lia.
  reflexivity.
Qed.

Lemma scanPatterns_closed `{R : Runtime} (ws : CodebaseAnalyzer.Workspace)
    (files : list CodebaseAnalyzer.FileInfo) (patterns : list string) :
  CodebaseAnalyzer.scanPatterns ws files patterns
  = files ++ take (CodebaseAnalyzer.maxTotalFiles - length files)
               (concat (map (eligible ws) patterns)).
Proof.
  revert files. induction patterns as [|pattern rest IH]; intros files.
  { simpl. by rewrite take_nil, app_nil_r. }
  cbn [CodebaseAnalyzer.scanPatterns map concat]. unfold eligible at 1.
  destruct (CodebaseAnalyzer.findFiles ws pattern _ _) as [foundFiles|].
  2: { cbn [app]. apply IH. }
  rewrite IH, scanFound_closed, <- app_assoc. f_equal.
  rewrite take_app. f_equal. rewrite length_app, length_take. f_equal. lia.
Qed.

(** X1. [findKeyFiles] returns the first [maxTotalFiles] of the files it
    can store, taken pattern by pattern in the order of [keyFilePatterns]
    and, within a pattern, in the order [findFiles] gave them. A file whose
    [stat] or [readFile] fails, or that is larger than [maxFileSize], takes
    no place in the count; a pattern whose search fails contributes
    nothing; a file that two patterns match is stored once for each. *)
Theorem findKeyFiles_first_eligible `{R : Runtime} (ws : CodebaseAnalyzer.Workspace)
    (rootPath : string) :
  CodebaseAnalyzer.findKeyFiles ws rootPath
  = take CodebaseAnalyzer.maxTotalFiles
      (concat (map (eligible ws) CodebaseAnalyzer.keyFilePatterns)).
Proof.
  unfold CodebaseAnalyzer.findKeyFiles, JS.slice0.
  rewrite scanPatterns_closed. cbn [app length]. rewrite Nat.sub_0_r.
  apply take_take.
Qed.

Lemma arrayIncludes_elem (arr : list string) (x : string) :
  JS.arrayIncludes arr x = true ↔ x ∈ arr.
Proof. unfold JS.arrayIncludes. apply bool_decide_eq_true. Qed.

Lemma dedupe_elem (seen arr : list string) (x : string) :
  x ∈ JS.dedupe seen arr ↔ x ∈ arr ∧ x ∉ seen.
Proof.
  revert seen. induction arr as [|y arr IH]; intros seen.
  { simpl. split; [by intros ?%elem_of_nil|by intros [?%elem_of_nil _]]. }
  cbn [JS.dedupe]. destruct (JS.arrayIncludes seen y) eqn:Hy.
  - apply arrayIncludes_elem in Hy. rewrite IH, elem_of_cons. split.
    + intros [H1 H2]. split; [by right|done].
    + intros [[->|H1] H2]; [done|]. by split.
  - assert (y ∉ seen) as Hy' by (intros H%arrayIncludes_elem; congruence).
    rewrite !elem_of_cons, IH, elem_of_app, list_elem_of_singleton. split.
    + intros [->|[H1 H2]]; [split; [by left|done]|]. split; [by right|]. tauto.
    + intros [[->|H1] H2]; [by left|].
      destruct (decide (x = y)) as [->|Hne]; [by left|]. right. split; [done|]. tauto.
Qed.

Lemma dedupe_NoDup (seen arr : list string) : NoDup (JS.dedupe seen arr).
Proof.
  revert seen. induction arr as [|y arr IH]; intros seen; [constructor|].
  cbn [JS.dedupe]. destruct (JS.arrayIncludes seen y); [apply IH|].
  constructor; [|apply IH].
  rewrite dedupe_elem, elem_of_app, list_elem_of_singleton. tauto.
Qed.

Lemma pushIf_elem (b : bool) (x y : string) (arr : list string) :
  y ∈ CodebaseAnalyzer.pushIf b x arr ↔ y ∈ arr ∨ (b = true ∧ y = x).
Proof.
  unfold CodebaseAnalyzer.pushIf. destruct b.
  - rewrite elem_of_app, list_elem_of_singleton. tauto.
  - split; [tauto|]. intros [?|[? _]]; done.
Qed.

Lemma existsb_hasConfig (files : list CodebaseAnalyzer.FileInfo) (name : string) :
  existsb (fun f => JS.includes (CodebaseAnalyzer.path f) name) files = true
  ↔ hasConfig files name.
Proof.
  rewrite existsb_exists. unfold hasConfig.
  split; intros (f & Hin & Hf); exists f; (split; [|done]); by apply list_elem_of_In.
Qed.

Lemma detectFrameworks_elem (files : list CodebaseAnalyzer.FileInfo)
    (dependencies : list string) (x : string) :
  x ∈ CodebaseAnalyzer.detectFrameworks files dependencies
  ↔ (x = "Next.js" ∧ ("next" ∈ dependencies ∨ hasConfig files "next.config"))
    ∨ (x = "React" ∧ "react" ∈ dependencies)
    ∨ (x = "Vue.js" ∧ "vue" ∈ dependencies)
    ∨ (x = "Svelte" ∧ "svelte" ∈ dependencies)
    ∨ (x = "Express" ∧ "express" ∈ dependencies)
    ∨ (x = "Fastify" ∧ "fastify" ∈ dependencies)
    ∨ (x = "Tailwind CSS"
       ∧ ("tailwindcss" ∈ dependencies ∨ hasConfig files "tailwind.config"))
    ∨ (x = "TypeScript" ∧ "typescript" ∈ dependencies)
    ∨ (x = "Vite" ∧ hasConfig files "vite.config").
Proof.
  unfold CodebaseAnalyzer.detectFrameworks. cbv zeta.
  rewrite dedupe_elem, !pushIf_elem, !arrayIncludes_elem, !existsb_hasConfig.
  rewrite elem_of_nil. tauto.
Qed.

(** X2. [detectFrameworks] names each framework at most once and names
    nothing but the nine frameworks. React, Vue.js, Svelte, Express,
    Fastify and TypeScript are named exactly when their dependency is
    listed; Next.js and Tailwind CSS exactly when their dependency is
    listed or a stored file has their configuration name in its path;
    Vite exactly when a stored file has [vite.config] in its path: no
    dependency is looked at for Vite. *)
Theorem detectFrameworks_spec (files : list CodebaseAnalyzer.FileInfo)
    (dependencies : list string) :
  let frameworks := CodebaseAnalyzer.detectFrameworks files dependencies in
  NoDup frameworks
  ∧ ("Next.js" ∈ frameworks ↔ "next" ∈ dependencies ∨ hasConfig files "next.config")
  ∧ ("React" ∈ frameworks ↔ "react" ∈ dependencies)
  ∧ ("Vue.js" ∈ frameworks ↔ "vue" ∈ dependencies)
  ∧ ("Svelte" ∈ frameworks ↔ "svelte" ∈ dependencies)
  ∧ ("Express" ∈ frameworks ↔ "express" ∈ dependencies)
  ∧ ("Fastify" ∈ frameworks ↔ "fastify" ∈ dependencies)
  ∧ ("Tailwind CSS" ∈ frameworks
     ↔ "tailwindcss" ∈ dependencies ∨ hasConfig files "tailwind.config")
  ∧ ("TypeScript" ∈ frameworks ↔ "typescript" ∈ dependencies)
  ∧ ("Vite" ∈ frameworks ↔ hasConfig files "vite.config")
  ∧ (∀ x, x ∈ frameworks ->
       x ∈ ["Next.js"; "React"; "Vue.js"; "Svelte"; "Express"; "Fastify"; "Tailwind CSS";
            "TypeScript"; "Vite"]).
Proof.
  intros frameworks. subst frameworks.
  split; [apply dedupe_NoDup|].
  repeat (split; [rewrite detectFrameworks_elem; split;
                    [intros H; decompose [and or] H; clear H; try discriminate; tauto
                    |tauto]|]).
  intros x Hx. apply detectFrameworks_elem in Hx.
  decompose [and or] Hx; subst;
    repeat first [apply list_elem_of_here | apply list_elem_of_further].
Qed.

(** X3. [detectLanguages] returns, without repetition, exactly the
    languages of the stored files. *)
Theorem detectLanguages_spec (files : list CodebaseAnalyzer.FileInfo) :
  NoDup (CodebaseAnalyzer.detectLanguages files)
  ∧ ∀ l, l ∈ CodebaseAnalyzer.detectLanguages files
         ↔ ∃ f, f ∈ files ∧ CodebaseAnalyzer.language f = l.
Proof.
  unfold CodebaseAnalyzer.detectLanguages. split; [apply dedupe_NoDup|].
  intros l. rewrite dedupe_elem, list_elem_of_fmap, elem_of_nil.
  split.
  - intros [(f & -> & Hf) _]. by exists f.
  - intros (f & Hf & <-). split; [by exists f|tauto].
Qed.

(** X4. The project type of an analysed workspace is decided in a fixed
    order: Next.js (dependency or configuration file), then the
    dependencies react, vue, svelte and express, then the presence of a
    stored file with [package.json] in its path, and [Web Project]
    otherwise. *)
Theorem projectType_cascade `{R : Runtime} (ws : CodebaseAnalyzer.Workspace)
    (context : CodebaseContext) :
  CodebaseAnalyzer.analyzeWorkspace ws = Ok context ->
  let t := CodebaseAnalyzer.projectType context in
  let deps := CodebaseAnalyzer.dependencies context in
  let files := CodebaseAnalyzer.keyFiles context in
  let next := "next" ∈ deps ∨ hasConfig files "next.config" in
  (next -> t = "Next.js Application")
  ∧ (¬ next -> "react" ∈ deps -> t = "React Application")
  ∧ (¬ next -> "react" ∉ deps -> "vue" ∈ deps -> t = "Vue.js Application")
  ∧ (¬ next -> "react" ∉ deps -> "vue" ∉ deps -> "svelte" ∈ deps ->
     t = "Svelte Application")
  ∧ (¬ next -> "react" ∉ deps -> "vue" ∉ deps -> "svelte" ∉ deps -> "express" ∈ deps ->
     t = "Node.js Backend")
  ∧ (¬ next -> "react" ∉ deps -> "vue" ∉ deps -> "svelte" ∉ deps -> "express" ∉ deps ->
     hasConfig files "package.json" -> t = "Node.js Project")
  ∧ (¬ next -> "react" ∉ deps -> "vue" ∉ deps -> "svelte" ∉ deps -> "express" ∉ deps ->
     ¬ hasConfig files "package.json" -> t = "Web Project").
Proof.
  intros Hok t deps files next.
  assert (t = CodebaseAnalyzer.determineProjectType
                (CodebaseAnalyzer.detectFrameworks files deps) files) as ->.
  { unfold CodebaseAnalyzer.analyzeWorkspace in Hok.
    destruct (CodebaseAnalyzer.workspaceFolders ws) as [[|rootPath folders]|]; try done.
    injection Hok as <-. reflexivity. }
  unfold CodebaseAnalyzer.determineProjectType.
  assert ("Next.js" ∈ CodebaseAnalyzer.detectFrameworks files deps ↔ next) as Hnext.
  { unfold next. rewrite detectFrameworks_elem. split; [|tauto].
    intros H; decompose [and or] H; clear H; try discriminate; tauto. }
  assert ("React" ∈ CodebaseAnalyzer.detectFrameworks files deps ↔ "react" ∈ deps)
    as Hreact.
  { rewrite detectFrameworks_elem. split; [|tauto].
    intros H; decompose [and or] H; clear H; try discriminate; tauto. }
  assert ("Vue.js" ∈ CodebaseAnalyzer.detectFrameworks files deps ↔ "vue" ∈ deps) as Hvue.
  { rewrite detectFrameworks_elem. split; [|tauto].
    intros H; decompose [and or] H; clear H; try discriminate; tauto. }
  assert ("Svelte" ∈ CodebaseAnalyzer.detectFrameworks files deps ↔ "svelte" ∈ deps)
    as Hsvelte.
  { rewrite detectFrameworks_elem. split; [|tauto].
    intros H; decompose [and or] H; clear H; try discriminate; tauto. }
  assert ("Express" ∈ CodebaseAnalyzer.detectFrameworks files deps ↔ "express" ∈ deps)
    as Hexpress.
  { rewrite detectFrameworks_elem. split; [|tauto].
    intros H; decompose [and or] H; clear H; try discriminate; tauto. }
  assert (∀ x P, (x ∈ CodebaseAnalyzer.detectFrameworks files deps ↔ P) ->
                 (P -> JS.arrayIncludes (CodebaseAnalyzer.detectFrameworks files deps) x = true)
                 ∧ (¬ P -> JS.arrayIncludes (CodebaseAnalyzer.detectFrameworks files deps) x
                           = false)) as Hdec.
  { intros x P HP. split; intros HP'.
    - apply arrayIncludes_elem. tauto.
    - apply not_true_is_false. rewrite arrayIncludes_elem. tauto. }
  destruct (Hdec _ _ Hnext) as [Hn1 Hn0].
  destruct (Hdec _ _ Hreact) as [Hr1 Hr0].
  destruct (Hdec _ _ Hvue) as [Hv1 Hv0].
  destruct (Hdec _ _ Hsvelte) as [Hs1 Hs0].
  destruct (Hdec _ _ Hexpress) as [He1 He0].
  split; [intros H; by rewrite (Hn1 H)|].
  split; [intros H0 H1; by rewrite (Hn0 H0), (Hr1 H1)|].
  split; [intros H0 H1 H2; by rewrite (Hn0 H0), (Hr0 H1), (Hv1 H2)|].
  split; [intros H0 H1 H2 H3; by rewrite (Hn0 H0), (Hr0 H1), (Hv0 H2), (Hs1 H3)|].
  split; [intros H0 H1 H2 H3 H4;
          by rewrite (Hn0 H0), (Hr0 H1), (Hv0 H2), (Hs0 H3), (He1 H4)|].
  split.
  - intros H0 H1 H2 H3 H4 H5%existsb_hasConfig.
    by rewrite (Hn0 H0), (Hr0 H1), (Hv0 H2), (Hs0 H3), (He0 H4), H5.
  - intros H0 H1 H2 H3 H4 H5.
    rewrite (Hn0 H0), (Hr0 H1), (Hv0 H2), (Hs0 H3), (He0 H4).
    destruct (existsb _ files) eqn:Hex; [|done].
    by apply existsb_hasConfig in Hex.
Qed.

(** A workspace whose [package.json] lists react and typescript is a
    React application; one whose [package.json] is the empty object is a
    Node.js project. *)
Lemma projectType_cascade_witness :
  (∃ context,
     @CodebaseAnalyzer.analyzeWorkspace Examples.runtime Examples.reactWorkspace = Ok context
     ∧ CodebaseAnalyzer.dependencies context = ["react"; "typescript"]
     ∧ CodebaseAnalyzer.projectType context = "React Application")
  ∧ (∃ context,
       @CodebaseAnalyzer.analyzeWorkspace Examples.runtime Examples.workspace = Ok context
       ∧ CodebaseAnalyzer.dependencies context = []
       ∧ CodebaseAnalyzer.projectType context = "Node.js Project").
Proof.
  split.
  - eexists. split; [vm_compute; reflexivity|]. split; [reflexivity|].
    match goal with
    | |- CodebaseAnalyzer.projectType ?c = _ =>
        pose proof (@projectType_cascade Examples.runtime Examples.reactWorkspace c) as H
    end.
    cbv zeta in H. destruct H as (_ & Hreact & _); [vm_compute; reflexivity|].
    apply Hreact.
    + intros [Hnext|(f & Hf & Hinc)].
      * vm_compute in Hnext.
        apply elem_of_cons in Hnext as [Hnext|Hnext]; [discriminate Hnext|].
        apply list_elem_of_singleton in Hnext. discriminate Hnext.
      * vm_compute in Hf. apply list_elem_of_singleton in Hf. subst f.
        vm_compute in Hinc. discriminate Hinc.
    + vm_compute. apply list_elem_of_here.
  - eexists. split; [vm_compute; reflexivity|]. split; [reflexivity|].
    match goal with
    | |- CodebaseAnalyzer.projectType ?c = _ =>
        pose proof (@projectType_cascade Examples.runtime Examples.workspace c) as H
    end.
    cbv zeta in H.
    destruct H as (_ & _ & _ & _ & _ & Hnode & _); [vm_compute; reflexivity|].
    apply Hnode.
    + intros [Hnext|(f & Hf & Hinc)].
      * vm_compute in Hnext. by apply elem_of_nil in Hnext.
      * vm_compute in Hf. apply list_elem_of_singleton in Hf. subst f.
        vm_compute in Hinc. discriminate Hinc.
    + vm_compute. apply not_elem_of_nil.
    + vm_compute. apply not_elem_of_nil.
    + vm_compute. apply not_elem_of_nil.
    + vm_compute. apply not_elem_of_nil.
    + eexists. split; [vm_compute; apply list_elem_of_here|]. vm_compute. reflexivity.
Defined.

Lemma fold_left_ext {A B} (f g : A -> B -> A) (l : list B) (acc : A) :
  (∀ a e, f a e = g a e) -> fold_left f l acc = fold_left g l acc.
Proof.
  intros Hfg. revert acc. induction l as [|e l IH]; intros acc; [done|].
  simpl. by rewrite Hfg, IH.
Qed.

Lemma fold_left_filter {A B} (f : A -> B -> A) (keep : B -> bool) (l : list B) (acc : A) :
  (∀ a e, keep e = false -> f a e = a) ->
  fold_left f (List.filter keep l) acc = fold_left f l acc.
Proof.
  intros Hskip. revert acc. induction l as [|e l IH]; intros acc; [done|].
  simpl. destruct (keep e) eqn:He; simpl; [apply IH|].
  by rewrite (Hskip acc e He).
Qed.

Lemma dot_name_not_allowed (name : string) :
  JS.startsWith name "." = true ->
  JS.arrayIncludes ["src"; "app"; "pages"; "components"] name = false.
Proof.
  unfold JS.startsWith, JS.arrayIncludes. destruct name as [|c rest]; [by simpl|].
  cbn [String.prefix]. destruct (Ascii.ascii_dec "." c) as [<-|]; [|done]. intros _.
  apply bool_decide_eq_false. intros H.
  repeat (apply elem_of_cons in H as [H|H]; [discriminate H|]).
  by apply elem_of_nil in H.
Qed.

Lemma buildDirectoryTree_prune `{R : Runtime} (ws : CodebaseAnalyzer.Workspace) (fuel : nat)
    (dirPath : string) (currentDepth maxDepth : nat) :
  CodebaseAnalyzer.buildDirectoryTree (prune ws) fuel dirPath currentDepth maxDepth
  = CodebaseAnalyzer.buildDirectoryTree ws fuel dirPath currentDepth maxDepth.
Proof.
  revert dirPath currentDepth. induction fuel as [|fuel IH]; intros dirPath currentDepth.
  { cbn [CodebaseAnalyzer.buildDirectoryTree]. by destruct (_ <=? _)%nat. }
  cbn [CodebaseAnalyzer.buildDirectoryTree].
  destruct (maxDepth <=? currentDepth)%nat; [done|].
  cbn [prune CodebaseAnalyzer.readDirectory].
  destruct (CodebaseAnalyzer.readDirectory ws dirPath) as [entries|]; [|done].
  rewrite fold_left_filter.
  - apply fold_left_ext. intros tree [name type]. cbn [fst snd].
    destruct (_ && _); [done|]. destruct (String.eqb name "node_modules"); [done|].
    destruct (_ && _); [|done]. by rewrite IH.
  - intros tree [name type]. unfold listed. cbn [fst snd].
    destruct (JS.startsWith name ".") eqn:Hdot.
    + intros _. by rewrite (dot_name_not_allowed name Hdot).
    + cbn [negb andb]. intros ->%negb_false_iff. done.
Qed.

Lemma buildDirectoryTree_fuel `{R : Runtime} (ws : CodebaseAnalyzer.Workspace)
    (fuel1 fuel2 : nat) (dirPath : string) (currentDepth maxDepth : nat) :
  (maxDepth - currentDepth ≤ fuel1)%nat ->
  (maxDepth - currentDepth ≤ fuel2)%nat ->
  CodebaseAnalyzer.buildDirectoryTree ws fuel1 dirPath currentDepth maxDepth
  = CodebaseAnalyzer.buildDirectoryTree ws fuel2 dirPath currentDepth maxDepth.
Proof.
  revert fuel2 dirPath currentDepth.
  induction fuel1 as [|fuel1 IH]; intros fuel2 dirPath currentDepth H1 H2.
  - destruct fuel2; cbn [CodebaseAnalyzer.buildDirectoryTree];
      destruct (maxDepth <=? currentDepth)%nat eqn:Hd; try done.
    apply Nat.leb_gt in Hd. lia.
  - cbn [CodebaseAnalyzer.buildDirectoryTree].
    destruct (maxDepth <=? currentDepth)%nat eqn:Hd.
    { destruct fuel2; cbn [CodebaseAnalyzer.buildDirectoryTree]; by rewrite Hd. }
    apply Nat.leb_gt in Hd.
    destruct fuel2 as [|fuel2]; [lia|].
    cbn [CodebaseAnalyzer.buildDirectoryTree].
    assert ((maxDepth <=? currentDepth)%nat = false) as -> by (apply Nat.leb_gt; lia).
    destruct (CodebaseAnalyzer.readDirectory ws dirPath) as [entries|]; [|done].
    apply fold_left_ext. intros tree [name type]. cbn [fst snd].
    destruct (_ && _); [done|]. destruct (String.eqb name "node_modules"); [done|].
    destruct (_ && _); [|done]. f_equal. apply IH; lia.
Qed.

(** X5. The structure of the workspace is the one of the workspace
    without its [node_modules] entries and without the entries whose name
    starts with a dot, at every depth: the names allowed after the dot
    test never start with a dot, so no hidden entry is listed. The tree
    has three levels, and three steps of the recursion build it. *)
Theorem structure_skips_hidden_entries `{R : Runtime} (ws : CodebaseAnalyzer.Workspace)
    (rootPath : string) :
  CodebaseAnalyzer.generateStructure (prune ws) rootPath
  = CodebaseAnalyzer.generateStructure ws rootPath
  ∧ (∀ fuel, (3 ≤ fuel)%nat ->
       CodebaseAnalyzer.buildDirectoryTree ws fuel rootPath 0 3
       = CodebaseAnalyzer.generateStructure ws rootPath)
  ∧ (∀ name, JS.startsWith name "." = true ->
       JS.arrayIncludes ["src"; "app"; "pages"; "components"] name = false).
Proof.
  split; [apply buildDirectoryTree_prune|]. split.
  - intros fuel Hfuel. unfold CodebaseAnalyzer.generateStructure.
    apply buildDirectoryTree_fuel; simpl; lia.
  - apply dot_name_not_allowed.
Qed.

(** X6. The analysis of a workspace in which no key file can be stored
    (none is found, or every one is unreadable or too large) does not
    fail: it reports a [Web Project] without frameworks, languages or
    dependencies, with the structure of the first folder. *)
Theorem workspace_without_key_files_is_a_web_project `{R : Runtime}
    (ws : CodebaseAnalyzer.Workspace) (rootPath : string) (folders : list string) :
  CodebaseAnalyzer.workspaceFolders ws = Some (rootPath :: folders) ->
  (∀ pattern, pattern ∈ CodebaseAnalyzer.keyFilePatterns -> eligible ws pattern = []) ->
  CodebaseAnalyzer.analyzeWorkspace ws
  = Ok {| CodebaseAnalyzer.projectType := "Web Project";
          CodebaseAnalyzer.frameworks := [];
          CodebaseAnalyzer.languages := [];
          CodebaseAnalyzer.keyFiles := [];
          CodebaseAnalyzer.structure := CodebaseAnalyzer.generateStructure ws rootPath;
          CodebaseAnalyzer.dependencies := [] |}.
Proof.
  intros Hfolders Hnone. unfold CodebaseAnalyzer.analyzeWorkspace. rewrite Hfolders.
  assert (CodebaseAnalyzer.findKeyFiles ws rootPath = []) as ->.
  { unfold CodebaseAnalyzer.findKeyFiles, JS.slice0. rewrite scanPatterns_closed.
    cbn [app length]. rewrite Nat.sub_0_r, take_take.
    assert (concat (map (eligible ws) CodebaseAnalyzer.keyFilePatterns) = []) as ->;
      [|by rewrite take_nil].
    induction CodebaseAnalyzer.keyFilePatterns as [|pattern patterns IH]; [done|].
    cbn [map concat]. rewrite Hnone by apply list_elem_of_here. cbn [app].
    apply IH. intros p Hp. apply Hnone. by apply list_elem_of_further. }
  reflexivity.
Qed.

(** Every search and every listing fails: the structure is empty too. *)
Lemma workspace_without_key_files_is_a_web_project_witness :
  ∃ context,
    @CodebaseAnalyzer.analyzeWorkspace Examples.runtime Examples.emptyWorkspace = Ok context
    ∧ CodebaseAnalyzer.projectType context = "Web Project"
    ∧ CodebaseAnalyzer.structure context = "".
Proof.
  eexists. split.
  - apply (@workspace_without_key_files_is_a_web_project Examples.runtime Examples.emptyWorkspace
             "/work" []).
    + reflexivity.
    + intros pattern _. reflexivity.
  - split; reflexivity.
Defined.

(** ** More on the generation adapter *)

Lemma hasQuestionMark_cons (c : ascii) (s : string) :
  JS.includes (String c s) "?" = Ascii.eqb c "?" || JS.includes s "?".
Proof.
  rewrite includes_cons. cbn [String.prefix].
  destruct (Ascii.ascii_dec "?" c) as [<-|Hne].
  - by destruct s.
  - assert (Ascii.eqb c "?" = false) as -> by (apply Ascii.eqb_neq; congruence). done.
Qed.

Lemma whitespace_no_question (c : ascii) :
  JS.isWhiteSpace c = true -> Ascii.eqb c "?" = false.
Proof.
  intros Hws. apply Ascii.eqb_neq. intros ->. discriminate Hws.
Qed.

Lemma trimStart_question (s : string) :
  JS.includes (JS.trimStart s) "?" = JS.includes s "?".
Proof.
  induction s as [|c s IH]; [done|]. cbn [JS.trimStart].
  destruct (JS.isWhiteSpace c) eqn:Hws; [|done].
  by rewrite IH, hasQuestionMark_cons, (whitespace_no_question c Hws).
Qed.

Lemma trimEnd_question (s : string) :
  JS.includes (JS.trimEnd s) "?" = JS.includes s "?".
Proof.
  induction s as [|c s IH]; [done|]. cbn [JS.trimEnd].
  rewrite (hasQuestionMark_cons c s), <- IH.
  destruct (JS.trimEnd s) as [|d t].
  - destruct (JS.isWhiteSpace c) eqn:Hws.
    + by rewrite (whitespace_no_question c Hws).
    + by rewrite hasQuestionMark_cons.
  - by rewrite hasQuestionMark_cons.
Qed.

Lemma trim_question (s : string) : JS.includes (JS.trim s) "?" = JS.includes s "?".
Proof. unfold JS.trim. by rewrite trimEnd_question, trimStart_question. Qed.

Lemma split_cons (sep : ascii) (s : string) : ∃ cur rest, JS.split sep s = cur :: rest.
Proof.
  induction s as [|c s IH]; [by eexists _, _|]. cbn [JS.split].
  destruct (Ascii.eqb c sep); [by eexists _, _|].
  destruct IH as (cur & rest & ->). by eexists _, _.
Qed.

Lemma split_question (s : string) :
  existsb (fun line => JS.includes line "?") (JS.split JS.LF s) = JS.includes s "?".
Proof.
  induction s as [|c s IH]; [done|]. cbn [JS.split].
  rewrite hasQuestionMark_cons, <- IH.
  destruct (Ascii.eqb c JS.LF) eqn:Hc.
  - apply Ascii.eqb_eq in Hc as ->. done.
  - destruct (split_cons JS.LF s) as (cur & rest & ->). cbn [existsb].
    by rewrite hasQuestionMark_cons, orb_assoc.
Qed.

Lemma includes_nonempty (q : string) :
  JS.includes q "?" = true -> (0 <? String.length q)%nat = true.
Proof. by destruct q. Qed.

Lemma parseQuestions_nonempty (text : string) :
  GeminiService.parseQuestions text ≠ [] ↔ JS.includes text "?" = true.
Proof.
  rewrite <- split_question. unfold GeminiService.parseQuestions, JS.slice0.
  induction (JS.split JS.LF text) as [|line lines IH]; [done|].
  cbn [map List.filter existsb]. rewrite trim_question.
  destruct (JS.includes line "?") eqn:Hq.
  - rewrite (includes_nonempty (JS.trim line)) by (by rewrite trim_question).
    cbn [andb orb take]. done.
  - rewrite andb_false_r. cbn [orb]. exact IH.
Qed.

(** X7. When the backend answers, [generateClarificationQuestions]
    returns the questions read off the answer exactly when the answer
    contains a question mark, and the fallback questions of the request
    exactly when it contains none; no warning is shown either way. *)
Theorem fallback_iff_no_question_mark (svc : GeminiService.t) (userRequest text : string)
    (codebaseContext : option CodebaseContext) :
  GeminiService.ensureInitialized svc = true ->
  GeminiService.generateContent svc
    (GeminiService.ClarificationPrompt codebaseContext userRequest) = Ok text ->
  (JS.includes text "?" = true ->
   GeminiService.generateClarificationQuestions svc userRequest codebaseContext
   = ([], Ok (GeminiService.parseQuestions text))
   ∧ GeminiService.parseQuestions text ≠ [])
  ∧ (JS.includes text "?" = false ->
     GeminiService.generateClarificationQuestions svc userRequest codebaseContext
     = ([], Ok (GeminiService.getFallbackClarificationQuestions userRequest))).
Proof.
  intros Hinit Htext. unfold GeminiService.generateClarificationQuestions. cbv zeta.
  rewrite Hinit, Htext. cbn [negb].
  split.
  - intros Hq. apply parseQuestions_nonempty in Hq as Hne.
    destruct (GeminiService.parseQuestions text) as [|q qs]; [done|]. done.
  - intros Hq.
    destruct (GeminiService.parseQuestions text) as [|q qs] eqn:Hp; [done|].
    assert (GeminiService.parseQuestions text ≠ []) as Hne by (by rewrite Hp).
    apply parseQuestions_nonempty in Hne. congruence.
Qed.

(** Of four lines, the two with a question mark are returned, trimmed. *)
Lemma fallback_iff_no_question_mark_witness :
  GeminiService.generateClarificationQuestions Examples.askingBackend Examples.request None
  = ([], Ok ["1. Which provider?"; "2. Is SSO needed?"]).
Proof.
  destruct (fallback_iff_no_question_mark Examples.askingBackend Examples.request
              ("Here are the questions:" +:+ Examples.newline
               +:+ "  1. Which provider?  " +:+ Examples.newline
               +:+ Examples.newline
               +:+ "2. Is SSO needed?") None) as [Hasked _].
  - reflexivity.
  - reflexivity.
  - destruct Hasked as [Hrun _]; [vm_compute; reflexivity|].
    etrans; [exact Hrun|]. vm_compute. reflexivity.
Defined.

Lemma includes_char_cons (a c : ascii) (s : string) :
  JS.includes (String a s) (String c "") = Ascii.eqb a c || JS.includes s (String c "").
Proof.
  rewrite includes_cons. cbn [String.prefix].
  destruct (Ascii.ascii_dec c a) as [<-|Hne].
  - rewrite Ascii.eqb_refl. by destruct s.
  - assert (Ascii.eqb a c = false) as -> by (apply Ascii.eqb_neq; congruence). done.
Qed.

Lemma includes_char_app (c : ascii) (s t : string) :
  JS.includes (s +:+ t) (String c "")
  = JS.includes s (String c "") || JS.includes t (String c "").
Proof.
  induction s as [|a s IH]; [done|].
  change (String a s +:+ t) with (String a (s +:+ t)).
  by rewrite !includes_char_cons, IH, orb_assoc.
Qed.

Lemma append_assoc (s t u : string) : (s +:+ t) +:+ u = s +:+ (t +:+ u).
Proof.
  induction s as [|a s IH]; [done|].
  change ((String a s +:+ t) +:+ u) with (String a ((s +:+ t) +:+ u)).
  by rewrite IH.
Qed.

Lemma fromFirst_Some (c : ascii) (s t : string) :
  GeminiService.fromFirst c s = Some t ->
  ∃ pre rest, s = pre +:+ t ∧ t = String c rest ∧ JS.includes pre (String c "") = false.
Proof.
  revert t. induction s as [|a s IH]; intros t; [done|]. cbn [GeminiService.fromFirst].
  destruct (Ascii.eqb a c) eqn:Ha.
  - intros [= <-]. apply Ascii.eqb_eq in Ha as ->. by exists "", s.
  - intros (pre & rest & -> & -> & Hpre)%IH. exists (String a pre), rest.
    split; [done|]. split; [done|]. by rewrite includes_char_cons, Ha, Hpre.
Qed.

Lemma fromFirst_None (c : ascii) (s : string) :
  GeminiService.fromFirst c s = None ↔ JS.includes s (String c "") = false.
Proof.
  induction s as [|a s IH]; [done|]. cbn [GeminiService.fromFirst].
  rewrite includes_char_cons. destruct (Ascii.eqb a c); [done|]. exact IH.
Qed.

Lemma throughLast_None (c : ascii) (s : string) :
  GeminiService.throughLast c s = None ↔ JS.includes s (String c "") = false.
Proof.
  induction s as [|a s IH]; [done|]. cbn [GeminiService.throughLast].
  rewrite includes_char_cons.
  destruct (GeminiService.throughLast c s) as [t|].
  - destruct (JS.includes s (String c "")); [|by destruct IH as [_ IH]; discriminate IH].
    by rewrite orb_true_r.
  - rewrite (proj1 IH eq_refl), orb_false_r. by destruct (Ascii.eqb a c).
Qed.

Lemma throughLast_Some (c : ascii) (s t : string) :
  GeminiService.throughLast c s = Some t ->
  ∃ body post, s = t +:+ post ∧ t = body +:+ String c ""
               ∧ JS.includes post (String c "") = false.
Proof.
  revert t. induction s as [|a s IH]; intros t; [done|]. cbn [GeminiService.throughLast].
  destruct (GeminiService.throughLast c s) as [t'|] eqn:Hlast.
  - intros [= <-]. destruct (IH t' eq_refl) as (body & post & -> & -> & Hpost).
    exists (String a body), post. by repeat split.
  - destruct (Ascii.eqb a c) eqn:Ha; [|done]. intros [= <-].
    apply Ascii.eqb_eq in Ha as ->. exists "", s.
    split; [done|]. split; [done|]. by apply throughLast_None.
Qed.

Lemma fromFirst_app (c d : ascii) (pre tail : string) :
  JS.includes tail (String d "") = true ->
  ∃ rest, GeminiService.fromFirst c (pre +:+ String c tail) = Some (String c rest)
          ∧ JS.includes rest (String d "") = true.
Proof.
  intros Htail. induction pre as [|a pre IH].
  - exists tail. split; [|done].
    change ("" +:+ String c tail) with (String c tail).
    cbn [GeminiService.fromFirst]. by rewrite Ascii.eqb_refl.
  - change (String a pre +:+ String c tail) with (String a (pre +:+ String c tail)).
    cbn [GeminiService.fromFirst].
    destruct (Ascii.eqb a c) eqn:Ha; [|exact IH].
    apply Ascii.eqb_eq in Ha as ->. eexists. split; [reflexivity|].
    rewrite includes_char_app, includes_char_cons, Htail. by rewrite !orb_true_r.
Qed.

(** X8. The match of the array in the answer of the backend: when there
    is one, it goes from the first opening bracket of the text to the last
    closing bracket of the text; there is none exactly when no closing
    bracket follows an opening one. *)
Theorem matchArray_spec (text : string) :
  (∀ m, GeminiService.matchArray text = Some m ->
        ∃ pre body post,
          text = pre +:+ m +:+ post
          ∧ m = "[" +:+ body +:+ "]"
          ∧ JS.includes pre "[" = false
          ∧ JS.includes post "]" = false)
  ∧ (GeminiService.matchArray text = None
     ↔ ∀ pre body post, text ≠ pre +:+ "[" +:+ body +:+ "]" +:+ post).
Proof.
  assert (∀ m, GeminiService.matchArray text = Some m ->
               ∃ pre body post,
                 text = pre +:+ m +:+ post
                 ∧ m = "[" +:+ body +:+ "]"
                 ∧ JS.includes pre "[" = false
                 ∧ JS.includes post "]" = false) as Hsome.
  { intros m. unfold GeminiService.matchArray.
    destruct (GeminiService.fromFirst "[" text) as [t|] eqn:Hfirst; [|done].
    apply fromFirst_Some in Hfirst as (pre & rest & -> & -> & Hpre).
    destruct (GeminiService.throughLast "]" rest) as [inner|] eqn:Hlast; [|done].
    intros [= <-].
    apply throughLast_Some in Hlast as (body & post & -> & -> & Hpost).
    exists pre, body, post. by repeat split. }
  split; [exact Hsome|]. split.
  - intros Hnone pre body post ->.
    unfold GeminiService.matchArray in Hnone.
    destruct (fromFirst_app "[" "]" pre (body +:+ "]" +:+ post)) as (rest & Hfirst & Hrest).
    { by rewrite !includes_char_app, orb_true_r. }
    change ("[" +:+ body +:+ "]" +:+ post) with (String "[" (body +:+ "]" +:+ post))
      in Hnone.
    rewrite Hfirst in Hnone.
    destruct (GeminiService.throughLast "]" rest) eqn:Hlast; [done|].
    apply throughLast_None in Hlast. congruence.
  - intros Hno. destruct (GeminiService.matchArray text) as [m|] eqn:Hm; [|done].
    destruct (Hsome m eq_refl) as (pre & body & post & Htext & -> & _).
    exfalso. apply (Hno pre body post). rewrite Htext.
    change ("[" +:+ body +:+ "]") with (String "[" (body +:+ "]")).
    change (String "[" (body +:+ "]") +:+ post) with (String "[" ((body +:+ "]") +:+ post)).
    by rewrite !append_assoc.
Qed.


Lemma prefix_refl_append (s t : string) : String.prefix s (s +:+ t) = true.
Proof.
  induction s as [|a s IH]; [by destruct t|].
  change (String a s +:+ t) with (String a (s +:+ t)). cbn [String.prefix].
  by destruct (Ascii.ascii_dec a a).
Qed.

Lemma length_append (s t : string) :
  String.length (s +:+ t) = (String.length s + String.length t)%nat.
Proof.
  induction s as [|a s IH]; [done|].
  change (String a s +:+ t) with (String a (s +:+ t)). cbn [String.length]. by rewrite IH.
Qed.

Lemma substring_all (s : string) : String.substring 0 (String.length s) s = s.
Proof. induction s as [|a s IH]; [done|]. cbn [String.length String.substring]. by rewrite IH. Qed.

Lemma substring_append (s t : string) :
  String.substring (String.length s) (String.length (s +:+ t) - String.length s) (s +:+ t) = t.
Proof.
  rewrite length_append. replace (_ + _ - _)%nat with (String.length t) by lia.
  induction s as [|a s IH]; [apply substring_all|].
  change (String a s +:+ t) with (String a (s +:+ t)). exact IH.
Qed.

Lemma removeFences_id (steps : nat) (fence s : string) :
  JS.includes s fence = false -> GeminiService.removeFences steps fence s = s.
Proof.
  revert s. induction steps as [|steps IH]; intros s Hs; [done|].
  destruct s as [|c s]; [done|]. rewrite includes_cons in Hs.
  apply orb_false_iff in Hs as [Hp Hs]. cbn [GeminiService.removeFences].
  rewrite Hp. by rewrite IH.
Qed.

Lemma includes_first (c : ascii) (rest s : string) :
  JS.includes s (String c "") = false -> JS.includes s (String c rest) = false.
Proof.
  induction s as [|a s IH]; [done|]. rewrite includes_char_cons, includes_cons.
  intros [Ha Hs]%orb_false_iff. rewrite (IH Hs), orb_false_r.
  cbn [String.prefix]. destruct (Ascii.ascii_dec c a) as [<-|]; [|done].
  by rewrite Ascii.eqb_refl in Ha.
Qed.

Lemma includes_app_first (c : ascii) (rest s t : string) :
  JS.includes s (String c "") = false ->
  JS.includes (s +:+ t) (String c rest) = JS.includes t (String c rest).
Proof.
  induction s as [|a s IH]; [done|]. rewrite includes_char_cons.
  intros [Ha Hs]%orb_false_iff.
  change (String a s +:+ t) with (String a (s +:+ t)).
  rewrite includes_cons, (IH Hs). cbn [String.prefix].
  destruct (Ascii.ascii_dec c a) as [<-|]; [|done].
  by rewrite Ascii.eqb_refl in Ha.
Qed.

Lemma removeFences_skip (c : ascii) (rest s t : string) (steps : nat) :
  JS.includes s (String c "") = false ->
  GeminiService.removeFences (String.length s + steps) (String c rest) (s +:+ t)
  = s +:+ GeminiService.removeFences steps (String c rest) t.
Proof.
  induction s as [|a s IH]; [done|]. rewrite includes_char_cons.
  intros [Ha Hs]%orb_false_iff.
  change (String a s +:+ t) with (String a (s +:+ t)).
  cbn [String.length Nat.add GeminiService.removeFences String.prefix].
  destruct (Ascii.ascii_dec c a) as [<-|]; [by rewrite Ascii.eqb_refl in Ha|].
  by rewrite (IH Hs).
Qed.

Lemma replaceFence_id (c : ascii) (rest s : string) :
  JS.includes s (String c "") = false -> GeminiService.replaceFence (String c rest) s = s.
Proof. intros Hs. apply removeFences_id. by apply includes_first. Qed.

Lemma removeFences_open (steps : nat) (fence s : string) :
  fence ≠ "" ->
  GeminiService.removeFences (S steps) fence (fence +:+ String JS.LF s)
  = GeminiService.removeFences steps fence s.
Proof.
  intros Hne. destruct fence as [|c fence]; [done|].
  change (String c fence +:+ String JS.LF s) with (String c (fence +:+ String JS.LF s)).
  cbn [String.length GeminiService.removeFences].
  change (String c (fence +:+ String JS.LF s)) with (String c fence +:+ String JS.LF s).
  rewrite prefix_refl_append.
  change (S (String.length (fence +:+ String JS.LF s)))
    with (String.length (String c fence +:+ String JS.LF s)).
  change (S (String.length fence)) with (String.length (String c fence)).
  by rewrite substring_append, Ascii.eqb_refl.
Qed.

Lemma replaceFence_open (fence s : string) :
  JS.includes s fence = false ->
  GeminiService.replaceFence fence (fence +:+ String JS.LF s) = s.
Proof.
  intros Hs. assert (fence ≠ "") as Hne by (intros ->; by destruct s).
  unfold GeminiService.replaceFence. rewrite length_append.
  destruct fence as [|c fence]; [done|]. cbn [String.length Nat.add].
  rewrite removeFences_open by done. by apply removeFences_id.
Qed.

Lemma replaceFence_close (body : string) :
  JS.includes body "`" = false ->
  GeminiService.replaceFence "```" (body +:+ String JS.LF "```") = body +:+ String JS.LF "".
Proof.
  intros Hbody. unfold GeminiService.replaceFence.
  rewrite length_append. by rewrite (removeFences_skip "`" "``" body _ _ Hbody).
Qed.

Lemma trimEnd_append (s t : string) (d : ascii) (t' : string) :
  JS.trimEnd t = String d t' -> JS.trimEnd (s +:+ t) = s +:+ JS.trimEnd t.
Proof.
  intros Ht. induction s as [|a s IH]; [done|].
  change (String a s +:+ t) with (String a (s +:+ t)). cbn [JS.trimEnd].
  rewrite IH, Ht. by destruct s.
Qed.

Lemma trimEnd_blank (s t : string) : JS.trimEnd t = "" -> JS.trimEnd (s +:+ t) = JS.trimEnd s.
Proof.
  intros Ht. induction s as [|a s IH]; [done|].
  change (String a s +:+ t) with (String a (s +:+ t)). cbn [JS.trimEnd]. by rewrite IH.
Qed.

Lemma trimStart_append (s t : string) :
  JS.trimStart (s +:+ t)
  = match JS.trimStart s with
    | "" => JS.trimStart t
    | u => u +:+ t
    end.
Proof.
  induction s as [|a s IH]; [done|].
  change (String a s +:+ t) with (String a (s +:+ t)). cbn [JS.trimStart].
  by destruct (JS.isWhiteSpace a).
Qed.

Lemma trim_line (s : string) : JS.trim (s +:+ String JS.LF "") = JS.trim s.
Proof.
  unfold JS.trim. rewrite trimStart_append.
  destruct (JS.trimStart s) as [|a u]; [done|]. by rewrite trimEnd_blank.
Qed.

Lemma trimEnd_trimEnd (s : string) : JS.trimEnd (JS.trimEnd s) = JS.trimEnd s.
Proof.
  induction s as [|a s IH]; [done|]. cbn [JS.trimEnd].
  destruct (JS.trimEnd s) as [|b t] eqn:Ht.
  - destruct (JS.isWhiteSpace a) eqn:Ha; [done|]. cbn [JS.trimEnd]. by rewrite Ha.
  - cbn [JS.trimEnd]. cbn [JS.trimEnd] in IH. by rewrite IH.
Qed.

Lemma trimStart_head (s : string) :
  match JS.trimStart s with
  | "" => True
  | String a _ => JS.isWhiteSpace a = false
  end.
Proof.
  induction s as [|a s IH]; [done|]. cbn [JS.trimStart].
  by destruct (JS.isWhiteSpace a) eqn:Ha.
Qed.

Lemma trim_trim (s : string) : JS.trim (JS.trim s) = JS.trim s.
Proof.
  unfold JS.trim. pose proof (trimStart_head s) as Hhead.
  destruct (JS.trimStart s) as [|a u]; [done|].
  assert (JS.trimStart (JS.trimEnd (String a u)) = JS.trimEnd (String a u)) as ->.
  { cbn [JS.trimEnd]. destruct (JS.trimEnd u); rewrite ?Hhead; cbn [JS.trimStart];
      by rewrite Hhead. }
  apply trimEnd_trimEnd.
Qed.

Lemma trimStart_char (c : ascii) (s : string) :
  JS.isWhiteSpace c = false ->
  JS.includes (JS.trimStart s) (String c "") = JS.includes s (String c "").
Proof.
  intros Hc. induction s as [|a s IH]; [done|]. cbn [JS.trimStart].
  destruct (JS.isWhiteSpace a) eqn:Hws; [|done].
  rewrite IH, includes_char_cons.
  assert (Ascii.eqb a c = false) as ->; [|done].
  apply Ascii.eqb_neq. intros ->. congruence.
Qed.

Lemma trimEnd_char (c : ascii) (s : string) :
  JS.isWhiteSpace c = false ->
  JS.includes (JS.trimEnd s) (String c "") = JS.includes s (String c "").
Proof.
  intros Hc. induction s as [|a s IH]; [done|]. cbn [JS.trimEnd].
  rewrite (includes_char_cons a c s), <- IH.
  destruct (JS.trimEnd s) as [|d t].
  - destruct (JS.isWhiteSpace a) eqn:Hws.
    + assert (Ascii.eqb a c = false) as ->; [|done].
      apply Ascii.eqb_neq. intros ->. congruence.
    + by rewrite includes_char_cons.
  - by rewrite includes_char_cons.
Qed.

Lemma trim_char (c : ascii) (s : string) :
  JS.isWhiteSpace c = false ->
  JS.includes (JS.trim s) (String c "") = JS.includes s (String c "").
Proof. intros Hc. unfold JS.trim. by rewrite trimEnd_char, trimStart_char. Qed.

Lemma trim_fenced (fence body : string) (c : ascii) (rest : string) :
  fence = String c rest -> JS.isWhiteSpace c = false ->
  JS.trim (fenced fence body) = fenced fence body.
Proof.
  intros -> Hc. unfold JS.trim, fenced.
  change (String c rest +:+ String JS.LF (body +:+ String JS.LF "```"))
    with (String c (rest +:+ String JS.LF (body +:+ String JS.LF "```"))).
  cbn [JS.trimStart]. rewrite Hc.
  assert (String c (rest +:+ String JS.LF (body +:+ String JS.LF "```"))
          = (String c rest +:+ String JS.LF (body +:+ String JS.LF "")) +:+ "```") as ->.
  { rewrite append_assoc.
    change (String JS.LF (body +:+ String JS.LF "") +:+ "```")
      with (String JS.LF ((body +:+ String JS.LF "") +:+ "```")).
    by rewrite append_assoc. }
  by rewrite (trimEnd_append _ "```" "`" "``").
Qed.

Lemma replaceFence_both (body : string) :
  JS.includes body "`" = false ->
  GeminiService.replaceFence "```" ("```" +:+ String JS.LF (body +:+ String JS.LF "```"))
  = body +:+ String JS.LF "".
Proof.
  intros Hbody. unfold GeminiService.replaceFence.
  rewrite length_append. cbn [String.length Nat.add].
  rewrite removeFences_open by done. rewrite length_append. cbn [String.length].
  match goal with
  | |- context [GeminiService.removeFences ?n _ (body +:+ _)] =>
      replace n with (String.length body + 7)%nat by lia
  end.
  by rewrite (removeFences_skip "`" "``" body _ _ Hbody).
Qed.

Lemma cleaned_fenced (fence body : string) :
  fence = "```json" ∨ fence = "```" ->
  JS.includes body "`" = false ->
  JS.trim (GeminiService.replaceFence "```"
             (GeminiService.replaceFence "```json" (JS.trim (fenced fence body))))
  = JS.trim body.
Proof.
  intros Hfence Hbody.
  rewrite (trim_fenced fence body "`" (match fence with String _ r => r | "" => "" end))
    by (destruct Hfence as [->| ->]; done).
  assert (JS.includes (body +:+ String JS.LF "```") "```json" = false) as Hrest.
  { by rewrite (includes_app_first "`" "``json" body _ Hbody). }
  destruct Hfence as [->| ->]; unfold fenced.
  - rewrite (replaceFence_open "```json" _ Hrest).
    by rewrite (replaceFence_close body Hbody), trim_line.
  - unfold GeminiService.replaceFence at 2. rewrite removeFences_id.
    2: { change ("```" +:+ String JS.LF (body +:+ String JS.LF "```"))
           with (String "`" (String "`" (String "`" (String JS.LF
                   (body +:+ String JS.LF "```"))))).
         rewrite !includes_cons, Hrest. reflexivity. }
    by rewrite (replaceFence_both body Hbody), trim_line.
Qed.

Lemma cleaned_bare (body : string) :
  JS.includes body "`" = false ->
  JS.trim (GeminiService.replaceFence "```"
             (GeminiService.replaceFence "```json" (JS.trim body)))
  = JS.trim body.
Proof.
  intros Hbody.
  assert (JS.includes (JS.trim body) "`" = false) as Htrim by (by rewrite trim_char).
  by rewrite (replaceFence_id "`" "``json" _ Htrim), (replaceFence_id "`" "``" _ Htrim),
    trim_trim.
Qed.

(** X9. An answer of the backend that puts the array in a fenced block,
    opened by [```json] or by [```], is read as the array alone: the plan
    and the warnings are those of the answer without the fences, whenever
    the body has no backtick of its own. *)
Theorem fenced_answer_is_read_as_the_bare_one `{R : Runtime} (svc1 svc2 : GeminiService.t)
    (userRequest : string) (clarificationAnswers : list string)
    (codebaseContext : option CodebaseContext) (fence body : string) :
  let prompt := GeminiService.PlanPrompt codebaseContext userRequest clarificationAnswers in
  fence = "```json" ∨ fence = "```" ->
  JS.includes body "`" = false ->
  GeminiService.generateContent svc1 prompt = Ok (fenced fence body) ->
  GeminiService.generateContent svc2 prompt = Ok body ->
  GeminiService.tryGeneratePlan svc1 userRequest clarificationAnswers codebaseContext
  = GeminiService.tryGeneratePlan svc2 userRequest clarificationAnswers codebaseContext
  ∧ (GeminiService.ensureInitialized svc1 = GeminiService.ensureInitialized svc2 ->
     GeminiService.generatePlan svc1 userRequest clarificationAnswers codebaseContext
     = GeminiService.generatePlan svc2 userRequest clarificationAnswers codebaseContext).
Proof.
  intros prompt Hfence Hbody H1 H2.
  assert (GeminiService.tryGeneratePlan svc1 userRequest clarificationAnswers codebaseContext
          = GeminiService.tryGeneratePlan svc2 userRequest clarificationAnswers
              codebaseContext) as Htry.
  { unfold GeminiService.tryGeneratePlan. fold prompt. rewrite H1, H2. cbv zeta.
    by rewrite (cleaned_fenced fence body Hfence Hbody), (cleaned_bare body Hbody). }
  split; [exact Htry|]. intros Hinit. unfold GeminiService.generatePlan.
  by rewrite Hinit, Htry.
Qed.

(** The fenced answer of the blank backend and the same array bare. *)
Lemma fenced_answer_is_read_as_the_bare_one_witness :
  @GeminiService.generatePlan Examples.runtime Examples.blankBackend Examples.request []
    None
  = @GeminiService.generatePlan Examples.runtime Examples.bareBackend Examples.request [] None.
Proof.
  apply (@fenced_answer_is_read_as_the_bare_one Examples.runtime Examples.blankBackend
           Examples.bareBackend Examples.request [] None "```json" Examples.blankJson).
  - left. reflexivity.
  - reflexivity.
  - reflexivity.
  - reflexivity.
  - reflexivity.
Defined.

(** ** More on the workflow engine *)

(** X10. A start is refused without any effect (no write, no message, no
    call of the adapter) when the workflow is not idle, when the input box
    is dismissed, or when the trimmed request has fewer than ten
    characters. *)
Theorem start_refused_changes_nothing (svc : GenerationAdapter.t) (typed : option string)
    (w : World PlannerProvider.t) :
  phase (PlannerProvider.workflowState (this w)) ≠ idle
  ∨ typed = None
  ∨ (∃ v, typed = Some v ∧ (String.length (JS.trim v) < 10)%nat) ->
  PlannerProvider.generatePlan svc typed w = (Ok (), w).
Proof.
  intros [H|[->|(v & -> & Hshort)]]; apply generatePlan_ignored; [by left|by right|].
  right. unfold acceptedRequest, PlannerProvider.validateRequest.
  apply Nat.ltb_lt in Hshort. by rewrite Hshort, orb_true_r.
Qed.

(** Six characters between blanks are not a request. *)
Lemma start_refused_changes_nothing_witness :
  PlannerProvider.generatePlan Examples.failingAdapter (Some "  Add it   ") Examples.fresh
  = (Ok (), Examples.fresh).
Proof.
  apply (start_refused_changes_nothing Examples.failingAdapter (Some "  Add it   ")
           Examples.fresh).
  right. right. exists "  Add it   ". split; [reflexivity|]. vm_compute. lia.
Defined.

Lemma validateRequest_length (v : string) :
  PlannerProvider.validateRequest v = None -> (10 ≤ String.length (JS.trim v))%nat.
Proof.
  unfold PlannerProvider.validateRequest.
  destruct (String.eqb v ""); [done|]. cbn [orb].
  destruct (String.length (JS.trim v) <? 10)%nat eqn:Hlen; [done|].
  intros _. by apply Nat.ltb_ge in Hlen.
Qed.

(** X11. A start that goes through: the request is stored trimmed, the
    adapter is called once with the request as typed and no context, and
    the provider ends in the clarification phase with the questions and no
    answer, stored as such. Two states are written: the one without the
    questions, then the final one. *)
Theorem start_stores_the_questions (svc : GenerationAdapter.t) (v : string)
    (questions : list string) (w : World PlannerProvider.t) :
  let s := PlannerProvider.workflowState (this w) in
  let m := PlannerProvider.generatePlan svc (Some v) in
  let started := {| phase := clarification;
                    userRequest := JS.trim v;
                    clarificationQuestions := questions;
                    clarificationAnswers := [];
                    plan := plan s |} in
  phase s = idle ->
  PlannerProvider.validateRequest v = None ->
  snd (GenerationAdapter.generateClarificationQuestions svc v None) = Ok questions ->
  questions ≠ [] ->
  returned m w = Ok ()
  ∧ PlannerProvider.workflowState (this (exec m w)) = started
  ∧ PlannerProvider.workspaceState (this (exec m w)) !! PlannerProvider.WORKFLOW_STATE_KEY
    = Some started
  ∧ writes (during m w) = [startInProgress v s; started]
  ∧ generationCalls (during m w) = [EvClarification v None]
  ∧ (10 ≤ String.length (userRequest started))%nat.
Proof.
  intros s m started Hidle Hvalid Hq Hne. subst m.
  pose proof (generatePlan_run svc v w Hidle Hvalid) as Hrun. cbv beta zeta in Hrun.
  rewrite Hq in Hrun. destruct questions as [|q qs]; [done|].
  unfold returned, exec.
  assert (during (PlannerProvider.generatePlan svc (Some v)) w
          = [EvUpdate PlannerProvider.WORKFLOW_STATE_KEY (startInProgress v s); EvFire;
             EvNotify (Information
               "🤔 Analyzing your request and generating clarification questions...");
             EvClarification v None]
            ++ map EvNotify (fst (GenerationAdapter.generateClarificationQuestions svc v None))
            ++ [EvUpdate PlannerProvider.WORKFLOW_STATE_KEY started; EvFire;
                EvNotify (Information
                  ("Generated " +:+ JS.ofNat (length (q :: qs))
                   +:+ " clarification questions. Please answer them to proceed."))]) as Hd.
  { apply during_eq. unfold exec. rewrite Hrun. cbn [snd trace].
    by rewrite <- !app_assoc. }
  rewrite Hd, Hrun. cbn [fst snd this PlannerProvider.workflowState
                          PlannerProvider.workspaceState].
  split; [done|]. split; [done|]. split; [apply lookup_insert_eq|].
  split; [by read_trace|]. split; [by read_trace|].
  by apply validateRequest_length.
Qed.

(** The start of the end-to-end scenario. *)
Lemma start_stores_the_questions_witness :
  clarificationQuestions (PlannerProvider.workflowState (this Examples.started))
  = Spec.authQuestions.
Proof.
  destruct (start_stores_the_questions
              (@GenerationAdapter.gemini Examples.runtime Examples.offline)
              Examples.request Spec.authQuestions Examples.fresh) as (_ & Hs & _).
  - reflexivity.
  - reflexivity.
  - reflexivity.
  - discriminate.
  - unfold Examples.started. cbv zeta in Hs. rewrite Hs. reflexivity.
Defined.

Lemma applyEntries_trace (fm : FileManipulator.t) (entries : list (nat * PlanItem))
    (successCount : nat) (w : World PlannerProvider.t) :
  PlannerProvider.applyEntries fm entries successCount w
  = (Ok (successCount + length (List.filter (fun e => negb (fails fm e)) entries))%nat,
     {| this := this w;
        trace := trace w
                 ++ concat (map (applyTrace fm
                                   (length (plan (PlannerProvider.workflowState (this w)))))
                              entries) |}).
Proof.
  revert successCount w.
  induction entries as [|[index planItem] entries IH]; intros successCount [p tr].
  - unfold PlannerProvider.applyEntries. run. cbn [map concat length List.filter].
    by rewrite app_nil_r, Nat.add_0_r.
  - cbn [PlannerProvider.applyEntries]. run.
    rewrite await_run. cbn [this trace map fst snd List.filter concat].
    unfold applyTrace at 1. cbn [fst snd].
    destruct (FileManipulator.applyPlanItem fm index planItem) as [[]|e] eqn:Happly.
    + assert (fails fm (index, planItem) = false) as ->
        by (unfold fails; cbn [fst snd]; by rewrite Happly).
      cbn [negb length].
      destruct (3 <? length (plan (PlannerProvider.workflowState p)))%nat; run;
        rewrite IH; cbn [this trace];
        (f_equal; [f_equal; lia|]); f_equal; by rewrite <- !app_assoc.
    + assert (fails fm (index, planItem) = true) as ->
        by (unfold fails; cbn [fst snd]; by rewrite Happly).
      cbn [negb]. run. rewrite IH. cbn [this trace].
      f_equal. f_equal. by rewrite <- !app_assoc.
Qed.

(** X12. A confirmed execution hands every item of the plan to the file
    manipulator, in order, whatever the earlier items did: a failure is
    reported and the next item is applied. The messages are exactly those
    of [executeTrace]; the workflow is reset and stored once, at the end,
    also when items failed; the report counts the items that did not
    fail. *)
Theorem execute_is_best_effort (fm : FileManipulator.t) (w : World PlannerProvider.t) :
  let s := PlannerProvider.workflowState (this w) in
  let N := length (plan s) in
  let k := length (failures fm (plan s)) in
  let m := PlannerProvider.executeToIDE fm (Some "Yes, Execute Plan") in
  phase s = ready ->
  plan s ≠ [] ->
  returned m w = Ok ()
  ∧ during m w = executeTrace fm (plan s)
  ∧ applied (during m w) = plan s
  ∧ writes (during m w) = [PlannerProvider.emptyState]
  ∧ this (exec m w)
    = {| PlannerProvider.workflowState := PlannerProvider.emptyState;
         PlannerProvider.workspaceState :=
           <[PlannerProvider.WORKFLOW_STATE_KEY := PlannerProvider.emptyState]>
             (PlannerProvider.workspaceState (this w)) |}
  ∧ (k ≤ N)%nat
  ∧ (k = 0%nat ->
     EvNotify (Information ("Execution completed! Successfully applied "
                            +:+ JS.ofNat N +:+ "/" +:+ JS.ofNat N +:+ " file changes."))
     ∈ during m w).
Proof.
  destruct w as [[s st] tr]. cbv zeta.
  cbn [this trace PlannerProvider.workflowState PlannerProvider.workspaceState].
  intros Hp Hne.
  assert (PlannerProvider.executeToIDE fm (Some "Yes, Execute Plan")
            {| this := {| PlannerProvider.workflowState := s;
                          PlannerProvider.workspaceState := st |}; trace := tr |}
          = (Ok (),
             {| this := {| PlannerProvider.workflowState := PlannerProvider.emptyState;
                           PlannerProvider.workspaceState :=
                             <[PlannerProvider.WORKFLOW_STATE_KEY :=
                                 PlannerProvider.emptyState]> st |};
                trace := tr ++ executeTrace fm (plan s) |})) as Hrun.
  { unfold PlannerProvider.executeToIDE. run.
    rewrite Hp, bool_decide_eq_true_2 by done. cbn [negb orb].
    assert ((length (plan s) =? 0)%nat = false) as ->.
    { apply Nat.eqb_neq. by destruct (plan s). }
    run. rewrite bool_decide_eq_true_2 by done. cbn [negb]. run.
    rewrite applyEntries_trace.
    cbn [this trace PlannerProvider.workflowState PlannerProvider.workspaceState].
    rewrite filter_negb_length, entries_length. cbn [Nat.add].
    unfold executeTrace, failures. f_equal. f_equal. by rewrite <- !app_assoc. }
  assert (during (PlannerProvider.executeToIDE fm (Some "Yes, Execute Plan"))
            {| this := {| PlannerProvider.workflowState := s;
                          PlannerProvider.workspaceState := st |}; trace := tr |}
          = executeTrace fm (plan s)) as Hd.
  { apply during_eq. unfold exec. by rewrite Hrun. }
  assert (∀ entries total, applied (concat (map (applyTrace fm total) entries))
                           = map snd entries
                           ∧ writes (concat (map (applyTrace fm total) entries)) = [])
    as Hentries.
  { intros entries total. induction entries as [|[i item] entries [IH1 IH2]]; [done|].
    cbn [map concat]. rewrite applied_app, writes_app, IH1, IH2.
    unfold applyTrace. cbn [fst snd].
    destruct (FileManipulator.applyPlanItem fm i item); [destruct (3 <? total)%nat|]; done. }
  unfold returned, exec. rewrite Hd, Hrun. cbn [fst snd this].
  split; [done|]. split; [done|]. split; [|split; [|split; [done|split]]].
  - unfold executeTrace. cbv zeta. rewrite !applied_app.
    rewrite (proj1 (Hentries _ _)), entries_snd. cbn. by rewrite app_nil_r.
  - unfold executeTrace. cbv zeta. rewrite !writes_app.
    by rewrite (proj2 (Hentries _ _)).
  - unfold failures. rewrite <- (entries_length (plan s)). apply List.filter_length_le.
  - intros Hk. unfold executeTrace. cbv zeta. rewrite Hk, Nat.sub_0_r.
    rewrite !elem_of_app. right. right. apply list_elem_of_here.
Qed.

(** Six items of which the second fails: seventeen events, one write. *)
Lemma execute_is_best_effort_witness :
  let m := PlannerProvider.executeToIDE Examples.secondFails (Some "Yes, Execute Plan") in
  length (during m Examples.planned) = 17%nat
  ∧ writes (during m Examples.planned) = [PlannerProvider.emptyState].
Proof.
  cbv zeta.
  destruct (execute_is_best_effort Examples.secondFails Examples.planned)
    as (_ & Htrace & _ & Hwrites & _).
  - reflexivity.
  - discriminate.
  - split; [|exact Hwrites]. cbv zeta in Htrace. rewrite Htrace. vm_compute. reflexivity.
Defined.

(** X13. Without a plan that is ready, or without the confirmation, an
    execution shows one warning and does nothing else: no file is touched,
    nothing is written, the provider is unchanged. *)
Theorem execute_needs_plan_and_confirmation (fm : FileManipulator.t) (picked : option string)
    (w : World PlannerProvider.t) :
  let s := PlannerProvider.workflowState (this w) in
  let m := PlannerProvider.executeToIDE fm picked in
  phase s ≠ ready ∨ plan s = [] ∨ picked ≠ Some "Yes, Execute Plan" ->
  returned m w = Ok ()
  ∧ this (exec m w) = this w
  ∧ (∃ message, during m w = [EvNotify (Warning message)])
  ∧ applied (during m w) = []
  ∧ writes (during m w) = [].
Proof.
  destruct w as [[s st] tr]. cbv zeta. cbn [this PlannerProvider.workflowState]. intros H.
  unfold during, returned, exec, PlannerProvider.executeToIDE. run.
  destruct (decide (phase s = ready)) as [Hp|Hp].
  2: { rewrite bool_decide_eq_false_2 by done. cbn [negb orb fst snd this trace].
       rewrite drop_app_length. repeat split; try done. by eexists. }
  rewrite bool_decide_eq_true_2 by done. cbn [negb orb].
  destruct (plan s) as [|i l] eqn:Hplan.
  { cbn [length Nat.eqb fst snd this trace]. rewrite drop_app_length.
    repeat split; try done. by eexists. }
  cbn [length Nat.eqb]. run.
  destruct H as [H|[H|H]]; [done|done|].
  rewrite bool_decide_eq_false_2 by done. cbn [negb fst snd this trace].
  rewrite drop_app_length. repeat split; try done. by eexists.
Qed.

(** The confirmation is cancelled. *)
Lemma execute_needs_plan_and_confirmation_witness :
  applied (during (PlannerProvider.executeToIDE Examples.secondFails (Some "Cancel"))
             Examples.planned) = []
  ∧ this (exec (PlannerProvider.executeToIDE Examples.secondFails (Some "Cancel"))
            Examples.planned) = this Examples.planned.
Proof.
  pose proof (execute_needs_plan_and_confirmation Examples.secondFails (Some "Cancel")
                Examples.planned) as H.
  cbv zeta in H. destruct H as (_ & Hthis & _ & Happ & _).
  - right. right. discriminate.
  - split; [exact Happ|exact Hthis].
Defined.

(** X14. A confirmed restart replaces the state by the empty one, in the
    provider and in the storage, whatever the phase; a restart that is not
    confirmed changes nothing. *)
Theorem restart_clears_everything (picked : option string) (w : World PlannerProvider.t) :
  let m := PlannerProvider.restartWorkflow picked in
  returned m w = Ok ()
  ∧ (picked = Some "Yes, Restart" ->
     this (exec m w)
     = {| PlannerProvider.workflowState := PlannerProvider.emptyState;
          PlannerProvider.workspaceState :=
            <[PlannerProvider.WORKFLOW_STATE_KEY := PlannerProvider.emptyState]>
              (PlannerProvider.workspaceState (this w)) |}
     ∧ writes (during m w) = [PlannerProvider.emptyState])
  ∧ (picked ≠ Some "Yes, Restart" ->
     this (exec m w) = this w ∧ writes (during m w) = []).
Proof.
  destruct w as [[s st] tr]. cbv zeta.
  unfold during, returned, exec, PlannerProvider.restartWorkflow. run.
  destruct (decide (picked = Some "Yes, Restart")) as [->|Hne].
  - rewrite bool_decide_eq_true_2 by done. run. cbn [fst snd this trace].
    split; [done|]. split; [|done]. intros _. split; [done|].
    rewrite <- !app_assoc, drop_app_length. done.
  - rewrite bool_decide_eq_false_2 by done. cbn [fst snd this trace].
    split; [done|]. split; [done|]. intros _. split; [done|].
    rewrite drop_app_length. done.
Qed.

(** X15. A submission before every question is answered shows one
    warning and does nothing else: the adapter is not called and nothing
    is written. *)
Theorem submit_with_missing_answers_only_warns (svc : GenerationAdapter.t)
    (w : World PlannerProvider.t) :
  let s := PlannerProvider.workflowState (this w) in
  let m := PlannerProvider.submitClarification svc in
  phase s = clarification ->
  length (clarificationAnswers s) ≠ length (clarificationQuestions s) ->
  returned m w = Ok ()
  ∧ this (exec m w) = this w
  ∧ during m w = [EvNotify (Warning "Please answer all clarification questions first.")]
  ∧ generationCalls (during m w) = []
  ∧ writes (during m w) = [].
Proof.
  intros s m Hp Hne. subst m.
  pose proof (submitClarification_partial svc w Hp Hne) as Hrun.
  assert (during (PlannerProvider.submitClarification svc) w
          = [EvNotify (Warning "Please answer all clarification questions first.")]) as Hd.
  { apply during_eq. unfold exec. by rewrite Hrun. }
  unfold returned, exec. rewrite Hd, Hrun. by repeat split.
Qed.

(** Right after the start, no question is answered. *)
Lemma submit_with_missing_answers_only_warns_witness :
  this (exec (PlannerProvider.submitClarification Examples.failingAdapter) Examples.started)
  = this Examples.started.
Proof.
  apply (submit_with_missing_answers_only_warns Examples.failingAdapter Examples.started).
  - vm_compute. reflexivity.
  - vm_compute. discriminate.
Defined.

(** X16. A submission that goes through: the adapter is called once with
    the stored request, the answers and no context, and the provider ends
    in the ready phase with the plan, request, questions and answers
    unchanged, stored as such. Two states are written: the one in the
    planning phase, then the final one. *)
Theorem submit_stores_the_plan (svc : GenerationAdapter.t) (newPlan : list PlanItem)
    (w : World PlannerProvider.t) :
  let s := PlannerProvider.workflowState (this w) in
  let m := PlannerProvider.submitClarification svc in
  let finished := {| phase := ready;
                 userRequest := userRequest s;
                 clarificationQuestions := clarificationQuestions s;
                 clarificationAnswers := clarificationAnswers s;
                 plan := newPlan |} in
  phase s = clarification ->
  length (clarificationAnswers s) = length (clarificationQuestions s) ->
  snd (GenerationAdapter.generatePlan svc (userRequest s) (clarificationAnswers s) None)
  = Ok newPlan ->
  newPlan ≠ [] ->
  returned m w = Ok ()
  ∧ PlannerProvider.workflowState (this (exec m w)) = finished
  ∧ PlannerProvider.workspaceState (this (exec m w)) !! PlannerProvider.WORKFLOW_STATE_KEY
    = Some finished
  ∧ writes (during m w) = [PlannerProvider.set_phase planning s; finished]
  ∧ generationCalls (during m w)
    = [EvPlan (userRequest s) (clarificationAnswers s) None].
Proof.
  intros s m done Hp Hlen Hplan Hne. subst m.
  pose proof (submitClarification_run svc w Hp Hlen) as Hrun. cbv beta zeta in Hrun.
  fold s in Hrun. rewrite Hplan in Hrun. destruct newPlan as [|i rest]; [done|].
  unfold returned, exec.
  assert (during (PlannerProvider.submitClarification svc) w
          = [EvUpdate PlannerProvider.WORKFLOW_STATE_KEY (PlannerProvider.set_phase planning s);
             EvFire;
             EvNotify (Information "Generating detailed implementation plan...");
             EvPlan (userRequest s) (clarificationAnswers s) None]
            ++ map EvNotify (fst (GenerationAdapter.generatePlan svc (userRequest s)
                                    (clarificationAnswers s) None))
            ++ [EvUpdate PlannerProvider.WORKFLOW_STATE_KEY done; EvFire;
                EvNotify (Information
                  ("Implementation plan generated successfully! "
                   +:+ JS.ofNat (length (i :: rest))
                   +:+ " file changes ready for execution."))]) as Hd.
  { apply during_eq. unfold exec. rewrite Hrun. cbn [snd trace].
    by rewrite <- !app_assoc. }
  rewrite Hd, Hrun. cbn [fst snd this PlannerProvider.workflowState
                          PlannerProvider.workspaceState].
  split; [done|]. split; [done|]. split; [apply lookup_insert_eq|].
  split; by read_trace.
Qed.

(** The submission of the end-to-end scenario. *)
Lemma submit_stores_the_plan_witness :
  plan (PlannerProvider.workflowState (this Examples.planned)) = Spec.authPlan.
Proof.
  destruct (submit_stores_the_plan
              (@GenerationAdapter.gemini Examples.runtime Examples.offline)
              Spec.authPlan Examples.answered) as (_ & Hs & _).
  - reflexivity.
  - reflexivity.
  - reflexivity.
  - discriminate.
  - unfold Examples.planned. cbv zeta in Hs. rewrite Hs. reflexivity.
Defined.

Lemma savedAs_settled (strict : bool) (s : WorkflowState) (p : PlannerProvider.t) :
  shape strict s -> savedAs s p -> settled strict p.
Proof. intros Hwf [Hs Hst]. split; [by rewrite Hs|]. left. by rewrite Hs. Qed.

Lemma generatePlan_settled (strict : bool) (svc : GenerationAdapter.t)
    (typed : option string) (w : World PlannerProvider.t) :
  settled strict (this w) ->
  settled strict (this (exec (PlannerProvider.generatePlan svc typed) w)).
Proof.
  intros Hset.
  destruct (decide (phase (PlannerProvider.workflowState (this w)) = idle)) as [Hidle|Hidle].
  2: { unfold exec. rewrite generatePlan_ignored; [done|by left]. }
  destruct (acceptedRequest typed) as [v|] eqn:Hacc.
  2: { unfold exec. rewrite generatePlan_ignored; [done|by right]. }
  assert (typed = Some v ∧ PlannerProvider.validateRequest v = None) as [-> Hvalid].
  { unfold acceptedRequest in Hacc. destruct typed as [v'|]; [|done].
    destruct (PlannerProvider.validateRequest v') eqn:Hv; [done|].
    by injection Hacc as ->. }
  assert (plan (PlannerProvider.workflowState (this w)) = []) as Hplan.
  { destruct Hset as [Hwf _]. unfold shape in Hwf. rewrite Hidle in Hwf. tauto. }
  pose proof (validateRequest_length v Hvalid) as Hlen.
  pose proof (generatePlan_run svc v w Hidle Hvalid) as Hrun. cbv beta zeta in Hrun.
  unfold exec. rewrite Hrun.
  destruct (snd (GenerationAdapter.generateClarificationQuestions svc v None))
    as [[|q qs]|e]; cbn [snd this];
    (eapply savedAs_settled;
     [|split; [reflexivity|cbn [PlannerProvider.workspaceState]; apply lookup_insert_eq]]);
    unfold shape; cbn; rewrite ?Hplan; repeat split; try done; lia.
Qed.

Lemma answerNextQuestion_settled (strict : bool) (typed : option string)
    (w : World PlannerProvider.t) :
  settled strict (this w) ->
  settled strict (this (exec (PlannerProvider.answerNextQuestion typed) w)).
Proof.
  intros Hset.
  destruct (answerNextQuestion_this typed w) as [->|(a & Hlt & Hs)]; [done|].
  destruct (answerNextQuestion_cases typed w) as [[Hnoop _]|(a' & _ & Hp & _)].
  { unfold exec. by rewrite Hnoop. }
  eapply savedAs_settled; [|exact Hs].
  destruct Hset as [Hwf _]. unfold shape in *. rewrite Hp in Hwf. cbn.
  rewrite Hp. destruct Hwf as (Hq & _ & Hpl & Hr). repeat split; try done.
  rewrite length_app. cbn [length]. lia.
Qed.

Lemma submitClarification_settled (strict : bool) (svc : GenerationAdapter.t)
    (w : World PlannerProvider.t) :
  settled strict (this w) ->
  settled strict (this (exec (PlannerProvider.submitClarification svc) w)).
Proof.
  intros Hset. set (s := PlannerProvider.workflowState (this w)).
  destruct (decide (phase s = clarification)) as [Hp|Hp].
  2: { unfold exec. by rewrite submitClarification_ignored. }
  destruct (decide (length (clarificationAnswers s) = length (clarificationQuestions s)))
    as [Hlen|Hlen].
  2: { unfold exec. by rewrite (submitClarification_partial svc w Hp Hlen). }
  pose proof (submitClarification_run svc w Hp Hlen) as Hrun. cbv beta zeta in Hrun.
  fold s in Hrun. unfold exec. rewrite Hrun.
  destruct Hset as [Hwf _]. fold s in Hwf.
  assert ((strict = true -> clarificationQuestions s ≠ [])
          ∧ (10 ≤ String.length (userRequest s))%nat) as [Hq Hr].
  { unfold shape in Hwf. rewrite Hp in Hwf. tauto. }
  destruct (snd (GenerationAdapter.generatePlan svc (userRequest s)
                   (clarificationAnswers s) None))
    as [[|i rest]|e]; cbn [snd this];
    (eapply savedAs_settled;
     [|split; [reflexivity|cbn [PlannerProvider.workspaceState]; apply lookup_insert_eq]]);
    try exact Hwf.
  unfold shape. cbn. by repeat split.
Qed.

Lemma emptyState_shape (strict : bool) : shape strict PlannerProvider.emptyState.
Proof. unfold shape. cbn. by repeat split. Qed.

(** A shape that holds strictly holds. *)
Lemma shape_weaken (strict : bool) (s : WorkflowState) : shape strict s -> shape false s.
Proof.
  unfold shape. destruct (phase s); [done| | |].
  - intros (_ & H). by split.
  - intros (-> & H). by split.
  - intros (_ & H). by split.
Qed.

(** A new provider on a storage whose state has its shape. *)
Lemma constructor_settled (strict : bool) (storage : gmap string WorkflowState) :
  (∀ s, storage !! PlannerProvider.WORKFLOW_STATE_KEY = Some s -> shape strict s) ->
  settled strict (this (PlannerProvider.constructor storage)).
Proof.
  intros Hst. rewrite constructor_this.
  destruct (storage !! PlannerProvider.WORKFLOW_STATE_KEY) as [s|] eqn:Hs; cbn [default].
  - split; [by apply Hst|]. by left.
  - split; [apply emptyState_shape|]. by right.
Qed.

Lemma settled_stored (strict : bool) (p : PlannerProvider.t) (s : WorkflowState) :
  settled strict p ->
  PlannerProvider.workspaceState p !! PlannerProvider.WORKFLOW_STATE_KEY = Some s ->
  shape strict s.
Proof. intros [Hwf [Hsync|[Hnone _]]] Hs; congruence. Qed.

(** A command that runs to its end keeps the shape; one that is cut short
    keeps it without its strict part. *)
Lemma dispatch_settled (strict : bool) (svc : GenerationAdapter.t) (fm : FileManipulator.t)
    (c : Command) (w : World PlannerProvider.t) :
  settled strict (this w) -> settled (strict && completes c) (this (dispatch svc fm c w)).
Proof.
  intros Hset.
  destruct c as [typed|typed| |picked|picked| |typed|]; cbn [dispatch completes];
    rewrite ?andb_true_r, ?andb_false_r.
  - by apply generatePlan_settled.
  - by apply answerNextQuestion_settled.
  - by apply submitClarification_settled.
  - destruct (executeToIDE_this fm picked w) as [->|Hs]; [done|].
    eapply savedAs_settled; [apply emptyState_shape|exact Hs].
  - destruct (restartWorkflow_this picked w) as [->|Hs]; [done|].
    eapply savedAs_settled; [apply emptyState_shape|exact Hs].
  - apply constructor_settled. intros s. by apply settled_stored.
  - rewrite closedDuringStart_run. cbv zeta. apply constructor_settled.
    assert (∀ s, PlannerProvider.workspaceState (this w)
                   !! PlannerProvider.WORKFLOW_STATE_KEY = Some s -> shape false s) as Hold.
    { intros s Hs. eapply shape_weaken, settled_stored; [exact Hset|exact Hs]. }
    case_bool_decide as Hidle; [|exact Hold].
    destruct (acceptedRequest typed) as [v|] eqn:Hacc; [|exact Hold].
    intros s Hs. apply lookup_insert_Some in Hs as [[_ <-]|[_ Hs]]; [|by apply Hold].
    assert (PlannerProvider.validateRequest v = None) as Hvalid.
    { unfold acceptedRequest in Hacc. destruct typed as [v'|]; [|done].
      destruct (PlannerProvider.validateRequest v') eqn:Hv; [done|].
      by injection Hacc as ->. }
    pose proof (validateRequest_length v Hvalid) as Hlen.
    destruct Hset as [Hwf _]. unfold shape in Hwf. rewrite Hidle in Hwf.
    destruct Hwf as (_ & _ & Hplan).
    unfold shape. cbn. rewrite Hplan. repeat split; try done; lia.
  - rewrite closedDuringSubmit_run. cbv zeta. apply constructor_settled.
    assert (∀ s, PlannerProvider.workspaceState (this w)
                   !! PlannerProvider.WORKFLOW_STATE_KEY = Some s -> shape false s) as Hold.
    { intros s Hs. eapply shape_weaken, settled_stored; [exact Hset|exact Hs]. }
    case_bool_decide as Hgo; [|exact Hold]. destruct Hgo as [Hp Hlen].
    intros s Hs. apply lookup_insert_Some in Hs as [[_ <-]|[_ Hs]]; [|by apply Hold].
    destruct Hset as [Hwf _]. unfold shape in Hwf. rewrite Hp in Hwf.
    destruct Hwf as (_ & _ & Hplan & Hreq).
    unfold shape. cbn. by repeat split.
Qed.

Lemma session_settled (svc : GenerationAdapter.t) (fm : FileManipulator.t)
    (commands : list Command) :
  settled (forallb completes commands) (this (session svc fm commands)).
Proof.
  unfold session.
  assert (settled true (this (PlannerProvider.constructor ∅))) as H0.
  { apply constructor_settled. intros s Hs. by rewrite lookup_empty in Hs. }
  revert H0. generalize (PlannerProvider.constructor ∅).
  change (forallb completes commands) with (true && forallb completes commands).
  generalize true.
  induction commands as [|c cs IH]; intros strict w Hw.
  { cbn. by rewrite andb_true_r. }
  cbn [foldl forallb]. rewrite andb_assoc. apply IH. by apply dispatch_settled.
Qed.


(** X18. After any sequence of commands the stored state is the state of
    the provider, so a new activation resumes with the same state. *)
Theorem session_resumes_where_it_was (svc : GenerationAdapter.t) (fm : FileManipulator.t)
    (commands : list Command) :
  let w := session svc fm commands in
  inSync (this w)
  ∧ PlannerProvider.workflowState (this (dispatch svc fm reactivate w))
    = PlannerProvider.workflowState (this w)
  ∧ PlannerProvider.workflowState (this (session svc fm (commands ++ [reactivate])))
    = PlannerProvider.workflowState (this (session svc fm commands)).
Proof.
  intros w. destruct (session_settled svc fm commands) as [_ Hsync]. fold w in Hsync.
  assert (PlannerProvider.workflowState (this (dispatch svc fm reactivate w))
          = PlannerProvider.workflowState (this w)) as Hre.
  { cbn [dispatch]. rewrite constructor_this. cbn [PlannerProvider.workflowState].
    destruct Hsync as [->|[-> ->]]; done. }
  split; [exact Hsync|]. split; [exact Hre|].
  unfold session. rewrite foldl_app. exact Hre.
Qed.

Lemma refreshed_app (tr new : list Event) :
  refreshedAfterWrites tr = true ->
  refreshedAfterWrites (tr ++ new) = refreshedAfterWrites new.
Proof.
  induction tr as [|e tr IH]; [done|].
  destruct e; try exact IH.
  cbn [refreshedAfterWrites app]. destruct tr as [|e' tr]; [done|].
  by destruct e'.
Qed.

Lemma refreshed_notify (ns : list Notification) (rest : list Event) :
  refreshedAfterWrites (map EvNotify ns ++ rest) = refreshedAfterWrites rest.
Proof. induction ns as [|n ns IH]; [done|]. exact IH. Qed.

Lemma refreshed_silent (evs rest : list Event) :
  writes evs = [] ->
  refreshedAfterWrites (evs ++ rest) = refreshedAfterWrites rest.
Proof.
  induction evs as [|e evs IH]; [done|]. destruct e; try exact IH.
  intros H. discriminate H.
Qed.

Lemma generatePlan_refreshed (svc : GenerationAdapter.t) (typed : option string)
    (w : World PlannerProvider.t) :
  refreshedAfterWrites (trace w) = true ->
  refreshedAfterWrites (trace (exec (PlannerProvider.generatePlan svc typed) w)) = true.
Proof.
  intros Htr.
  destruct (decide (phase (PlannerProvider.workflowState (this w)) = idle)) as [Hidle|Hidle].
  2: { unfold exec. rewrite generatePlan_ignored; [done|by left]. }
  destruct (acceptedRequest typed) as [v|] eqn:Hacc.
  2: { unfold exec. rewrite generatePlan_ignored; [done|by right]. }
  assert (typed = Some v ∧ PlannerProvider.validateRequest v = None) as [-> Hvalid].
  { unfold acceptedRequest in Hacc. destruct typed as [v'|]; [|done].
    destruct (PlannerProvider.validateRequest v') eqn:Hv; [done|].
    by injection Hacc as ->. }
  pose proof (generatePlan_run svc v w Hidle Hvalid) as Hrun. cbv beta zeta in Hrun.
  unfold exec. rewrite Hrun.
  destruct (snd (GenerationAdapter.generateClarificationQuestions svc v None))
    as [[|q qs]|e]; cbn [snd trace];
    rewrite <- !app_assoc, (refreshed_app _ _ Htr); cbn [app refreshedAfterWrites];
    by rewrite refreshed_notify.
Qed.

Lemma answerNextQuestion_refreshed (typed : option string) (w : World PlannerProvider.t) :
  refreshedAfterWrites (trace w) = true ->
  refreshedAfterWrites (trace (exec (PlannerProvider.answerNextQuestion typed) w)) = true.
Proof.
  intros Htr.
  destruct (answerNextQuestion_cases typed w) as [[Hnoop _]|(a & Hacc & Hp & Hlt & _)].
  { unfold exec. by rewrite Hnoop. }
  destruct w as [[s st] tr]. cbn [this trace PlannerProvider.workflowState] in *.
  unfold exec, PlannerProvider.answerNextQuestion.
  run. rewrite Hp. simpl.
  apply Nat.leb_gt in Hlt. rewrite Hlt.
  unfold acceptedAnswer in Hacc.
  destruct typed as [v|]; [|done].
  destruct (PlannerProvider.validateAnswer v) eqn:Hv; [done|].
  rewrite (validateAnswer_accepts v Hv). run.
  destruct (0 <? _)%nat; run; cbn [snd trace];
    rewrite <- ?app_assoc, (refreshed_app _ _ Htr); reflexivity.
Qed.

Lemma submitClarification_refreshed (svc : GenerationAdapter.t) (w : World PlannerProvider.t) :
  refreshedAfterWrites (trace w) = true ->
  refreshedAfterWrites (trace (exec (PlannerProvider.submitClarification svc) w)) = true.
Proof.
  intros Htr. set (s := PlannerProvider.workflowState (this w)).
  destruct (decide (phase s = clarification)) as [Hp|Hp].
  2: { unfold exec. by rewrite submitClarification_ignored. }
  destruct (decide (length (clarificationAnswers s) = length (clarificationQuestions s)))
    as [Hlen|Hlen].
  2: { unfold exec. rewrite (submitClarification_partial svc w Hp Hlen). cbn [snd trace].
       by rewrite (refreshed_app _ _ Htr). }
  pose proof (submitClarification_run svc w Hp Hlen) as Hrun. cbv beta zeta in Hrun.
  fold s in Hrun. unfold exec. rewrite Hrun.
  destruct (snd (GenerationAdapter.generatePlan svc (userRequest s)
                   (clarificationAnswers s) None))
    as [[|i rest]|e]; cbn [snd trace];
    rewrite <- !app_assoc, (refreshed_app _ _ Htr); cbn [app refreshedAfterWrites];
    by rewrite refreshed_notify.
Qed.

Lemma executeToIDE_refreshed (fm : FileManipulator.t) (picked : option string)
    (w : World PlannerProvider.t) :
  refreshedAfterWrites (trace w) = true ->
  refreshedAfterWrites (trace (exec (PlannerProvider.executeToIDE fm picked) w)) = true.
Proof.
  intros Htr. set (s := PlannerProvider.workflowState (this w)).
  destruct (decide (phase s = ready ∧ plan s ≠ [] ∧ picked = Some "Yes, Execute Plan"))
    as [(Hp & Hplan & ->)|Hno].
  - destruct (executeToIDE_run fm w Hp Hplan) as (evs & Hrun & _ & Hw & _).
    unfold exec. rewrite Hrun. cbn [snd trace].
    rewrite (refreshed_app _ _ Htr). cbn [app refreshedAfterWrites].
    by rewrite (refreshed_silent _ _ Hw).
  - destruct w as [[s' st] tr]. cbn [this trace PlannerProvider.workflowState] in *.
    subst s. unfold exec, PlannerProvider.executeToIDE. run.
    destruct (decide (phase s' = ready)) as [Hp|Hp].
    2: { rewrite bool_decide_eq_false_2 by done. cbn [negb orb snd trace].
         by rewrite (refreshed_app _ _ Htr). }
    rewrite bool_decide_eq_true_2 by done. cbn [negb orb].
    destruct (plan s') as [|i l] eqn:Hplan.
    { cbn [length Nat.eqb snd trace]. by rewrite (refreshed_app _ _ Htr). }
    cbn [length Nat.eqb]. run.
    assert (picked ≠ Some "Yes, Execute Plan") as Hpick.
    { intros ->. by apply Hno. }
    rewrite bool_decide_eq_false_2 by done. cbn [negb snd trace].
    by rewrite (refreshed_app _ _ Htr).
Qed.

Lemma restartWorkflow_refreshed (picked : option string) (w : World PlannerProvider.t) :
  refreshedAfterWrites (trace w) = true ->
  refreshedAfterWrites (trace (exec (PlannerProvider.restartWorkflow picked) w)) = true.
Proof.
  intros Htr. destruct (decide (picked = Some "Yes, Restart")) as [->|Hne].
  - destruct w as [[s st] tr]. cbn [trace] in Htr.
    unfold exec, PlannerProvider.restartWorkflow. run.
    rewrite bool_decide_eq_true_2 by done. run. cbn [snd trace].
    rewrite <- ?app_assoc, (refreshed_app _ _ Htr). reflexivity.
  - unfold exec. rewrite (restartWorkflow_declined picked w Hne). cbn [snd trace].
    by rewrite (refreshed_app _ _ Htr).
Qed.

Lemma constructor_refreshed (storage : gmap string WorkflowState) :
  refreshedAfterWrites (trace (PlannerProvider.constructor storage)) = true.
Proof.
  unfold PlannerProvider.constructor, PlannerProvider.loadWorkflowState. run.
  by destruct (storage !! PlannerProvider.WORKFLOW_STATE_KEY).
Qed.

Lemma session_refreshed (svc : GenerationAdapter.t) (fm : FileManipulator.t)
    (commands : list Command) :
  refreshedAfterWrites (trace (session svc fm commands)) = true.
Proof.
  unfold session.
  pose proof (constructor_refreshed ∅) as H0. revert H0.
  generalize (PlannerProvider.constructor ∅).
  induction commands as [|c cs IH]; intros w Hw; [done|].
  simpl. apply IH. destruct c; cbn [dispatch].
  - by apply generatePlan_refreshed.
  - by apply answerNextQuestion_refreshed.
  - by apply submitClarification_refreshed.
  - by apply executeToIDE_refreshed.
  - by apply restartWorkflow_refreshed.
  - apply constructor_refreshed.
  - apply constructor_refreshed.
  - apply constructor_refreshed.
Qed.

Lemma refreshed_lookup (tr : list Event) (i : nat) (key : string) (value : WorkflowState) :
  refreshedAfterWrites tr = true ->
  tr !! i = Some (EvUpdate key value) ->
  tr !! S i = Some EvFire.
Proof.
  revert i. induction tr as [|e tr IH]; intros i Htr Hi; [done|].
  destruct i as [|i].
  - cbn in Hi. injection Hi as ->. cbn [refreshedAfterWrites] in Htr.
    destruct tr as [|e' tr]; [done|]. by destruct e'.
  - cbn in Hi. change ((e :: tr) !! S (S i)) with (tr !! S i). apply IH; [|exact Hi].
    destruct e; try exact Htr. cbn [refreshedAfterWrites] in Htr.
    destruct tr as [|e' tr']; [done|]. by destruct e'.
Qed.

(** X19. Throughout every session, each write to the workspace storage is
    followed at once by a refresh of the tree view, so the view is never
    left showing a state older than the stored one. *)
Theorem every_write_is_followed_by_a_refresh (svc : GenerationAdapter.t)
    (fm : FileManipulator.t) (commands : list Command) :
  let tr := trace (session svc fm commands) in
  refreshedAfterWrites tr = true
  ∧ ∀ i key value, tr !! i = Some (EvUpdate key value) -> tr !! S i = Some EvFire.
Proof.
  intros tr. pose proof (session_refreshed svc fm commands) as Htr. fold tr in Htr.
  split; [exact Htr|]. intros i key value. by apply refreshed_lookup.
Qed.

(** ** The workflow engine with the shipped adapter *)

(** X20. With the service the extension constructs, a start that is
    accepted always ends in the clarification phase with one to three
    questions, and a complete submission always ends in the ready phase
    with a plan of valid actions: the error branches of the two commands
    are never taken, whatever the backend does. *)
Theorem with_gemini_the_workflow_always_advances `{R : Runtime} (svc : GeminiService.t)
    (w : World PlannerProvider.t) :
  let s := PlannerProvider.workflowState (this w) in
  let adapter := GenerationAdapter.gemini svc in
  (∀ v, phase s = idle ->
        PlannerProvider.validateRequest v = None ->
        let s' := PlannerProvider.workflowState
                    (this (exec (PlannerProvider.generatePlan adapter (Some v)) w)) in
        phase s' = clarification
        ∧ userRequest s' = JS.trim v
        ∧ Spec.questionSchema (clarificationQuestions s')
        ∧ clarificationAnswers s' = [])
  ∧ (phase s = clarification ->
     length (clarificationAnswers s) = length (clarificationQuestions s) ->
     let s' := PlannerProvider.workflowState
                 (this (exec (PlannerProvider.submitClarification adapter) w)) in
     phase s' = ready
     ∧ Spec.planSchema (plan s')
     ∧ userRequest s' = userRequest s
     ∧ clarificationQuestions s' = clarificationQuestions s
     ∧ clarificationAnswers s' = clarificationAnswers s).
Proof.
  intros s adapter. split.
  - intros v Hidle Hvalid. cbv zeta.
    pose proof (generatePlan_run adapter v w Hidle Hvalid) as Hrun. cbv beta zeta in Hrun.
    destruct (generateClarificationQuestions_schema svc v None) as (qs & Hqs & Hschema).
    unfold exec. rewrite Hrun.
    change (GenerationAdapter.generateClarificationQuestions adapter v None)
      with (GeminiService.generateClarificationQuestions svc v None).
    rewrite Hqs. destruct qs as [|q qs].
    { destruct Hschema as [[Hlen _] _]. cbn in Hlen. lia. }
    cbn. done.
  - intros Hp Hlen. cbv zeta.
    pose proof (submitClarification_run adapter w Hp Hlen) as Hrun. cbv beta zeta in Hrun.
    fold s in Hrun.
    destruct (generatePlan_schema svc (userRequest s) (clarificationAnswers s) None)
      as (pl & Hpl & Hschema).
    unfold exec. rewrite Hrun.
    change (GenerationAdapter.generatePlan adapter (userRequest s) (clarificationAnswers s)
              None)
      with (GeminiService.generatePlan svc (userRequest s) (clarificationAnswers s) None).
    rewrite Hpl. destruct pl as [|i pl].
    { by destruct Hschema as [Hne _]. }
    cbn. done.
Qed.

(** The start and the submission of the end-to-end scenario. *)
Lemma with_gemini_the_workflow_always_advances_witness :
  phase (PlannerProvider.workflowState Examples.started.(this)) = clarification
  ∧ phase (PlannerProvider.workflowState Examples.planned.(this)) = ready.
Proof.
  split.
  - apply (@with_gemini_the_workflow_always_advances Examples.runtime Examples.offline
             Examples.fresh).
    + reflexivity.
    + reflexivity.
  - apply (@with_gemini_the_workflow_always_advances Examples.runtime Examples.offline
             Examples.answered).
    + reflexivity.
    + reflexivity.
Defined.

(** ** The tree view *)

Lemma omap_command_rows (f : nat -> string -> list PlannerProvider.PlannerItem)
    (l : list string) :
  (∀ i q, omap PlannerProvider.command (f i q) = []) ->
  omap PlannerProvider.command (concat (imap f l)) = [].
Proof.
  revert f. induction l as [|q l IH]; intros f Hf; [done|].
  cbn [imap concat]. rewrite omap_app, Hf. cbn [app]. apply IH. intros i q'. apply Hf.
Qed.

Lemma questionRows_command (s : WorkflowState) :
  omap PlannerProvider.command (PlannerProvider.questionRows s) = [].
Proof.
  unfold PlannerProvider.questionRows. apply omap_command_rows. intros i q.
  by destruct (i <? length (clarificationAnswers s))%nat.
Qed.

Lemma groupRows_command (header : nat -> string) (tag kind : string) (group : list PlanItem) :
  PlannerProvider.commandOf kind = None ->
  omap PlannerProvider.command (PlannerProvider.groupRows header tag kind group) = [].
Proof.
  intros Hkind. unfold PlannerProvider.groupRows.
  destruct (0 <? length group)%nat; [|done].
  cbn [omap list_omap PlannerProvider.command PlannerProvider.newPlannerItem].
  change (PlannerProvider.commandOf "group-header") with (@None string). cbn beta iota.
  induction group as [|i group IH]; [done|].
  cbn [map]. cbn [omap list_omap PlannerProvider.command PlannerProvider.planRow].
  rewrite Hkind. exact IH.
Qed.

Lemma offered_by_phase (s : WorkflowState) :
  offered s
  = match phase s with
    | idle => ["traycer.generatePlan"]
    | clarification =>
        "traycer.restartWorkflow"
        :: (if (0 <? length (clarificationQuestions s))%nat
            then [if (length (clarificationAnswers s) <? length (clarificationQuestions s))%nat
                  then "traycer.answerNextQuestion"
                  else "traycer.submitClarification"]
            else [])
    | planning => []
    | ready =>
        "traycer.restartWorkflow"
        :: (if (0 <? length (plan s))%nat then ["traycer.executeToIDE"] else [])
    end.
Proof.
  unfold offered, PlannerProvider.getRootItems.
  destruct (phase s) eqn:Hp; cbn [bool_decide andb];
    destruct (negb (String.eqb (userRequest s) ""));
    repeat case_bool_decide; try done; cbn [andb];
    repeat match goal with
           | |- context [if (?a <? ?b)%nat then _ else _] => destruct (a <? b)%nat
           end;
    rewrite ?omap_app, ?questionRows_command, ?groupRows_command by done;
    reflexivity.
Qed.

(** X21. The commands the tree offers, by phase: the start when idle; the
    restart and, while there are questions, either the next answer or the
    submission in the clarification phase; nothing in the planning phase;
    the restart and, with a plan, the execution in the ready phase. No
    command is offered twice, and each one is registered by [activate]. *)
Theorem tree_offers_by_phase (s : WorkflowState) :
  offered s
  = match phase s with
    | idle => ["traycer.generatePlan"]
    | clarification =>
        "traycer.restartWorkflow"
        :: (if (0 <? length (clarificationQuestions s))%nat
            then [if (length (clarificationAnswers s) <? length (clarificationQuestions s))%nat
                  then "traycer.answerNextQuestion"
                  else "traycer.submitClarification"]
            else [])
    | planning => []
    | ready =>
        "traycer.restartWorkflow"
        :: (if (0 <? length (plan s))%nat then ["traycer.executeToIDE"] else [])
    end
  ∧ NoDup (offered s)
  ∧ (∀ id, id ∈ offered s -> ∃ c, commandId c = Some id).
Proof.
  pose proof (offered_by_phase s) as Hoff.
  split; [exact Hoff|]. rewrite Hoff. clear Hoff.
  destruct (phase s);
    repeat match goal with
           | |- context [if (?a <? ?b)%nat then _ else _] => destruct (a <? b)%nat
           end;
    (split; [repeat (constructor; [by rewrite ?elem_of_cons, ?elem_of_nil; intuition discriminate|]); constructor|]);
    intros id Hid;
    repeat (apply elem_of_cons in Hid as [->|Hid]);
    try (by apply elem_of_nil in Hid).
  all: first
    [ by exists (generatePlanCommand None)
    | by exists (restartWorkflowCommand None)
    | by exists (answerNextQuestionCommand None)
    | by exists submitClarificationCommand
    | by exists (executeToIDECommand None) ].
Qed.

Lemma not_offered_unchanged (svc : GenerationAdapter.t) (fm : FileManipulator.t)
    (c : Command) (id : string) (w : World PlannerProvider.t) :
  let s := PlannerProvider.workflowState (this w) in
  commandId c = Some id ->
  id ≠ "traycer.restartWorkflow" ->
  id ∉ offered s ->
  this (dispatch svc fm c w) = this w
  ∨ (c = submitClarificationCommand
     ∧ phase s = clarification
     ∧ clarificationQuestions s = []
     ∧ clarificationAnswers s = []).
Proof.
  intros s Hid Hne Hoff. rewrite offered_by_phase in Hoff. fold s in Hoff.
  destruct c as [typed|typed| |picked|picked| |typed|]; cbn in Hid; simplify_eq;
    cbn [dispatch].
  - left. unfold exec. rewrite generatePlan_ignored; [done|]. left. fold s. intros Hp.
    rewrite Hp in Hoff. apply Hoff. apply list_elem_of_here.
  - left. unfold exec. rewrite answerNextQuestion_noop; [done|]. fold s.
    destruct (decide (phase s = clarification)) as [Hp|Hp]; [|by left]. right. left.
    rewrite Hp in Hoff.
    destruct (0 <? length (clarificationQuestions s))%nat eqn:H0.
    + destruct (length (clarificationAnswers s) <? length (clarificationQuestions s))%nat
        eqn:Hlt.
      * exfalso. apply Hoff. apply list_elem_of_further, list_elem_of_here.
      * apply Nat.ltb_ge in Hlt. exact Hlt.
    + apply Nat.ltb_ge in H0. lia.
  - destruct (decide (phase s = clarification)) as [Hp|Hp].
    2: { left. unfold exec. by rewrite submitClarification_ignored. }
    destruct (decide (length (clarificationAnswers s) = length (clarificationQuestions s)))
      as [Hlen|Hlen].
    2: { left. unfold exec. by rewrite (submitClarification_partial svc w Hp Hlen). }
    right. split; [done|]. split; [done|].
    rewrite Hp in Hoff.
    destruct (clarificationQuestions s) as [|q qs] eqn:Hqs.
    { split; [done|]. by destruct (clarificationAnswers s). }
    exfalso. cbn [length] in *. change (0 <? S (length qs))%nat with true in Hoff.
    rewrite Hlen, Nat.ltb_irrefl in Hoff.
    apply Hoff. apply list_elem_of_further, list_elem_of_here.
  - left. apply executeToIDE_declined. fold s.
    destruct (decide (phase s = ready)) as [Hp|Hp]; [|by left]. right. left.
    rewrite Hp in Hoff. destruct (plan s) as [|i rest]; [done|].
    exfalso. apply Hoff. cbn. apply list_elem_of_further, list_elem_of_here.
Qed.

(** X22. In every state, a command other than the restart that the tree
    does not offer leaves the provider unchanged when it is run all the
    same, from the command palette for instance; with one exception. In
    the clarification phase without questions, which is the state a start
    holds and has stored while it awaits the questions, the submission is
    not offered and yet goes through: it asks for a plan from no answer
    at all. *)
Theorem commands_not_offered_do_nothing (svc : GenerationAdapter.t) (fm : FileManipulator.t)
    (c : Command) (id : string) (w : World PlannerProvider.t) :
  let s := PlannerProvider.workflowState (this w) in
  commandId c = Some id ->
  id ≠ "traycer.restartWorkflow" ->
  id ∉ offered s ->
  (this (dispatch svc fm c w) = this w
   ∨ (c = submitClarificationCommand
      ∧ phase s = clarification
      ∧ clarificationQuestions s = []
      ∧ clarificationAnswers s = []))
  ∧ (phase s = clarification ->
     clarificationQuestions s = [] ->
     clarificationAnswers s = [] ->
     ("traycer.submitClarification" ∉ offered s)
     ∧ generationCalls (during (PlannerProvider.submitClarification svc) w)
       = [EvPlan (userRequest s) [] None]).
Proof.
  intros s Hid Hne Hoff. split; [by apply (not_offered_unchanged svc fm c id w)|].
  intros Hp Hq Ha. split.
  - rewrite offered_by_phase, Hp, Hq. cbn.
    intros H. apply list_elem_of_singleton in H. discriminate H.
  - destruct (submitClarification_calls svc w) as [_ Hcalls]. cbv zeta in Hcalls.
    fold s in Hcalls. rewrite Hcalls, bool_decide_eq_true_2; [by rewrite Ha|].
    split; [done|]. by rewrite Hq, Ha.
Qed.

(** Right after the start of the end-to-end scenario a submission changes
    nothing; after a start that was cut short it asks for a plan. *)
Lemma commands_not_offered_do_nothing_witness :
  let cut := session Examples.failingAdapter Examples.secondFails
               [closedDuringStart (Some Examples.request)] in
  this (dispatch Examples.failingAdapter Examples.secondFails submitClarificationCommand
          Examples.started)
  = this Examples.started
  ∧ generationCalls (during (PlannerProvider.submitClarification Examples.failingAdapter) cut)
    = [EvPlan Examples.request [] None].
Proof.
  cbv zeta. split.
  - destruct (commands_not_offered_do_nothing Examples.failingAdapter Examples.secondFails
                submitClarificationCommand "traycer.submitClarification" Examples.started)
      as [[Hsame|(_ & _ & Hq & _)] _].
    + reflexivity.
    + discriminate.
    + vm_compute. intros H.
      repeat (apply elem_of_cons in H as [H|H]; [discriminate H|]).
      by apply elem_of_nil in H.
    + exact Hsame.
    + vm_compute in Hq. discriminate Hq.
  - destruct (commands_not_offered_do_nothing Examples.failingAdapter Examples.secondFails
                submitClarificationCommand "traycer.submitClarification"
                (session Examples.failingAdapter Examples.secondFails
                   [closedDuringStart (Some Examples.request)]))
      as [_ Hcut].
    + reflexivity.
    + discriminate.
    + vm_compute. intros H.
      repeat (apply elem_of_cons in H as [H|H]; [discriminate H|]).
      by apply elem_of_nil in H.
    + destruct Hcut as [_ Hcalls]; [reflexivity|reflexivity|reflexivity|].
      etrans; [exact Hcalls|]. vm_compute. reflexivity.
Defined.

(** X23. A provider whose state is the stored one and is in the planning
    phase, as after an activation on a storage left in that phase, offers
    no command in its tree, and every command leaves it as it is, except
    a confirmed restart. *)
Theorem planning_is_left_by_restart_only (svc : GenerationAdapter.t) (fm : FileManipulator.t)
    (c : Command) (w : World PlannerProvider.t) :
  phase (PlannerProvider.workflowState (this w)) = planning ->
  inSync (this w) ->
  offered (PlannerProvider.workflowState (this w)) = []
  ∧ (this (dispatch svc fm c w) = this w ∨ c = restartWorkflowCommand (Some "Yes, Restart")).
Proof.
  intros Hp Hsync. split; [by rewrite offered_by_phase, Hp|].
  assert (this (PlannerProvider.constructor (PlannerProvider.workspaceState (this w)))
          = this w) as Hnew.
  { rewrite constructor_this. destruct Hsync as [Hs|[_ Hs]].
    - rewrite Hs. cbn [default]. by destruct (this w).
    - rewrite Hs in Hp. discriminate Hp. }
  destruct c as [typed|typed| |picked|picked| |typed|]; cbn [dispatch].
  - left. unfold exec. rewrite generatePlan_ignored; [done|]. left. by rewrite Hp.
  - left. unfold exec. rewrite answerNextQuestion_noop; [done|]. left. by rewrite Hp.
  - left. unfold exec. rewrite submitClarification_ignored; [done|]. by rewrite Hp.
  - left. apply executeToIDE_declined. left. by rewrite Hp.
  - destruct (decide (picked = Some "Yes, Restart")) as [->|Hne]; [by right|].
    left. unfold exec. by rewrite restartWorkflow_declined.
  - by left.
  - left. rewrite closedDuringStart_run. cbv zeta.
    rewrite bool_decide_eq_false_2; [exact Hnew|]. by rewrite Hp.
  - left. rewrite closedDuringSubmit_run. cbv zeta.
    rewrite bool_decide_eq_false_2; [exact Hnew|]. rewrite Hp. by intros [? _].
Qed.

(** The window was closed while the plan was generated. *)
Lemma planning_is_left_by_restart_only_witness :
  offered (PlannerProvider.workflowState (this Examples.interrupted)) = []
  ∧ this (dispatch Examples.failingAdapter Examples.secondFails submitClarificationCommand
            Examples.interrupted)
    = this Examples.interrupted.
Proof.
  destruct (planning_is_left_by_restart_only Examples.failingAdapter Examples.secondFails
              submitClarificationCommand Examples.interrupted) as [Hoff [Hsame|Hc]].
  - reflexivity.
  - left. reflexivity.
  - split; [exact Hoff|exact Hsame].
  - discriminate Hc.
Defined.

Lemma omap_rows_nil {B} (P : PlannerProvider.PlannerItem -> option B)
    (f : nat -> string -> list PlannerProvider.PlannerItem) (l : list string) :
  (∀ i q, omap P (f i q) = []) -> omap P (concat (imap f l)) = [].
Proof.
  revert f. induction l as [|q l IH]; intros f Hf; [done|].
  cbn [imap concat]. rewrite omap_app, Hf. cbn [app]. apply IH. intros i q'. apply Hf.
Qed.

Lemma questionRows_tooltip {B} (g : PlannerProvider.PlannerItem -> B) (s : WorkflowState) :
  omap (fun row => match PlannerProvider.tooltip row with
                   | Some _ => Some (g row)
                   | None => None
                   end) (PlannerProvider.questionRows s) = [].
Proof.
  unfold PlannerProvider.questionRows. apply omap_rows_nil. intros i q.
  by destruct (i <? length (clarificationAnswers s))%nat.
Qed.

Lemma groupRows_tooltip (header : nat -> string) (tag kind : string) (group : list PlanItem) :
  omap (fun row => match PlannerProvider.tooltip row with
                   | Some _ => Some (PlannerProvider.itemType row, PlannerProvider.label row)
                   | None => None
                   end) (PlannerProvider.groupRows header tag kind group)
  = map (fun planItem => (kind, tag +:+ " " +:+ file planItem)) group.
Proof.
  unfold PlannerProvider.groupRows. destruct group as [|i group]; [done|].
  change (0 <? length (i :: group))%nat with true. cbv iota.
  cbn [omap list_omap PlannerProvider.tooltip PlannerProvider.newPlannerItem].
  generalize (i :: group). clear. intros group.
  induction group as [|i group IH]; [done|].
  cbn [map omap list_omap PlannerProvider.tooltip PlannerProvider.planRow
         PlannerProvider.itemType PlannerProvider.label].
  f_equal. exact IH.
Qed.

Lemma withAction_rows (a kind tag : string) (plan : list PlanItem) :
  (∀ f, rowOf {| file := f; action := a; description := "" |} = (kind, tag +:+ " " +:+ f)) ->
  map (fun planItem => (kind, tag +:+ " " +:+ file planItem))
    (PlannerProvider.withAction a plan)
  = map rowOf (PlannerProvider.withAction a plan).
Proof.
  intros Hrow. unfold PlannerProvider.withAction.
  induction plan as [|i plan IH]; [done|]. cbn [List.filter].
  destruct (String.eqb (action i) a) eqn:Ha; [|exact IH].
  apply String.eqb_eq in Ha. cbn [map]. rewrite IH. f_equal.
  rewrite <- (Hrow (file i)). destruct i as [f a' d]. cbn [action file] in *. by subst a'.
Qed.

Lemma withAction_partition (plan : list PlanItem) :
  Forall (fun i => Spec.validAction (action i)) plan ->
  PlannerProvider.withAction ActionType.NEW plan
  ++ PlannerProvider.withAction ActionType.MODIFY plan
  ++ PlannerProvider.withAction ActionType.REMOVE plan
  ≡ₚ plan.
Proof.
  induction 1 as [|i plan Hi _ IH]; [done|].
  unfold PlannerProvider.withAction in *. cbn [List.filter].
  unfold Spec.validAction in Hi.
  apply elem_of_cons in Hi as [Hi|Hi]; [|apply elem_of_cons in Hi as [Hi|Hi]];
    [| |apply list_elem_of_singleton in Hi]; rewrite Hi; cbn.
  - by f_equiv.
  - rewrite <- Permutation_middle. by f_equiv.
  - rewrite app_assoc, <- Permutation_middle, <- app_assoc. by f_equiv.
Qed.

(** X24. The rows of the plan: none outside the ready phase; in the
    ready phase the new files, then the modified ones, then the removed
    ones, each group in the order of the plan, labelled with the tag
    [getActionLabel] gives and the file. When every action is valid, every
    item of the plan has exactly one row. *)
Theorem plan_rows_show_each_item_once (s : WorkflowState) :
  (phase s ≠ ready -> planRows s = [])
  ∧ (phase s = ready ->
     planRows s
     = map rowOf (PlannerProvider.withAction ActionType.NEW (plan s))
       ++ map rowOf (PlannerProvider.withAction ActionType.MODIFY (plan s))
       ++ map rowOf (PlannerProvider.withAction ActionType.REMOVE (plan s)))
  ∧ (phase s = ready ->
     Forall (fun i => Spec.validAction (action i)) (plan s) ->
     planRows s ≡ₚ map rowOf (plan s)).
Proof.
  assert (phase s = ready ->
          planRows s
          = map rowOf (PlannerProvider.withAction ActionType.NEW (plan s))
            ++ map rowOf (PlannerProvider.withAction ActionType.MODIFY (plan s))
            ++ map rowOf (PlannerProvider.withAction ActionType.REMOVE (plan s))) as Hready.
  { intros Hp. unfold planRows, PlannerProvider.getRootItems. rewrite Hp.
    destruct (negb (String.eqb (userRequest s) ""));
      repeat case_bool_decide; try done; cbn [andb];
      (destruct (0 <? length (plan s))%nat eqn:Hlen;
       [|by destruct (plan s)]);
      rewrite !omap_app, !groupRows_tooltip;
      rewrite !withAction_rows by (intros; reflexivity);
      cbn [omap list_omap PlannerProvider.tooltip PlannerProvider.newPlannerItem app];
      rewrite ?app_nil_r, <- ?app_assoc; reflexivity. }
  split; [|split; [exact Hready|]].
  - intros Hp. unfold planRows, PlannerProvider.getRootItems.
    destruct (phase s) eqn:Hphase; try done;
      destruct (negb (String.eqb (userRequest s) ""));
      repeat case_bool_decide; try done; cbn [andb];
      repeat match goal with
             | |- context [if (?a <? ?b)%nat then _ else _] => destruct (a <? b)%nat
             end;
      rewrite ?omap_app, ?questionRows_tooltip; reflexivity.
  - intros Hp Hvalid. rewrite (Hready Hp), <- !map_app.
    by rewrite (withAction_partition (plan s) Hvalid).
Qed.

(** The six items of the end-to-end scenario. *)
Lemma plan_rows_show_each_item_once_witness :
  length (planRows (PlannerProvider.workflowState (this Examples.planned))) = 6%nat.
Proof.
  destruct (plan_rows_show_each_item_once
              (PlannerProvider.workflowState (this Examples.planned))) as (_ & _ & Hperm).
  rewrite Hperm.
  - reflexivity.
  - reflexivity.
  - vm_compute. repeat constructor.
Defined.


Lemma omap_concat_imap {A B C} (P : B -> option C) (f : nat -> A -> list B) (l : list A) :
  omap P (concat (imap f l)) = concat (imap (fun i x => omap P (f i x)) l).
Proof.
  revert f. induction l as [|x l IH]; intros f; [done|].
  cbn [imap concat]. by rewrite omap_app, IH.
Qed.

Lemma answer_rows_aux (g : nat -> string -> string) (answers questions : list string)
    (k : nat) :
  (length answers ≤ length questions)%nat ->
  concat (imap (fun i (_ : string) =>
                  if (i <? length answers)%nat
                  then [g (k + i)%nat (default "undefined" (answers !! i))]
                  else []) questions)
  = imap (fun i a => g (k + i)%nat a) answers.
Proof.
  revert answers k. induction questions as [|q questions IH]; intros answers k Hle.
  { destruct answers; [done|]. cbn in Hle. lia. }
  destruct answers as [|a answers].
  { cbn [imap concat length]. clear. 
    change (concat (imap ((fun i (_ : string) => @nil string) ∘ S) questions) = []).
    induction questions as [|q' qs IH]; [done|]. exact IH. }
  cbn [imap concat length]. cbn [length] in Hle.
  change (0 <? S (length answers))%nat with true. cbv iota. cbn [app lookup default].
  rewrite Nat.add_0_r. f_equal.
  specialize (IH answers (S k) ltac:(lia)).
  etrans; [|etrans; [exact IH|]].
  - f_equal. apply imap_ext. intros i x _. unfold compose.
    change (S i <? S (length answers))%nat with (i <? length answers)%nat.
    destruct (i <? length answers)%nat; [|done].
    replace (k + S i)%nat with (S k + i)%nat by lia. reflexivity.
  - apply imap_ext. intros i x _. unfold compose. f_equal. lia.
Qed.

Lemma concat_imap_singleton {A B} (h : nat -> A -> B) (l : list A) :
  concat (imap (fun i x => [h i x]) l) = imap h l.
Proof.
  revert h. induction l as [|x l IH]; intros h; [done|].
  cbn [imap concat app]. f_equal. apply (IH (h ∘ S)).
Qed.

Lemma questionRows_answers (s : WorkflowState) :
  bounded s ->
  omap (fun row => if String.eqb (PlannerProvider.itemType row) "answer"
                   then Some (PlannerProvider.label row) else None)
    (PlannerProvider.questionRows s)
  = imap (fun i a => "💬 A" +:+ JS.ofNat (i + 1) +:+ ": " +:+ a) (clarificationAnswers s).
Proof.
  intros Hb. unfold PlannerProvider.questionRows. rewrite omap_concat_imap.
  etrans; [|apply (answer_rows_aux
                     (fun n a => "💬 A" +:+ JS.ofNat (n + 1) +:+ ": " +:+ a)
                     (clarificationAnswers s) (clarificationQuestions s) 0 Hb)].
  f_equal. apply imap_ext. intros i q _. cbv zeta.
  destruct (i <? length (clarificationAnswers s))%nat; [|done].
  cbn [omap list_omap PlannerProvider.itemType PlannerProvider.label
         PlannerProvider.newPlannerItem].
  change (String.eqb "question" "answer") with false.
  change (String.eqb "answer" "answer") with true. cbv iota. cbn [app Nat.add].
  by destruct (clarificationAnswers s !! i).
Qed.

Lemma questionRows_questions (s : WorkflowState) :
  omap (fun row => if String.eqb (PlannerProvider.itemType row) "question"
                   then Some (PlannerProvider.label row) else None)
    (PlannerProvider.questionRows s)
  = imap (fun i q =>
            (if (i <? length (clarificationAnswers s))%nat then "✅" else "❔")
            +:+ " Q" +:+ JS.ofNat (i + 1) +:+ ": " +:+ q)
      (clarificationQuestions s).
Proof.
  unfold PlannerProvider.questionRows. rewrite omap_concat_imap.
  etrans; [|apply concat_imap_singleton]. f_equal. apply imap_ext. intros i q _.
  cbv zeta. by destruct (i <? length (clarificationAnswers s))%nat.
Qed.

(** X25. In the clarification phase the tree shows one row for each
    question, numbered from one and ticked when it is answered, and one
    row for each recorded answer, numbered as its question; the text of an
    answer row is the answer, never [undefined]. *)
Theorem tree_shows_each_answer_under_its_question (s : WorkflowState) :
  phase s = clarification ->
  bounded s ->
  rowsOfType "answer" s
  = imap (fun i a => "💬 A" +:+ JS.ofNat (i + 1) +:+ ": " +:+ a) (clarificationAnswers s)
  ∧ rowsOfType "question" s
    = imap (fun i q =>
              (if (i <? length (clarificationAnswers s))%nat then "✅" else "❔")
              +:+ " Q" +:+ JS.ofNat (i + 1) +:+ ": " +:+ q)
        (clarificationQuestions s).
Proof.
  intros Hp Hb.
  destruct (0 <? length (clarificationQuestions s))%nat eqn:Hlen.
  - split; unfold rowsOfType, PlannerProvider.getRootItems; rewrite Hp, Hlen;
      destruct (negb (String.eqb (userRequest s) ""));
      repeat case_bool_decide; try done; cbn [andb];
      rewrite !omap_app, ?(questionRows_answers s Hb), ?questionRows_questions;
      destruct (length (clarificationAnswers s) <? length (clarificationQuestions s))%nat;
      cbn [omap list_omap PlannerProvider.itemType PlannerProvider.label
             PlannerProvider.newPlannerItem app];
      by rewrite ?app_nil_r.
  - unfold bounded in Hb.
    destruct (clarificationQuestions s) as [|q qs] eqn:Hqs; [|done].
    destruct (clarificationAnswers s) as [|a answers] eqn:Has; [|cbn in Hb; lia].
    split; unfold rowsOfType, PlannerProvider.getRootItems; rewrite Hp, Hqs;
      destruct (negb (String.eqb (userRequest s) ""));
      repeat case_bool_decide; try done; reflexivity.
Qed.

(** The three answers of the end-to-end scenario. *)
Lemma tree_shows_each_answer_under_its_question_witness :
  rowsOfType "answer" (PlannerProvider.workflowState (this Examples.answered))
  = ["💬 A1: Auth0"; "💬 A2: yes"; "💬 A3: no"].
Proof.
  destruct (tree_shows_each_answer_under_its_question
              (PlannerProvider.workflowState (this Examples.answered))) as [Ha _].
  - reflexivity.
  - vm_compute. lia.
  - etrans; [exact Ha|]. vm_compute. reflexivity.
Defined.

(** ** More on the webview provider *)

(** X26. The sidebar handles every message without throwing. The answers
    it holds are those received since the last restart, whichever request
    they answered: a new request replaces the request and keeps the
    answers. Each answer triggers one generation of the plan, from the
    current request, all of these answers, and the context of the
    analysis. *)
Theorem sidebar_answers_outlive_the_request (svc : GenerationAdapter.t)
    (messages : list SidebarProvider.Message) (answer : string)
    (w : World SidebarProvider.t) :
  let p := this w in
  let w' := exec (receiveAll svc messages) w in
  let request := requestAfter messages (SidebarProvider.currentRequest p) in
  let answers := answersAfter messages (SidebarProvider.clarificationAnswers p) in
  returned (receiveAll svc messages) w = Ok ()
  ∧ SidebarProvider.currentRequest (this w') = request
  ∧ SidebarProvider.clarificationAnswers (this w') = answers
  ∧ SidebarProvider.codebaseContext (this w') = SidebarProvider.codebaseContext p
  ∧ generationCalls (during (SidebarProvider.handleSubmitAnswer svc answer) w')
    = [EvPlan request (answers ++ [answer]) (SidebarProvider.codebaseContext p)].
Proof.
  intros p w' request answers.
  destruct (receiveAll_this svc messages w) as (w1 & Hrun & Ha & Hr & Hc).
  assert (w' = w1) as -> by (unfold w', exec; by rewrite Hrun).
  unfold returned. rewrite Hrun. split; [done|]. split; [exact Hr|].
  split; [exact Ha|]. split; [exact Hc|].
  erewrite during_eq.
  2: { unfold exec. rewrite handleSubmitAnswer_run. cbn [snd trace]. reflexivity. }
  rewrite Ha, Hr, Hc. read_trace. reflexivity.
Qed.

(** X27. [executeToIDE] in the sidebar touches no file and calls no
    adapter: it posts one prompt for each item of the current plan, in
    order, with the file and the action of the item, and leaves the
    sidebar as it is. *)
Theorem sidebar_execute_only_posts_prompts (w : World SidebarProvider.t) :
  let p := this w in
  let m := SidebarProvider.handleExecuteToIDE in
  let prompts := SidebarProvider.generateCopilotPrompts (SidebarProvider.currentPlan p)
                   (SidebarProvider.codebaseContext p) in
  returned m w = Ok ()
  ∧ this (exec m w) = p
  ∧ during m w = [EvPost (showLoading "Generating Copilot prompts...");
                  EvPost (showCopilotPrompts prompts)]
  ∧ applied (during m w) = []
  ∧ generationCalls (during m w) = []
  ∧ map fst prompts
    = map (fun item => (file item, action item)) (SidebarProvider.currentPlan p).
Proof.
  intros p m prompts.
  assert (during m w = [EvPost (showLoading "Generating Copilot prompts...");
                        EvPost (showCopilotPrompts prompts)]) as Hd.
  { apply during_eq. unfold exec, m. by rewrite handleExecuteToIDE_run. }
  rewrite Hd. unfold returned, exec, m. rewrite handleExecuteToIDE_run. cbn [fst snd this].
  split; [done|]. split; [done|]. split; [done|].
  split; [done|]. split; [done|].
  unfold prompts, SidebarProvider.generateCopilotPrompts. cbv zeta.
  rewrite map_map. reflexivity.
Qed.

(** X28. When the generation of the plan throws in the sidebar, the
    current plan is kept, the answer stays recorded, and the last message
    posted to the view is an error: it carries the message of the value
    thrown when that is an [Error], and otherwise the words Unknown
    error. *)
Theorem sidebar_failed_plan_keeps_the_answer (svc : GenerationAdapter.t) (answer : string)
    (error : JS.Exception) (w : World SidebarProvider.t) :
  let p := this w in
  let m := SidebarProvider.handleSubmitAnswer svc answer in
  snd (GenerationAdapter.generatePlan svc (SidebarProvider.currentRequest p)
         (SidebarProvider.clarificationAnswers p ++ [answer])
         (SidebarProvider.codebaseContext p)) = Throw error ->
  returned m w = Ok ()
  ∧ SidebarProvider.clarificationAnswers (this (exec m w))
    = SidebarProvider.clarificationAnswers p ++ [answer]
  ∧ SidebarProvider.currentPlan (this (exec m w)) = SidebarProvider.currentPlan p
  ∧ last (during m w)
    = Some (EvPost (showError ("Error: " +:+ match error with
                                             | JS.ErrorObject _ message => message
                                             | JS.Thrown _ => "Unknown error"
                                             end))).
Proof.
  intros p m Hthrow. unfold during, returned, exec, m. rewrite handleSubmitAnswer_run.
  cbn [fst snd this trace SidebarProvider.clarificationAnswers SidebarProvider.currentPlan].
  fold p. rewrite Hthrow. split; [done|]. split; [done|]. split; [done|].
  rewrite drop_app_length. rewrite !app_assoc. apply last_snoc.
Qed.

(** The sidebar holds the fallback plan for the request and one answer
    when a second answer arrives: with an adapter that throws an [Error]
    the view is told its message, with one that throws a string it is
    told Unknown error; the plan stays in both cases. *)
Lemma sidebar_failed_plan_keeps_the_answer_witness :
  let w := Examples.sidebarPlanned in
  let failing := SidebarProvider.handleSubmitAnswer Examples.failingAdapter "yes" in
  let rejecting := SidebarProvider.handleSubmitAnswer Examples.rejectingAdapter "yes" in
  SidebarProvider.currentPlan (this w) = Spec.authPlan
  ∧ SidebarProvider.clarificationAnswers (this (exec failing w)) = ["Auth0"; "yes"]
  ∧ SidebarProvider.currentPlan (this (exec failing w)) = Spec.authPlan
  ∧ last (during failing w) = Some (EvPost (showError "Error: backend down"))
  ∧ SidebarProvider.currentPlan (this (exec rejecting w)) = Spec.authPlan
  ∧ last (during rejecting w) = Some (EvPost (showError "Error: Unknown error")).
Proof.
  cbv zeta.
  destruct (sidebar_failed_plan_keeps_the_answer Examples.failingAdapter "yes"
              (JS.Error "backend down") Examples.sidebarPlanned)
    as (_ & Ha & Hp & Hl); [reflexivity|].
  destruct (sidebar_failed_plan_keeps_the_answer Examples.rejectingAdapter "yes"
              (JS.Thrown "rate limited") Examples.sidebarPlanned)
    as (_ & _ & Hp' & Hl'); [reflexivity|].
  split; [by vm_compute|]. split; [exact Ha|]. split; [exact Hp|]. split; [exact Hl|].
  split; [exact Hp'|exact Hl'].
Defined.

Lemma includes_prefix (s sub : string) : String.prefix sub s = true -> JS.includes s sub = true.
Proof. intros H. destruct s; simpl in *; by rewrite H. Qed.

Lemma includes_middle (pre s post : string) : JS.includes (pre +:+ s +:+ post) s = true.
Proof.
  induction pre as [|a pre IH].
  - change ("" +:+ s +:+ post) with (s +:+ post). apply includes_prefix, prefix_refl_append.
  - change (String a pre +:+ s +:+ post) with (String a (pre +:+ s +:+ post)).
    rewrite includes_cons, IH. apply orb_true_r.
Qed.

Lemma includes_append_r (pre t sub : string) :
  JS.includes t sub = true -> JS.includes (pre +:+ t) sub = true.
Proof.
  intros H. induction pre as [|a pre IH]; [done|].
  change (String a pre +:+ t) with (String a (pre +:+ t)).
  rewrite includes_cons, IH. apply orb_true_r.
Qed.

(** X29. A prompt contains the context sentence followed by the
    description of the item; it names the file of the item when the action
    is one of the three; for any other action it is the context sentence
    and the description alone. *)
Theorem copilot_prompt_mentions_the_item (item : PlanItem) (contextInfo : string) :
  let prompt := SidebarProvider.createCopilotPrompt item contextInfo in
  JS.includes prompt (contextInfo +:+ description item) = true
  ∧ (Spec.validAction (action item) -> JS.includes prompt (file item) = true)
  ∧ (¬ Spec.validAction (action item) -> prompt = contextInfo +:+ description item).
Proof.
  intros prompt. subst prompt. unfold SidebarProvider.createCopilotPrompt. cbv zeta.
  destruct (String.eqb (action item) "new") eqn:Hnew;
    [|destruct (String.eqb (action item) "modify") eqn:Hmod;
      [|destruct (String.eqb (action item) "remove") eqn:Hrem]].
  - apply String.eqb_eq in Hnew. split; [|split].
    + do 3 apply includes_append_r. apply includes_prefix, prefix_refl_append.
    + intros _. apply includes_middle.
    + intros Hno. exfalso. apply Hno. rewrite Hnew. apply list_elem_of_here.
  - apply String.eqb_eq in Hmod. split; [|split].
    + do 3 apply includes_append_r. apply includes_prefix, prefix_refl_append.
    + intros _. apply includes_middle.
    + intros Hno. exfalso. apply Hno. rewrite Hmod.
      apply list_elem_of_further, list_elem_of_here.
  - apply String.eqb_eq in Hrem. split; [|split].
    + do 3 apply includes_append_r. apply includes_prefix, prefix_refl_append.
    + intros _. apply includes_middle.
    + intros Hno. exfalso. apply Hno. rewrite Hrem.
      apply list_elem_of_further, list_elem_of_further, list_elem_of_here.
  - split; [|split].
    + apply includes_prefix. clear. induction (contextInfo +:+ description item) as [|a s IH];
        [done|]. cbn [String.prefix]. by destruct (Ascii.ascii_dec a a).
    + intros Hvalid. unfold Spec.validAction in Hvalid.
      apply String.eqb_neq in Hnew, Hmod, Hrem.
      apply elem_of_cons in Hvalid as [?|Hvalid]; [done|].
      apply elem_of_cons in Hvalid as [?|Hvalid]; [done|].
      apply list_elem_of_singleton in Hvalid. done.
    + done.
Qed.
